(** * deploy.py: the configuration wizard of the K3s deployment script

    A shallow embedding of [src/deploy.py]: the configuration store
    ([ConfigManager]), the template parameter catalogue and build descriptor
    ([PackerManager]) and the interactive flows of [DeploymentOrchestrator].

    Conventions of the embedding.
    - Python [str] is [string]; terminal input is ASCII text, one [string]
      per line read by [input()].
    - Python [int] is [Z].  CPython's optional cap on the number of digits
      accepted by [int(str)] and [str(int)] is not modelled.
    - A Python [dict] is an association list in insertion order with
      pairwise distinct keys (module [PyDict]).
    - The file system is a finite map from paths to nodes; standard input is
      the list of lines still to be read; both are threaded through the
      flows by the state-and-exception monad [M].
    - Terminal output ([print]) and the log file are not part of the state. *)

From Stdlib Require Import ZArith String Ascii List DecimalString Lia.
From Stdlib Require DecimalPos.
From stdpp Require Import gmap strings list.

Set Warnings "-register-all".

Open Scope string_scope.
Open Scope Z_scope.

(** ** Python string primitives *)

Module PyStr.

Definition chars (s : string) : list ascii := list_ascii_of_string s.
Definition of_chars (cs : list ascii) : string := string_of_list_ascii cs.

(** [str.isspace] on ASCII: TAB..CR, FS..US and the blank. *)
Definition is_space (c : ascii) : bool :=
  let n := N_of_ascii c in
  ((9 <=? n) && (n <=? 13) || (28 <=? n) && (n <=? 32))%N.

Definition is_digit (c : ascii) : bool :=
  let n := N_of_ascii c in ((48 <=? n) && (n <=? 57))%N.

Definition digit_value (c : ascii) : Z := Z.of_N (N_of_ascii c) - 48.

Fixpoint lstrip (cs : list ascii) : list ascii :=
  match cs with
  | c :: cs' => if is_space c then lstrip cs' else cs
  | [] => []
  end.

Definition rstrip (cs : list ascii) : list ascii := rev (lstrip (rev cs)).

(** [s.strip()] *)
Definition strip (s : string) : string := of_chars (rstrip (lstrip (chars s))).

Definition lower_char (c : ascii) : ascii :=
  let n := N_of_ascii c in
  if ((65 <=? n) && (n <=? 90))%N then ascii_of_N (n + 32) else c.

(** [s.lower()] *)
Definition lower (s : string) : string := of_chars (map lower_char (chars s)).

Fixpoint is_prefix (p cs : list ascii) : bool :=
  match p, cs with
  | [], _ => true
  | a :: p', b :: cs' => Ascii.eqb a b && is_prefix p' cs'
  | _ :: _, [] => false
  end.

(** [s.endswith(suffix)] *)
Definition endswith (s suffix : string) : bool :=
  is_prefix (rev (chars suffix)) (rev (chars s)).

(** The digit part of a decimal literal as [int()] reads it: digits, with
    single underscores allowed between two digits. *)
Fixpoint digits_acc (acc : Z) (cs : list ascii) : option Z :=
  match cs with
  | [] => Some acc
  | c :: cs' =>
      if is_digit c then digits_acc (10 * acc + digit_value c) cs'
      else if Ascii.eqb c "_" then
        match cs' with
        | d :: _ => if is_digit d then digits_acc acc cs' else None
        | [] => None
        end
      else None
  end.

Definition parse_digits (cs : list ascii) : option Z :=
  match cs with
  | c :: _ => if is_digit c then digits_acc 0 cs else None
  | [] => None
  end.

(** The white space [int()] skips around the literal of an ASCII text:
    TAB..CR and the blank.  FS..US, which [str.strip] removes, are not
    skipped: [int] raises [ValueError] on them. *)
Definition is_int_space (c : ascii) : bool :=
  let n := N_of_ascii c in
  ((9 <=? n) && (n <=? 13) || (n =? 32))%N.

Fixpoint int_lstrip (cs : list ascii) : list ascii :=
  match cs with
  | c :: cs' => if is_int_space c then int_lstrip cs' else cs
  | [] => []
  end.

Definition int_rstrip (cs : list ascii) : list ascii :=
  rev (int_lstrip (rev cs)).

(** [int(s)] in base ten: [Some n] for the value, [None] for [ValueError].
    Surrounding white space is skipped, one sign is accepted. *)
Definition py_int (s : string) : option Z :=
  match int_rstrip (int_lstrip (chars s)) with
  | c :: ds =>
      if Ascii.eqb c "+" then parse_digits ds
      else if Ascii.eqb c "-" then option_map Z.opp (parse_digits ds)
      else parse_digits (c :: ds)
  | [] => None
  end.

(** [str(n)] for an integer. *)
Definition str_of_int (n : Z) : string := NilZero.string_of_int (Z.to_int n).

Definition hex_digit (n : N) : ascii :=
  if (n <? 10)%N then ascii_of_N (48 + n) else ascii_of_N (87 + n).

Definition repr_char (quote : ascii) (c : ascii) : list ascii :=
  let n := N_of_ascii c in
  if Ascii.eqb c "\" then ["\"; "\"]%char
  else if Ascii.eqb c quote then ["\"%char; quote]
  else if (n =? 9)%N then ["\"; "t"]%char
  else if (n =? 10)%N then ["\"; "n"]%char
  else if (n =? 13)%N then ["\"; "r"]%char
  else if ((n <? 32) || (n =? 127))%N
       then ["\"%char; "x"%char; hex_digit (n / 16); hex_digit (n mod 16)]
  else [c].

Definition has_char (c : ascii) (cs : list ascii) : bool :=
  existsb (Ascii.eqb c) cs.

(** The double-quote character. *)
Definition dquote : ascii := ascii_of_N 34.

(** [s.split(sep)] for a one-character separator. *)
Fixpoint split_acc (sep : ascii) (cur : list ascii) (cs : list ascii) : list string :=
  match cs with
  | [] => [of_chars (rev cur)]
  | c :: cs' =>
      if Ascii.eqb c sep then of_chars (rev cur) :: split_acc sep [] cs'
      else split_acc sep (c :: cur) cs'
  end.

Definition split (sep : ascii) (s : string) : list string := split_acc sep [] (chars s).

(** [repr(s)] for a string: single quotes, unless the text has a single
    quote and no double quote. *)
Definition repr_str (s : string) : string :=
  let cs := chars s in
  let quote : ascii :=
    if has_char "'" cs && negb (has_char dquote cs) then dquote else "'"%char in
  of_chars (quote :: flat_map (repr_char quote) cs ++ [quote])%list.

End PyStr.

(** ** Python values and dictionaries *)

(** The values a configuration document or a build descriptor is made of.
    Floats are left out. *)
Inductive value : Type :=
  | VNone
  | VBool (b : bool)
  | VInt (n : Z)
  | VStr (s : string)
  | VList (items : list value)
  | VDict (entries : list (string * value)).

Module PyDict.

(** A [dict] with [str] keys, in insertion order. *)
Definition t : Type := list (string * value).

Definition empty : t := [].

(** [d.get(k)] / [d[k]] *)
Fixpoint get (k : string) (d : t) : option value :=
  match d with
  | [] => None
  | (k', v) :: d' => if String.eqb k k' then Some v else get k d'
  end.

(** [k in d] *)
Definition mem (k : string) (d : t) : bool :=
  match get k d with Some _ => true | None => false end.

(** [d[k] = v]: rebinds [k] in place when present, appends it otherwise. *)
Fixpoint set (k : string) (v : value) (d : t) : t :=
  match d with
  | [] => [(k, v)]
  | (k', v') :: d' =>
      if String.eqb k k' then (k', v) :: d' else (k', v') :: set k v d'
  end.

Definition keys (d : t) : list string := map fst d.

End PyDict.

(** [repr(v)] *)
Fixpoint py_repr (v : value) : string :=
  match v with
  | VNone => "None"
  | VBool true => "True"
  | VBool false => "False"
  | VInt n => PyStr.str_of_int n
  | VStr s => PyStr.repr_str s
  | VList items => "[" ++ String.concat ", " (map py_repr items) ++ "]"
  | VDict entries =>
      "{" ++ String.concat ", "
               (map (fun kv => PyStr.repr_str (fst kv) ++ ": " ++ py_repr (snd kv))
                    entries) ++ "}"
  end.

(** [str(v)] *)
Definition py_str (v : value) : string :=
  match v with
  | VStr s => s
  | _ => py_repr v
  end.

(** Truth value of an object, as [if not config] tests it. *)
Definition truthy (v : value) : bool :=
  match v with
  | VNone => false
  | VBool b => b
  | VInt n => negb (n =? 0)
  | VStr s => negb (String.eqb s "")
  | VList items => match items with [] => false | _ => true end
  | VDict entries => match entries with [] => false | _ => true end
  end.

(** ** Paths and the file system *)

(** A [pathlib.Path] by its parts; an absolute path starts with the part
    [/] (a leading double slash is read as the root).  The part [..],
    symbolic links and permissions are outside the model: a path names a
    node by its parts. *)
Module PyPath.

Abbreviation t := (list string).

Definition keep_part (part : string) : bool :=
  negb (String.eqb part "") && negb (String.eqb part ".").

(** [Path(s)] *)
Definition of_str (s : string) : t :=
  let parts := filter (fun part => keep_part part = true)
                      (PyStr.split "/" s) in
  match PyStr.chars s with
  | c :: _ => if Ascii.eqb c "/" then "/" :: parts else parts
  | [] => parts
  end.

(** [str(p)] *)
Definition to_str (p : t) : string :=
  match p with
  | [] => "."
  | root :: rest =>
      if String.eqb root "/" then "/" ++ String.concat "/" rest
      else String.concat "/" p
  end.

(** [p / name] for a relative one-part [name]. *)
Definition child (p : t) (name : string) : t := (p ++ [name])%list.

(** [p.parent] *)
Definition parent (p : t) : t :=
  match p with
  | [root] => if String.eqb root "/" then p else []
  | _ => removelast p
  end.

(** The current directory and the root are not entries of a directory. *)
Definition is_anchor (p : t) : bool :=
  match p with
  | [] => true
  | [root] => String.eqb root "/"
  | _ => false
  end.

End PyPath.

Inductive node : Type :=
  | File (contents : string)
  | Dir.

(** The exceptions the flows can meet. *)
Inductive exn : Type :=
  | EOFError
  | FileNotFoundError
  | IsADirectoryError
  | NotADirectoryError
  | FileExistsError
  | YAMLError
  | AttributeError
  | TypeError
  | IndexError.

Inductive result (A : Type) : Type :=
  | Ok (a : A)
  | Raise (e : exn).
Arguments Ok {A} a.
Arguments Raise {A} e.

Module FS.

Abbreviation t := (gmap (list string) node).

(** Walks [rest] below [pre]: every part on the way must be a directory. *)
Fixpoint walk (fs : t) (pre : PyPath.t) (rest : list string) : result unit :=
  match rest with
  | [] => Ok tt
  | part :: rest' =>
      let q := (pre ++ [part])%list in
      if PyPath.is_anchor q then walk fs q rest'
      else match fs !! q with
           | Some Dir => walk fs q rest'
           | Some (File _) => Raise NotADirectoryError
           | None => Raise FileNotFoundError
           end
  end.

(** [p.exists()] *)
Definition exists_ (fs : t) (p : PyPath.t) : bool :=
  PyPath.is_anchor p ||
  match walk fs [] (PyPath.parent p), fs !! p with
  | Ok _, Some _ => true
  | _, _ => false
  end.

(** [open(p, 'r')] followed by reading the whole text. *)
Definition read_text (fs : t) (p : PyPath.t) : result string :=
  if PyPath.is_anchor p then Raise IsADirectoryError
  else match walk fs [] (PyPath.parent p) with
       | Raise e => Raise e
       | Ok _ =>
           match fs !! p with
           | Some (File text) => Ok text
           | Some Dir => Raise IsADirectoryError
           | None => Raise FileNotFoundError
           end
       end.

(** [open(p, 'w')] and writing [text]: creates or replaces the file. *)
Definition write_text (fs : t) (p : PyPath.t) (text : string) : result t :=
  if PyPath.is_anchor p then Raise IsADirectoryError
  else match walk fs [] (PyPath.parent p) with
       | Raise e => Raise e
       | Ok _ =>
           match fs !! p with
           | Some Dir => Raise IsADirectoryError
           | _ => Ok (<[p := File text]> fs)
           end
       end.

(** [d.mkdir(parents=True, exist_ok=True)], from the top part down. *)
Fixpoint mkdir_from (fs : t) (pre : PyPath.t) (rest : list string) : result t :=
  match rest with
  | [] => Ok fs
  | part :: rest' =>
      let q := (pre ++ [part])%list in
      if PyPath.is_anchor q then mkdir_from fs q rest'
      else match fs !! q with
           | Some Dir => mkdir_from fs q rest'
           | Some (File _) =>
               Raise (match rest' with
                      | [] => FileExistsError
                      | _ => NotADirectoryError
                      end)
           | None => mkdir_from (<[q := Dir]> fs) q rest'
           end
  end.

Definition mkdir_parents (fs : t) (d : PyPath.t) : result t := mkdir_from fs [] d.

(** [p.is_dir()] *)
Definition is_dir (fs : t) (p : PyPath.t) : bool :=
  PyPath.is_anchor p ||
  match walk fs [] (PyPath.parent p), fs !! p with
  | Ok _, Some Dir => true
  | _, _ => false
  end.

(** The name of [q] when [q] is an entry of the directory [d]. *)
Fixpoint entry_name (d q : PyPath.t) : option string :=
  match d, q with
  | [], [name] => Some name
  | part :: d', part' :: q' => if String.eqb part part' then entry_name d' q' else None
  | _, _ => None
  end.

(** The names in the directory [d], in the order the file system gives them. *)
Definition listdir (fs : t) (d : PyPath.t) : list string :=
  omap (fun entry => entry_name d (fst entry)) (map_to_list fs).

End FS.

(** ** The state of a run and its monad *)

(** What a run can change: the files, the lines still to be read from the
    terminal, and the orchestrator's [current_config]. *)
Record world : Type := World {
  files : FS.t;
  stdin : list string;
  current_config : value
}.

Definition set_files (fs : FS.t) (w : world) : world :=
  {| files := fs; stdin := stdin w; current_config := current_config w |}.
Definition set_stdin (lines : list string) (w : world) : world :=
  {| files := files w; stdin := lines; current_config := current_config w |}.
Definition set_current_config (c : value) (w : world) : world :=
  {| files := files w; stdin := stdin w; current_config := c |}.

(** A computation returns or raises, and leaves a world either way. *)
Definition M (A : Type) : Type := world -> result A * world.

Definition ret {A} (a : A) : M A := fun w => (Ok a, w).
Definition raise {A} (e : exn) : M A := fun w => (Raise e, w).
Definition bind {A B} (m : M A) (k : A -> M B) : M B :=
  fun w => match m w with
           | (Ok a, w') => k a w'
           | (Raise e, w') => (Raise e, w')
           end.
(** [try: m  except ...: h]; [handler e = None] when no clause takes [e]. *)
Definition try_except {A} (m : M A) (handler : exn -> option (M A)) : M A :=
  fun w => match m w with
           | (Raise e, w') =>
               match handler e with
               | Some h => h w'
               | None => (Raise e, w')
               end
           | r => r
           end.
Definition lift {A} (r : result A) : M A := fun w => (r, w).
Definition get_files : M FS.t := fun w => (Ok (files w), w).
Definition put_files (fs : FS.t) : M unit := fun w => (Ok tt, set_files fs w).

Declare Scope py_scope.
Delimit Scope py_scope with py.
Notation "x <- m ;; k" := (bind m (fun x => k))
  (at level 100, m at next level, right associativity) : py_scope.
Notation "m ;;; k" := (bind m (fun _ => k))
  (at level 100, right associativity) : py_scope.
Open Scope py_scope.

(** [input()]: the next line of the terminal, [EOFError] when there is none. *)
Definition input : M string :=
  fun w => match stdin w with
           | line :: rest => (Ok line, set_stdin rest w)
           | [] => (Raise EOFError, w)
           end.

(** The YAML library, as the script calls it:
    [yaml.dump(doc, f, default_flow_style=False, sort_keys=False)] gives the
    text written to [f], and [yaml.safe_load] the value read from a text. *)
Class Yaml : Type := {
  yaml_dump : value -> result string;
  yaml_safe_load : string -> result value
}.

(** ** ConfigManager *)

Module ConfigManager.
Section WithYaml.
Context `{Yaml}.

Definition load_config (path : PyPath.t) : M value :=
  try_except
    (fs <- get_files ;;
     text <- lift (FS.read_text fs path) ;;
     config <- lift (yaml_safe_load text) ;;
     ret config)
    (fun e => match e with
              | FileNotFoundError => Some (ret (VDict PyDict.empty))
              | YAMLError => Some (ret (VDict PyDict.empty))
              | _ => None
              end).

Definition save_config (config : PyDict.t) (path : PyPath.t) : M bool :=
  try_except
    (fs <- get_files ;;
     fs1 <- lift (FS.mkdir_parents fs (PyPath.parent path)) ;;
     put_files fs1 ;;;
     (* [open(path, 'w')] leaves an empty file, then the text goes in *)
     fs2 <- lift (FS.write_text fs1 path "") ;;
     put_files fs2 ;;;
     text <- lift (yaml_dump (VDict config)) ;;
     fs3 <- lift (FS.write_text fs2 path text) ;;
     put_files fs3 ;;;
     ret true)
    (fun _ => Some (ret false)).

End WithYaml.

(** One round of the [while True] of [prompt_yes_no] per line read. *)
Fixpoint prompt_yes_no_lines (lines : list string) : result bool * list string :=
  match lines with
  | [] => (Raise EOFError, [])
  | line :: rest =>
      let response := PyStr.strip (PyStr.lower line) in
      if String.eqb response "y" || String.eqb response "yes" then (Ok true, rest)
      else if String.eqb response "n" || String.eqb response "no" then (Ok false, rest)
      else prompt_yes_no_lines rest
  end.

Definition prompt_yes_no (message : string) : M bool :=
  fun w => let '(r, rest) := prompt_yes_no_lines (stdin w) in (r, set_stdin rest w).

(** One round of the [while True] of [prompt_choice] per line read. *)
Fixpoint prompt_choice_lines (choices : list string) (lines : list string)
  : result string * list string :=
  match lines with
  | [] => (Raise EOFError, [])
  | line :: rest =>
      match PyStr.py_int line with
      | Some selection =>
          if (1 <=? selection) && (selection <=? Z.of_nat (length choices)) then
            match choices !! Z.to_nat (selection - 1) with
            | Some choice => (Ok choice, rest)
            | None => (Raise IndexError, rest)
            end
          else prompt_choice_lines choices rest
      | None => prompt_choice_lines choices rest
      end
  end.

Definition prompt_choice (message : string) (choices : list string) : M string :=
  fun w => let '(r, rest) := prompt_choice_lines choices (stdin w) in
           (r, set_stdin rest w).

(** What [prompt_value] makes of the line it read:
    [value if value else default or ""]. *)
Definition prompt_value_of (line : string) (default : option string) : string :=
  let value := PyStr.strip line in
  if negb (String.eqb value "") then value
  else match default with
       | Some d => if negb (String.eqb d "") then d else ""
       | None => ""
       end.

Definition prompt_value (prompt : string) (default : option string) : M string :=
  line <- input ;;
  ret (prompt_value_of line default).

(** The colour codes of [Color] that [print_config] uses. *)
Definition escape (code : string) : string := String (ascii_of_N 27) code.
Definition CYAN : string := escape "[96m".
Definition BOLD : string := escape "[1m".
Definition ENDC : string := escape "[0m".

(** ['  ' * indent] *)
Fixpoint indentation (indent : nat) : string :=
  match indent with
  | O => ""
  | S indent' => "  " ++ indentation indent'
  end.

(** The lines [print_config] prints for one item of [config.items()]. *)
Fixpoint print_item (indent : nat) (key : string) (v : value) {struct v} : list string :=
  match v with
  | VDict entries =>
      (indentation indent ++ CYAN ++ key ++ ":" ++ ENDC)
        :: (fix print_items (items : list (string * value)) : list string :=
              match items with
              | [] => []
              | (key', v') :: items' =>
                  (print_item (S indent) key' v' ++ print_items items')%list
              end) entries
  | _ => [indentation indent ++ BOLD ++ key ++ ":" ++ ENDC ++ " " ++ py_str v]
  end.

(** The lines [print_config(config, indent)] prints, in order. *)
Fixpoint print_config (config : PyDict.t) (indent : nat) : list string :=
  match config with
  | [] => []
  | (key, v) :: config' => (print_item indent key v ++ print_config config' indent)%list
  end.

End ConfigManager.

(** ** PackerManager *)

Record PackerConfig : Type := {
  template_name : string;
  template_type : string;
  vcenter_host : string;
  vcenter_user : string;
  vcenter_password : string;
  vcenter_datacenter : string;
  vcenter_cluster : string;
  vcenter_datastore : string;
  vcenter_network : string;
  vcenter_folder : string;
  iso_datastore : string;
  iso_path : string;
  guest_os_type : string;
  cpu_cores : Z;
  memory_mb : Z;
  disk_size_gb : Z;
  additional_disk_size_gb : option Z
}.

Module PackerManager.

Record t : Type := { packer_dir : PyPath.t }.

Definition templates_dir (self : t) : PyPath.t := PyPath.child (packer_dir self) "templates".
Definition scripts_dir (self : t) : PyPath.t := PyPath.child (packer_dir self) "scripts".
Definition http_dir (self : t) : PyPath.t := PyPath.child (packer_dir self) "http".

Definition base_params : PyDict.t :=
  [ ("template_name", VStr "Name for the VM template");
    ("vcenter_host", VStr "vCenter host FQDN");
    ("vcenter_user", VStr "vCenter username");
    ("vcenter_password", VStr "vCenter password");
    ("vcenter_datacenter", VStr "vCenter datacenter name");
    ("vcenter_cluster", VStr "vCenter cluster name");
    ("vcenter_datastore", VStr "vCenter datastore for OS disk");
    ("vcenter_network", VStr "vCenter network name");
    ("vcenter_folder", VStr "vCenter folder path");
    ("iso_datastore", VStr "Datastore containing ISO");
    ("iso_path", VStr "Path to Debian ISO file");
    ("cpu_cores", VStr "Number of CPU cores (default: 2)");
    ("memory_mb", VStr "Memory in MB (default: 4096)");
    ("disk_size_gb", VStr "OS disk size in GB (default: 40)") ].

Definition get_required_parameters (template_type : string) : PyDict.t :=
  if String.eqb template_type "nfs-server" then
    PyDict.set "additional_disk_size_gb"
               (VStr "Additional storage disk size in GB (for NFS)") base_params
  else base_params.

Definition builder (self : t) (config : PackerConfig) : value :=
  VDict
    [ ("type", VStr "vsphere-iso");
      ("vcenter_server", VStr "{{ user `vcenter_host` }}");
      ("username", VStr "{{ user `vcenter_user` }}");
      ("password", VStr "{{ user `vcenter_password` }}");
      ("datacenter", VStr "{{ user `vcenter_datacenter` }}");
      ("cluster", VStr "{{ user `vcenter_cluster` }}");
      ("datastore", VStr "{{ user `vcenter_datastore` }}");
      ("vm_name", VStr "{{ user `template_name` }}");
      ("network", VStr "{{ user `vcenter_network` }}");
      ("folder", VStr "{{ user `vcenter_folder` }}");
      ("iso_datastore", VStr "{{ user `iso_datastore` }}");
      ("iso_path", VStr "{{ user `iso_path` }}");
      ("cpus", VStr "{{ user `cpu_cores` }}");
      ("memory", VStr "{{ user `memory_mb` }}");
      ("disk_size", VStr "{{ user `disk_size_gb` }}");
      ("disk_thin_provisioned", VBool true);
      ("guest_os_type", VStr (guest_os_type config));
      ("notes", VStr ("Template created for " ++ template_type config));
      ("boot_wait", VStr "10s");
      ("boot_command",
       VList
         [ VStr "<esc><esc><esc>";
           VStr "<enter><wait>";
           VStr "install <wait>";
           VStr "preseed/url=http://{{ .HTTPIP }}:{{ .HTTPPort }}/preseed.cfg <wait>";
           VStr "debian-installer=en_US.UTF-8 <wait>";
           VStr "auto locale=en_US.UTF-8 <wait>";
           VStr "kbd-chooser/method=us <wait>";
           VStr "netcfg/get_hostname={{ .Name }} <wait>";
           VStr "netcfg/get_domain=local <wait>";
           VStr "fb=false debconf/verbose=false <wait>";
           VStr "console-setup/ask_detect=false console-keymaps-at/keymap=us <wait>";
           VStr "<enter><wait>" ]);
      ("http_directory", VStr (PyPath.to_str (http_dir self)));
      ("http_port_min", VInt 8000);
      ("http_port_max", VInt 9000);
      ("shutdown_command", VStr "echo 'packer' | sudo -S shutdown -P now");
      ("communicator", VStr "ssh");
      ("ssh_username", VStr "root");
      ("ssh_password", VStr "packer");
      ("ssh_port", VInt 22);
      ("ssh_timeout", VStr "20m");
      ("ssh_pty", VBool true) ].

Definition variables (config : PackerConfig) : PyDict.t :=
  [ ("vcenter_host", VStr (vcenter_host config));
    ("vcenter_user", VStr (vcenter_user config));
    ("vcenter_password", VStr (vcenter_password config));
    ("vcenter_datacenter", VStr (vcenter_datacenter config));
    ("vcenter_cluster", VStr (vcenter_cluster config));
    ("vcenter_datastore", VStr (vcenter_datastore config));
    ("vcenter_network", VStr (vcenter_network config));
    ("vcenter_folder", VStr (vcenter_folder config));
    ("template_name", VStr (template_name config));
    ("iso_datastore", VStr (iso_datastore config));
    ("iso_path", VStr (iso_path config));
    ("cpu_cores", VStr (PyStr.str_of_int (cpu_cores config)));
    ("memory_mb", VStr (PyStr.str_of_int (memory_mb config)));
    ("disk_size_gb", VStr (PyStr.str_of_int (disk_size_gb config))) ].

(** The three provisioners of the literal. *)
Definition fixed_provisioners (self : t) : list value :=
  [ VDict [ ("type", VStr "shell"); ("inline", VList [VStr "sleep 5"]) ];
    VDict [ ("type", VStr "file");
            ("source", VStr (PyPath.to_str (scripts_dir self)));
            ("destination", VStr "/tmp/scripts") ];
    VDict [ ("type", VStr "shell");
            ("script", VStr (PyPath.to_str (PyPath.child (scripts_dir self) "base-setup.sh"))) ] ].

Definition shell_script (self : t) (name : string) : value :=
  VDict [ ("type", VStr "shell");
          ("script", VStr (PyPath.to_str (PyPath.child (scripts_dir self) name))) ].

(** [packer_config['provisioners'].append(step)] *)
Definition append_provisioner (step : value) (packer_config : PyDict.t) : PyDict.t :=
  match PyDict.get "provisioners" packer_config with
  | Some (VList steps) => PyDict.set "provisioners" (VList (steps ++ [step])) packer_config
  | _ => packer_config
  end.

Definition generate_packer_config (self : t) (config : PackerConfig) : PyDict.t :=
  let packer_config : PyDict.t :=
    [ ("variables", VDict (variables config));
      ("builders", VList [builder self config]);
      ("provisioners", VList (fixed_provisioners self)) ] in
  if String.eqb (template_type config) "k3s-node" then
    append_provisioner (shell_script self "k3s-prep.sh") packer_config
  else if String.eqb (template_type config) "nfs-server" then
    append_provisioner (shell_script self "nfs-prep.sh") packer_config
  else packer_config.

(** [PurePath.stem] of a file name: the name up to its last dot, when that
    dot is neither the first nor the last character. *)
Fixpoint stem_chars (cs : list ascii) : option (list ascii) :=
  match cs with
  | [] => None
  | c :: cs' =>
      match stem_chars cs' with
      | Some kept => Some (c :: kept)
      | None => if Ascii.eqb c "." then Some [] else None
      end
  end.

Definition stem (name : string) : string :=
  match PyStr.chars name with
  | [] => name
  | c :: cs =>
      match stem_chars cs with
      | Some kept =>
          if (length kept + 1 <? length cs)%nat then PyStr.of_chars (c :: kept) else name
      | None => name
      end
  end.

(** [self.templates_dir.glob("*.json")]: the entries of the directory whose
    name ends in [.json]; none when it is no directory. *)
Definition glob_json (fs : FS.t) (d : PyPath.t) : list string :=
  if FS.is_dir fs d
  then filter (fun name => PyStr.endswith name ".json" = true) (FS.listdir fs d)
  else [].

Definition get_available_templates (self : t) : M (list string) :=
  fs <- get_files ;;
  if negb (FS.exists_ fs (templates_dir self)) then ret []
  else ret (map stem (glob_json fs (templates_dir self))).

End PackerManager.

(** ** DeploymentOrchestrator *)

Module DeploymentOrchestrator.

Record t : Type := { base_dir : PyPath.t }.

Definition config_dir (self : t) : PyPath.t := PyPath.child (base_dir self) "config".
Definition packer_dir (self : t) : PyPath.t := PyPath.child (base_dir self) "packer".
Definition packer_manager (self : t) : PackerManager.t :=
  {| PackerManager.packer_dir := packer_dir self |}.

(** [self.current_config = config] *)
Definition assign_current_config (config : value) : M unit :=
  fun w => (Ok tt, set_current_config config w).

(** [config.get(key, default)], evaluated for the report of the build. *)
Definition config_get (config : value) (key : string) (default : value) : M value :=
  match config with
  | VDict d => ret (match PyDict.get key d with Some v => v | None => default end)
  | _ => raise AttributeError
  end.

Definition _proceed_with_packer_build (config : value) : M value :=
  assign_current_config config ;;;
  go <- ConfigManager.prompt_yes_no "Proceed with Packer template creation?" ;;
  if (go : bool) then
    config_get config "template_type" (VStr "unknown") ;;;
    config_get config "template_name" (VStr "unknown") ;;;
    config_get config "template_name" VNone ;;;
    next <- ConfigManager.prompt_yes_no "Proceed to Terraform section?" ;;
    if (next : bool) then ret (VBool true) else ret (VBool false)
  else ret (VBool false).

Definition is_numeric_param (param : string) : bool :=
  PyStr.endswith param "_mb" || PyStr.endswith param "_gb" || String.eqb param "cpu_cores".

(** The body of the [for] of the wizard once the value is read. *)
Definition store_parameter (param value : string) (config : PyDict.t) : PyDict.t :=
  if negb (String.eqb value "") then
    if is_numeric_param param then
      match PyStr.py_int value with
      | Some n => PyDict.set param (VInt n) config
      | None => PyDict.set param (VStr value) config
      end
    else PyDict.set param (VStr value) config
  else config.

(** [for param, description in params.items(): ...] *)
Fixpoint gather_each (params : PyDict.t) (config : PyDict.t) : M PyDict.t :=
  match params with
  | [] => ret config
  | (param, description) :: params' =>
      value <- ConfigManager.prompt_value
                 (py_str description ++ " (" ++ param ++ ")") None ;;
      gather_each params' (store_parameter param value config)
  end.

Definition _gather_template_parameters (self : t) : M PyDict.t :=
  let config := PyDict.empty in
  template_type <- ConfigManager.prompt_choice "Select template type"
                     ["k3s-node"; "nfs-server"] ;;
  let config := PyDict.set "template_type" (VStr template_type) config in
  let params := PackerManager.get_required_parameters template_type in
  gather_each params config.

(** One round of the [while True] of the editing loop per parameter name
    read; the round reads the new value as a second line when the name is a
    key of the document. *)
Fixpoint edit_lines (config : PyDict.t) (lines : list string)
  : result PyDict.t * list string :=
  match lines with
  | [] => (Raise EOFError, [])
  | line :: rest =>
      let param_to_edit := ConfigManager.prompt_value_of line None in
      if String.eqb (PyStr.lower param_to_edit) "done" then (Ok config, rest)
      else
        match PyDict.get param_to_edit config with
        | Some old =>
            match rest with
            | [] => (Raise EOFError, [])
            | line' :: rest' =>
                let new_value :=
                  ConfigManager.prompt_value_of line' (Some (py_str old)) in
                edit_lines (PyDict.set param_to_edit (VStr new_value) config) rest'
            end
        | None => edit_lines config rest
        end
  end.

Definition edit_parameters (config : PyDict.t) : M PyDict.t :=
  fun w => let '(r, rest) := edit_lines config (stdin w) in (r, set_stdin rest w).

Definition dispositions : list string :=
  [ "Write changes to config permanently";
    "Use changes only for this run";
    "Return to editing";
    "Discard changes" ].

Section WithYaml.
Context `{Yaml}.

Definition _create_new_config (self : t) : M value :=
  answer <- ConfigManager.prompt_value "Enter path where to save the configuration"
              (Some (PyPath.to_str (PyPath.child (config_dir self) "custom-config.yaml"))) ;;
  let save_path := PyPath.of_str answer in
  config <- _gather_template_parameters self ;;
  if negb (truthy (VDict config)) then ret (VBool false)
  else
    save <- ConfigManager.prompt_yes_no "Save this configuration?" ;;
    if (save : bool) then
      saved <- ConfigManager.save_config config save_path ;;
      if (saved : bool) then
        assign_current_config (VDict config) ;;;
        _proceed_with_packer_build (VDict config)
      else ret (VBool false)
    else ret (VBool false).

(** [_handle_parameter_changes]; [depth] bounds the nesting of the
    re-entries through "Return to editing", [None] when it is used up. *)
Fixpoint handle_parameter_changes_depth (depth : nat)
    (config : PyDict.t) (config_path : PyPath.t) (w : world)
  : option (result value * world) :=
  match depth with
  | O => None
  | S depth' =>
      match edit_parameters config w with
      | (Raise e, w1) => Some (Raise e, w1)
      | (Ok config, w1) =>
          match ConfigManager.prompt_choice
                  "What would you like to do with these changes?" dispositions w1 with
          | (Raise e, w2) => Some (Raise e, w2)
          | (Ok decision, w2) =>
              if String.eqb decision "Write changes to config permanently" then
                Some ((saved <- ConfigManager.save_config config config_path ;;
                       if (saved : bool)
                       then _proceed_with_packer_build (VDict config)
                       else ret VNone) w2)
              else if String.eqb decision "Use changes only for this run" then
                Some (_proceed_with_packer_build (VDict config) w2)
              else if String.eqb decision "Return to editing" then
                handle_parameter_changes_depth depth' config config_path w2
              else
                Some ((original_config <- ConfigManager.load_config config_path ;;
                       _proceed_with_packer_build original_config) w2)
          end
      end
  end.

(** Each re-entry has read at least the line "done" and a choice, so the
    number of pending lines bounds the nesting. *)
Definition _handle_parameter_changes (config : PyDict.t) (config_path : PyPath.t)
  : M value :=
  fun w =>
    match handle_parameter_changes_depth (S (length (stdin w))) config config_path w with
    | Some r => r
    | None => (Raise EOFError, set_stdin [] w)
    end.

(** [print_config] walks [config.items()]; only its failure on a value that
    is no mapping is of interest here. *)
Definition print_config (config : value) : M unit :=
  match config with
  | VDict _ => ret tt
  | _ => raise AttributeError
  end.

Definition _create_from_existing_config (self : t) : M value :=
  answer <- ConfigManager.prompt_value "Enter configuration file path"
              (Some (PyPath.to_str (PyPath.child (config_dir self) "default.yaml"))) ;;
  let config_path := PyPath.of_str answer in
  fs <- get_files ;;
  if negb (FS.exists_ fs config_path) then ret (VBool false)
  else
    config <- ConfigManager.load_config config_path ;;
    if negb (truthy config) then ret (VBool false)
    else
      print_config config ;;;
      modify <- ConfigManager.prompt_yes_no "Do you want to modify any parameters?" ;;
      if negb (modify : bool) then _proceed_with_packer_build config
      else
        match config with
        | VDict document => _handle_parameter_changes document config_path
        | _ => raise AttributeError
        end.

(** [self.current_config[key] = v]: item assignment on whatever object
    [current_config] is. *)
Definition current_config_setitem (key : string) (v : value) : M unit :=
  fun w =>
    match current_config w with
    | VDict d => (Ok tt, set_current_config (VDict (PyDict.set key v d)) w)
    | _ => (Raise TypeError, w)
    end.

Definition _use_existing_template (self : t) : M value :=
  available_templates <- PackerManager.get_available_templates (packer_manager self) ;;
  match available_templates with
  | [] => ret (VBool false)
  | _ =>
      selected <- ConfigManager.prompt_choice "Select template to use" available_templates ;;
      current_config_setitem "selected_template" (VStr selected) ;;;
      go <- ConfigManager.prompt_yes_no "Proceed to Terraform section?" ;;
      if (go : bool) then ret (VBool true) else ret (VBool false)
  end.

Definition packer_choices : list string :=
  [ "Create new template"; "Create new configuration"; "Use existing template" ].

Definition packer_section (self : t) : M value :=
  selection <- ConfigManager.prompt_choice "What would you like to do?" packer_choices ;;
  if String.eqb selection "Create new template" then _create_from_existing_config self
  else if String.eqb selection "Create new configuration" then _create_new_config self
  else if String.eqb selection "Use existing template" then _use_existing_template self
  else ret VNone.

(** [run] prints one of two closing headers; the value returned here tells
    which: [true] for "PACKER SECTION COMPLETED", [false] for "PACKER SECTION
    CANCELLED". *)
Definition run (self : t) : M bool :=
  outcome <- packer_section self ;;
  if truthy outcome then ret true else ret false.

End WithYaml.

End DeploymentOrchestrator.

(** ** A small YAML codec

    An instance of the library interface for the examples: block-style
    mappings whose leaves are scalars, as [yaml.dump] lays out a
    configuration document.  It refuses what it does not cover.  The
    properties below hold for every instance of [Yaml]; this one shows that
    their hypotheses can be met on concrete files. *)
Module MiniYaml.

Definition newline : ascii := ascii_of_N 10.

Definition is_letter (c : ascii) : bool :=
  let n := N_of_ascii c in
  ((65 <=? n) && (n <=? 90) || (97 <=? n) && (n <=? 122))%N.

Definition is_plain_char (c : ascii) : bool :=
  is_letter c || PyStr.is_digit c
  || existsb (Ascii.eqb c) ["_"; "."; "/"; "-"; " "]%char.

Definition reserved (s : string) : bool :=
  existsb (String.eqb (PyStr.lower s))
          ["true"; "false"; "null"; "yes"; "no"; "on"; "off"; "y"; "n"].

Definition is_hex_digit (c : ascii) : bool :=
  let n := N_of_ascii c in
  (PyStr.is_digit c || (97 <=? n) && (n <=? 102) || (65 <=? n) && (n <=? 70))%N.

(** A number in base two or sixteen, which is read back as an integer. *)
Definition based_number (cs : list ascii) : bool :=
  match cs with
  | zero :: base :: d :: ds =>
      Ascii.eqb zero "0"
      && (Ascii.eqb base "b"
            && forallb (fun c => Ascii.eqb c "0" || Ascii.eqb c "1") (d :: ds)
          || Ascii.eqb base "x" && forallb is_hex_digit (d :: ds))
  | _ => false
  end.

(** A text that begins with a digit and is no number: letters and digits,
    with a letter among them, such as [4GB]. *)
Definition plain_word (cs : list ascii) : bool :=
  match cs with
  | c :: cs' =>
      PyStr.is_digit c
      && forallb (fun d => is_letter d || PyStr.is_digit d) cs'
      && existsb is_letter cs'
      && negb (based_number cs)
  | [] => false
  end.

(** Texts written without quotes. *)
Definition plain_safe (s : string) : bool :=
  match PyStr.chars s with
  | c :: cs =>
      is_letter c && forallb is_plain_char cs
      && String.eqb (PyStr.strip s) s && negb (reserved s)
      || plain_word (c :: cs)
  | [] => false
  end.

Definition printable (c : ascii) : bool :=
  let n := N_of_ascii c in ((32 <=? n) && (n <=? 126))%N.

Definition emit_str (s : string) : result string :=
  if plain_safe s then Ok s
  else if forallb printable (PyStr.chars s) then
    Ok (PyStr.of_chars
          ("'"%char :: flat_map (fun c => if Ascii.eqb c "'" then [c; c] else [c])
                                (PyStr.chars s) ++ ["'"%char])%list)
  else Raise YAMLError.

Definition pad (indent : nat) : string := PyStr.of_chars (repeat " "%char indent).

Fixpoint emit_entry (indent : nat) (key : string) (v : value) {struct v}
  : result (list string) :=
  match emit_str key with
  | Raise e => Raise e
  | Ok k =>
      let scalar (text : string) := Ok [pad indent ++ k ++ ": " ++ text] in
      match v with
      | VNone => scalar "null"
      | VBool true => scalar "true"
      | VBool false => scalar "false"
      | VInt n => scalar (PyStr.str_of_int n)
      | VStr s => match emit_str s with
                  | Ok text => scalar text
                  | Raise e => Raise e
                  end
      | VList _ => Raise YAMLError
      | VDict [] => scalar "{}"
      | VDict entries =>
          match (fix emit_all (es : list (string * value)) : result (list string) :=
                   match es with
                   | [] => Ok []
                   | (k1, v1) :: es' =>
                       match emit_entry (indent + 2) k1 v1, emit_all es' with
                       | Ok a, Ok b => Ok (a ++ b)%list
                       | Raise e, _ => Raise e
                       | _, Raise e => Raise e
                       end
                   end) entries with
          | Ok sub => Ok ((pad indent ++ k ++ ":") :: sub)
          | Raise e => Raise e
          end
      end
  end.

Fixpoint emit_entries (entries : list (string * value)) : result (list string) :=
  match entries with
  | [] => Ok []
  | (k, v) :: entries' =>
      match emit_entry 0 k v, emit_entries entries' with
      | Ok a, Ok b => Ok (a ++ b)%list
      | Raise e, _ => Raise e
      | _, Raise e => Raise e
      end
  end.

Definition unlines (lines : list string) : string :=
  String.concat "" (map (fun line => line ++ String newline "") lines).

Definition dump (doc : value) : result string :=
  match doc with
  | VDict [] => Ok (unlines ["{}"])
  | VDict entries =>
      match emit_entries entries with
      | Ok lines => Ok (unlines lines)
      | Raise e => Raise e
      end
  | _ => Raise YAMLError
  end.

(** The text of a quoted scalar after its opening quote, and what follows
    the closing quote. *)
Fixpoint read_quoted (acc : list ascii) (cs : list ascii)
  : option (string * list ascii) :=
  match cs with
  | [] => None
  | c :: cs' =>
      if Ascii.eqb c "'" then
        match cs' with
        | c' :: cs'' =>
            if Ascii.eqb c' "'" then read_quoted (c :: acc) cs''
            else Some (PyStr.of_chars (rev acc), cs')
        | [] => Some (PyStr.of_chars (rev acc), [])
        end
      else read_quoted (c :: acc) cs'
  end.

Definition parse_scalar (cs : list ascii) : option value :=
  match cs with
  | [] => Some VNone
  | c :: cs' =>
      let text := PyStr.of_chars cs in
      if Ascii.eqb c "'" then
        match read_quoted [] cs' with
        | Some (s, []) => Some (VStr s)
        | _ => None
        end
      else if String.eqb text "{}" then Some (VDict [])
      else if String.eqb text "null" || String.eqb text "~" then Some VNone
      else if String.eqb text "true" then Some (VBool true)
      else if String.eqb text "false" then Some (VBool false)
      else if PyStr.is_digit c || Ascii.eqb c "-" || Ascii.eqb c "+" then
        if String.eqb (PyStr.str_of_int (default 0 (PyStr.py_int text))) text
        then option_map VInt (PyStr.py_int text)
        else if plain_safe text then Some (VStr text)
        else None
      else if plain_safe text then Some (VStr text)
      else None
  end.

Fixpoint take_key (acc : list ascii) (cs : list ascii) : option (string * list ascii) :=
  match cs with
  | [] => None
  | c :: cs' =>
      if Ascii.eqb c ":" then Some (PyStr.of_chars (rev acc), cs')
      else take_key (c :: acc) cs'
  end.

(** A line [key: scalar] or [key:], with its indentation. *)
Definition parse_line (line : string) : option (nat * string * option value) :=
  let cs := PyStr.chars line in
  let body := PyStr.lstrip cs in
  let indent := (length cs - length body)%nat in
  let key_and_rest :=
    match body with
    | c :: body' =>
        if Ascii.eqb c "'" then
          match read_quoted [] body' with
          | Some (k, c' :: rest) => if Ascii.eqb c' ":" then Some (k, rest) else None
          | _ => None
          end
        else match take_key [] body with
             | Some (k, rest) => if plain_safe k then Some (k, rest) else None
             | None => None
             end
    | [] => None
    end in
  match key_and_rest with
  | Some (k, []) => Some (indent, k, None)
  | Some (k, c :: rest) =>
      if Ascii.eqb c " " then
        match parse_scalar rest with
        | Some v => Some (indent, k, Some v)
        | None => None
        end
      else None
  | None => None
  end.

Fixpoint parse_lines (lines : list string) : option (list (nat * string * option value)) :=
  match lines with
  | [] => Some []
  | line :: lines' =>
      if String.eqb (PyStr.strip line) "" then parse_lines lines'
      else match parse_line line, parse_lines lines' with
           | Some l, Some ls => Some (l :: ls)
           | _, _ => None
           end
  end.

(** The mapping laid out at [indent], and the lines after it. *)
Fixpoint parse_block (fuel : nat) (indent : nat)
    (lines : list (nat * string * option value))
  : option (PyDict.t * list (nat * string * option value)) :=
  match fuel with
  | O => None
  | S fuel' =>
      match lines with
      | [] => Some ([], [])
      | (i, k, v) :: rest =>
          if (i <? indent)%nat then Some ([], lines)
          else if negb (i =? indent)%nat then None
          else
            let continue_with (val : value) rest1 :=
              match parse_block fuel' indent rest1 with
              | Some (d, rest2) =>
                  if PyDict.mem k d then None else Some ((k, val) :: d, rest2)
              | None => None
              end in
            match v with
            | Some val => continue_with val rest
            | None =>
                match rest with
                | (j, _, _) :: _ =>
                    if (indent <? j)%nat then
                      match parse_block fuel' j rest with
                      | Some (sub, rest1) => continue_with (VDict sub) rest1
                      | None => None
                      end
                    else continue_with VNone rest
                | [] => continue_with VNone rest
                end
            end
      end
  end.

Definition safe_load (text : string) : result value :=
  if String.eqb (PyStr.strip text) "" then Ok VNone
  else if String.eqb (PyStr.strip text) "{}" then Ok (VDict [])
  else match parse_lines (PyStr.split newline text) with
       | Some lines =>
           match parse_block (S (length lines)) 0 lines with
           | Some (d, []) => Ok (VDict d)
           | _ => Raise YAMLError
           end
       | None => Raise YAMLError
       end.

Definition codec : Yaml := {| yaml_dump := dump; yaml_safe_load := safe_load |}.

End MiniYaml.

(** * Vocabulary and sample data of the properties *)

(** An entry [prompt_choice] asks again for: not a number, or a number
    outside [1 .. len(choices)]. *)
Definition invalid_entry (choices : list string) (line : string) : Prop :=
  PyStr.py_int line = None
  \/ exists n, PyStr.py_int line = Some n /\ (n < 1 \/ Z.of_nat (length choices) < n).

(** A line that [str.strip] trims to [text] and [int()] refuses: [text]
    after the separator character FS. *)
Definition after_separator (text : string) : string :=
  String (ascii_of_N 28) text.

(** The names the wizard reads as numbers, in the words of the
    specification: a name with the suffix [_mb] or [_gb], or [cpu_cores]. *)
Definition numeric_name (param : string) : Prop :=
  (exists stem, param = stem ++ "_mb")
  \/ (exists stem, param = stem ++ "_gb")
  \/ param = "cpu_cores".

(** Whether the way to the directory of [path] runs into a regular file. *)
Definition below_regular_file (fs : FS.t) (path : PyPath.t) : bool :=
  match FS.walk fs [] (PyPath.parent path) with
  | Raise NotADirectoryError => true
  | _ => false
  end.

(** The specification's reading of the provisioner list: the steps of the literal
    with one kind-specific script step appended. *)
Definition kind_script_appended (self : PackerManager.t) (descriptor : PyDict.t) : Prop :=
  exists name : string,
    PyDict.get "provisioners" descriptor
    = Some (VList (PackerManager.fixed_provisioners self
                     ++ [PackerManager.shell_script self name])).

(** The script appended for a template kind, if any. *)
Definition kind_steps (self : PackerManager.t) (kind : string) : list value :=
  if String.eqb kind "k3s-node" then [PackerManager.shell_script self "k3s-prep.sh"]
  else if String.eqb kind "nfs-server" then [PackerManager.shell_script self "nfs-prep.sh"]
  else [].

(** A provisioning step of type shell or file. *)
Definition shell_or_file_step (step : value) : Prop :=
  exists fields,
    step = VDict fields
    /\ (PyDict.get "type" fields = Some (VStr "shell")
        \/ PyDict.get "type" fields = Some (VStr "file")).

Definition sample_packer_config (kind : string) : PackerConfig :=
  {| template_name := "debian-base"; template_type := kind;
     vcenter_host := "vc.example.org"; vcenter_user := "builder";
     vcenter_password := "secret"; vcenter_datacenter := "dc1";
     vcenter_cluster := "cl1"; vcenter_datastore := "ds1";
     vcenter_network := "VM Network"; vcenter_folder := "templates";
     iso_datastore := "iso"; iso_path := "debian.iso";
     guest_os_type := "debian10_64Guest";
     cpu_cores := 2; memory_mb := 4096; disk_size_gb := 40;
     additional_disk_size_gb := None |}.

Definition sample_packer_manager : PackerManager.t :=
  {| PackerManager.packer_dir := ["/"; "srv"; "packer"] |}.

(** The contract of the YAML library on one document: the text [yaml.dump]
    writes for it is read back by [yaml.safe_load] as the same value. *)
Definition yaml_round_trips `{Yaml} (doc : value) : Prop :=
  forall text, yaml_dump doc = Ok text -> yaml_safe_load text = Ok doc.

Definition sample_document : PyDict.t :=
  [ ("template_type", VStr "k3s-node");
    ("template_name", VStr "debian-base");
    ("vcenter", VDict [ ("host", VStr "vc.example.org"); ("network", VStr "VM Network") ]);
    ("cpu_cores", VInt 2);
    ("memory_mb", VInt 4096) ].

(** What the wizard binds a parameter to, given the text entered for it. *)
Definition stored_value (param entered : string) : value :=
  if DeploymentOrchestrator.is_numeric_param param then
    match PyStr.py_int entered with
    | Some n => VInt n
    | None => VStr entered
    end
  else VStr entered.

Definition sample_orchestrator : DeploymentOrchestrator.t :=
  {| DeploymentOrchestrator.base_dir := ["/"; "srv"; "k3s"] |}.

(** The answers to the wizard for a storage node: no core count, a memory
    size, a disk size, and a size with a unit for the second disk. *)
Definition sample_answers : list string :=
  [ "debian-nfs"; "vc.example.org"; "builder"; "secret"; "dc1"; "cl1"; "ds1";
    "VM Network"; "templates"; "iso"; "debian.iso"; "  "; " 4096 "; "40"; "4GB" ].

(** [rebinds d d']: [d'] comes from [d] by rebinding, any number of times, a
    key that is present to the text [prompt_value] returned for it. *)
Inductive rebinds : PyDict.t -> PyDict.t -> Prop :=
  | rebinds_done d : rebinds d d
  | rebinds_step d key old line d' :
      PyDict.get key d = Some old ->
      rebinds (PyDict.set key
                 (VStr (ConfigManager.prompt_value_of line (Some (py_str old)))) d) d' ->
      rebinds d d'.

(** A document on disk and the world of a run that edits it. *)
Definition small_document : PyDict.t :=
  [ ("template_type", VStr "k3s-node"); ("memory_mb", VInt 4096) ].

Definition small_document_text : string :=
  MiniYaml.unlines ["template_type: k3s-node"; "memory_mb: 4096"].

Definition disk_with_config : FS.t :=
  <[ ["config"; "default.yaml"] := File small_document_text ]>
    (<[ ["config"] := Dir ]> ∅).

Definition editing_world : world :=
  World disk_with_config ["memory_mb"; "8192"; "done"; "2"; "n"] VNone.

(** Steps that only read the terminal. *)
Definition reads_only (w w' : world) : Prop :=
  files w' = files w /\ current_config w' = current_config w.

(** A disk on which [srv-config] is a regular file, so that nothing can be
    saved below it. *)
Definition blocked_disk : FS.t := <[ ["srv-config"] := File "lock" ]> ∅.

Definition wizard_document : PyDict.t :=
  [ ("template_type", VStr "nfs-server");
    ("template_name", VStr "debian-nfs");
    ("vcenter_host", VStr "vc.example.org");
    ("vcenter_user", VStr "builder");
    ("vcenter_password", VStr "secret");
    ("vcenter_datacenter", VStr "dc1");
    ("vcenter_cluster", VStr "cl1");
    ("vcenter_datastore", VStr "ds1");
    ("vcenter_network", VStr "VM Network");
    ("vcenter_folder", VStr "templates");
    ("iso_datastore", VStr "iso");
    ("iso_path", VStr "debian.iso");
    ("memory_mb", VInt 4096);
    ("disk_size_gb", VInt 40);
    ("additional_disk_size_gb", VStr "4GB") ].

(** The create-new-config flow: the path, the kind, the answers, the consent
    to save, and two consents that a build step would read. *)
Definition creating_world : world :=
  World blocked_disk
        ("srv-config/new.yaml" :: "2" :: sample_answers ++ ["y"; "y"; "y"]) VNone.

(** * Vocabulary of the further properties *)

(** What [prompt_yes_no] makes of a line. *)
Definition normalized (line : string) : string := PyStr.strip (PyStr.lower line).

Definition affirmative (line : string) : Prop :=
  normalized line = "y" \/ normalized line = "yes".

Definition negative (line : string) : Prop :=
  normalized line = "n" \/ normalized line = "no".

Definition unrecognised (line : string) : Prop :=
  ~ affirmative line /\ ~ negative line.

(** What the wizard may bind a key to: a trimmed text that is not empty, or
    an integer under a key that is read as a number. *)
Definition wizard_value (key : string) (v : value) : Prop :=
  (exists text, v = VStr text /\ text <> "" /\ PyStr.strip text = text)
  \/ (exists n, v = VInt n /\ DeploymentOrchestrator.is_numeric_param key = true).

(** A disk with a templates directory holding two templates and a note. *)
Definition template_disk : FS.t :=
  <[ ["packer"; "templates"; "notes.txt"] := File "" ]>
    (<[ ["packer"; "templates"; "b.json"] := File "{}" ]>
       (<[ ["packer"; "templates"; "a.json"] := File "{}" ]>
          (<[ ["packer"; "templates"] := Dir ]> (<[ ["packer"] := Dir ]> ∅)))).

Definition local_orchestrator : DeploymentOrchestrator.t :=
  {| DeploymentOrchestrator.base_dir := [] |}.

(** A configuration with another size for the second disk. *)
Definition with_additional_disk (size : option Z) (config : PackerConfig) : PackerConfig :=
  {| template_name := template_name config;
     template_type := template_type config;
     vcenter_host := vcenter_host config;
     vcenter_user := vcenter_user config;
     vcenter_password := vcenter_password config;
     vcenter_datacenter := vcenter_datacenter config;
     vcenter_cluster := vcenter_cluster config;
     vcenter_datastore := vcenter_datastore config;
     vcenter_network := vcenter_network config;
     vcenter_folder := vcenter_folder config;
     iso_datastore := iso_datastore config;
     iso_path := iso_path config;
     guest_os_type := guest_os_type config;
     cpu_cores := cpu_cores config;
     memory_mb := memory_mb config;
     disk_size_gb := disk_size_gb config;
     additional_disk_size_gb := size |}.

(** How the builder stanza refers to the variable [name]. *)
Definition user_reference (name : string) : string := "{{ user `" ++ name ++ "` }}".

(** The fields of the builder stanza that take their value from a variable. *)
Definition builder_reference_fields : list string :=
  [ "vcenter_server"; "username"; "password"; "datacenter"; "cluster"; "datastore";
    "vm_name"; "network"; "folder"; "iso_datastore"; "iso_path"; "cpus"; "memory";
    "disk_size" ].

(** The number of keys of a value, nested mappings included. *)
Fixpoint nested_keys (v : value) : nat :=
  match v with
  | VDict entries =>
      (fix count (items : list (string * value)) : nat :=
         match items with
         | [] => O
         | (_, v') :: items' => (S (nested_keys v') + count items')%nat
         end) entries
  | _ => O
  end.

Fixpoint count_keys (config : PyDict.t) : nat :=
  match config with
  | [] => O
  | (_, v) :: config' => (S (nested_keys v) + count_keys config')%nat
  end.

(** The line feeds in a text. *)
Fixpoint line_feeds (s : string) : nat :=
  match s with
  | EmptyString => O
  | String c s' =>
      ((if Ascii.eqb c (ascii_of_N 10) then 1 else 0) + line_feeds s')%nat
  end.

Definition not_line_feed (c : ascii) : bool := negb (Ascii.eqb c (ascii_of_N 10)).

(** The lines on the terminal after a sequence of [print] calls: each call
    writes its text and ends the line. *)
Fixpoint lines_printed (calls : list string) : nat :=
  match calls with
  | [] => O
  | text :: calls' => (S (line_feeds text) + lines_printed calls')%nat
  end.

(** The line feeds a value brings to what [print_config] shows: those of a
    text, those of the keys and values of a nested mapping; none for a
    number, a truth value, [None] or a list. *)
Fixpoint value_line_feeds (v : value) : nat :=
  match v with
  | VStr s => line_feeds s
  | VDict entries =>
      (fix count (items : list (string * value)) : nat :=
         match items with
         | [] => O
         | (key, v') :: items' =>
             (line_feeds key + value_line_feeds v' + count items')%nat
         end) entries
  | _ => O
  end.

Fixpoint document_line_feeds (config : PyDict.t) : nat :=
  match config with
  | [] => O
  | (key, v) :: config' =>
      (line_feeds key + value_line_feeds v + document_line_feeds config')%nat
  end.

(** The flow behind each entry of the menu of [packer_section]. *)
Definition menu_flow `{Yaml} (selection : Z) (self : DeploymentOrchestrator.t) : M value :=
  if selection =? 1 then DeploymentOrchestrator._create_from_existing_config self
  else if selection =? 2 then DeploymentOrchestrator._create_new_config self
  else DeploymentOrchestrator._use_existing_template self.

(** * Properties *)

(** ** Python string primitives, on examples *)

Example strip_blank : PyStr.strip "  4096 " = "4096". Proof. reflexivity. Qed.
Example int_plain : PyStr.py_int "4096" = Some 4096. Proof. reflexivity. Qed.
Example int_unit : PyStr.py_int "4GB" = None. Proof. reflexivity. Qed.
Example dump_unit :
  MiniYaml.dump (VDict [("additional_disk_size_gb", VStr "4GB"); ("memory_mb", VInt 4096)])
  = Ok (MiniYaml.unlines ["additional_disk_size_gb: 4GB"; "memory_mb: 4096"]).
Proof. reflexivity. Qed.
Example load_unit :
  MiniYaml.safe_load
    (MiniYaml.unlines ["additional_disk_size_gb: 4GB"; "memory_mb: 4096"])
  = Ok (VDict [("additional_disk_size_gb", VStr "4GB"); ("memory_mb", VInt 4096)]).
Proof. reflexivity. Qed.
Example int_signed : PyStr.py_int " -12 " = Some (-12). Proof. reflexivity. Qed.
Example int_grouped : PyStr.py_int "1_000" = Some 1000. Proof. reflexivity. Qed.
Example int_bad_group : PyStr.py_int "1__0" = None. Proof. reflexivity. Qed.
Example int_empty : PyStr.py_int "" = None. Proof. reflexivity. Qed.
Example int_form_feed : PyStr.py_int (String (ascii_of_N 12) "2") = Some 2.
Proof. reflexivity. Qed.
Example int_separator : PyStr.py_int (after_separator "2") = None.
Proof. reflexivity. Qed.
Example strip_separator : PyStr.strip (after_separator "2") = "2".
Proof. reflexivity. Qed.
Example str_negative : PyStr.str_of_int (-40) = "-40". Proof. reflexivity. Qed.
Example lower_done : PyStr.lower "DoNe" = "done". Proof. reflexivity. Qed.
Example endswith_mb : PyStr.endswith "memory_mb" "_mb" = true. Proof. reflexivity. Qed.
Example repr_plain : PyStr.repr_str "it" = "'it'". Proof. reflexivity. Qed.
Example repr_quote :
  PyStr.repr_str "a'b" = String PyStr.dquote ("a'b" ++ String PyStr.dquote EmptyString).
Proof. reflexivity. Qed.
Example repr_newline : PyStr.repr_str (String (ascii_of_N 10) "x") = "'\nx'".
Proof. reflexivity. Qed.

(** ** Dictionaries *)

Module PyDictFacts.
Import PyDict.

Lemma get_set_eq k v d : get k (set k v d) = Some v.
Proof.
  induction d as [|[k' v'] d IH]; simpl.
  - now rewrite String.eqb_refl.
  - destruct (String.eqb k k') eqn:E; simpl; rewrite E; auto.
Qed.

Lemma get_set_ne k k' v d : k <> k' -> get k' (set k v d) = get k' d.
Proof.
  intros Hne. induction d as [|[k0 v0] d IH]; simpl.
  - destruct (String.eqb k' k) eqn:E; auto.
    apply String.eqb_eq in E. congruence.
  - destruct (String.eqb k k0) eqn:E; simpl.
    + apply String.eqb_eq in E. subst k0.
      destruct (String.eqb k' k) eqn:E'; auto.
      apply String.eqb_eq in E'. congruence.
    + now rewrite IH.
Qed.

Lemma keys_set_present k v d : mem k d = true -> keys (set k v d) = keys d.
Proof.
  unfold mem, keys. induction d as [|[k' v'] d IH]; simpl; [discriminate|].
  destruct (String.eqb k k') eqn:E; simpl; intros Hm; [reflexivity|].
  f_equal. now apply IH.
Qed.

Lemma set_absent k v d : get k d = None -> set k v d = (d ++ [(k, v)])%list.
Proof.
  induction d as [|[k' v'] d IH]; simpl; [reflexivity|].
  destruct (String.eqb k k'); [discriminate|].
  intros Hn. now rewrite IH.
Qed.

Lemma mem_get k d : mem k d = true <-> exists v, get k d = Some v.
Proof.
  unfold mem. destruct (get k d); split; eauto; try discriminate.
  intros [v Hv]. discriminate.
Qed.

End PyDictFacts.

(** ** The template parameter catalogue *)

(** C8: [get_required_parameters] is a total function of the kind alone; for
    'nfs-server' it is the base set followed by the one entry
    [additional_disk_size_gb], which is not a key of the base set; for
    'k3s-node' and for every other kind it is the base set itself. *)
Theorem get_required_parameters_by_kind :
  PackerManager.get_required_parameters "nfs-server"
  = (PackerManager.base_params
       ++ [("additional_disk_size_gb",
            VStr "Additional storage disk size in GB (for NFS)")])%list
  /\ PyDict.get "additional_disk_size_gb" PackerManager.base_params = None
  /\ PackerManager.get_required_parameters "k3s-node" = PackerManager.base_params
  /\ forall kind : string,
       PackerManager.get_required_parameters kind
       = if String.eqb kind "nfs-server"
         then PackerManager.get_required_parameters "nfs-server"
         else PackerManager.base_params.
Proof.
  split; [reflexivity|]. split; [reflexivity|]. split; [reflexivity|].
  intros kind. unfold PackerManager.get_required_parameters.
  now destruct (String.eqb kind "nfs-server").
Qed.

(** ** The prompt layer *)

Lemma prompt_value_of_no_default line :
  ConfigManager.prompt_value_of line None = PyStr.strip line.
Proof.
  unfold ConfigManager.prompt_value_of.
  destruct (String.eqb (PyStr.strip line) "") eqn:E; simpl; [|reflexivity].
  apply String.eqb_eq in E. now rewrite E.
Qed.

(** C7: on reading a line, [prompt_value] returns the supplied default when
    the line is empty after trimming and the trimmed line otherwise (with no
    default supplied, the empty string stands for it), and consumes exactly
    that line. *)
Theorem prompt_value_default_or_trimmed_input
    (prompt : string) (default : option string) (line : string)
    (fs : FS.t) (rest : list string) (cc : value) :
  ConfigManager.prompt_value prompt default (World fs (line :: rest) cc)
  = (Ok (if String.eqb (PyStr.strip line) ""
         then match default with Some d => d | None => "" end
         else PyStr.strip line),
     World fs rest cc).
Proof.
  unfold ConfigManager.prompt_value, bind, input, ret, set_stdin; simpl.
  unfold ConfigManager.prompt_value_of.
  destruct (String.eqb (PyStr.strip line) "") eqn:E; simpl; [|reflexivity].
  destruct default as [d|]; [|reflexivity].
  destruct (String.eqb d "") eqn:Ed; simpl; [|reflexivity].
  apply String.eqb_eq in Ed. now subst d.
Qed.

Lemma prompt_choice_lines_skips choices invalid lines :
  Forall (invalid_entry choices) invalid ->
  ConfigManager.prompt_choice_lines choices (invalid ++ lines)
  = ConfigManager.prompt_choice_lines choices lines.
Proof.
  induction 1 as [|line invalid Hline _ IH]; [reflexivity|].
  simpl. destruct Hline as [-> | (n & -> & Hn)]; [exact IH|].
  replace ((1 <=? n) && (n <=? Z.of_nat (length choices))) with false; [exact IH|].
  symmetry. apply andb_false_iff. destruct Hn; [left | right]; lia.
Qed.

Lemma prompt_choice_lines_member choices lines choice rest :
  ConfigManager.prompt_choice_lines choices lines = (Ok choice, rest) ->
  In choice choices.
Proof.
  revert choice rest. induction lines as [|line lines IH]; simpl; intros choice rest.
  - discriminate.
  - destruct (PyStr.py_int line) as [n|]; [|apply IH].
    destruct ((1 <=? n) && (n <=? Z.of_nat (length choices))); [|apply IH].
    destruct (choices !! Z.to_nat (n - 1)) as [c|] eqn:E; [|discriminate].
    intros [= <- _]. apply list_elem_of_In. eapply list_elem_of_lookup_2, E.
Qed.

(** C6: after any number of invalid entries, a valid 1-based selection makes
    [prompt_choice] return the element of [choices] at that position, having
    read the entries up to and including the valid one; the value returned is
    a member of [choices]. *)
Theorem prompt_choice_returns_selected_option
    (message : string) (choices invalid : list string) (valid : string)
    (selection : Z) (rest : list string) (w : world) :
  choices <> [] ->
  Forall (invalid_entry choices) invalid ->
  PyStr.py_int valid = Some selection ->
  1 <= selection <= Z.of_nat (length choices) ->
  stdin w = (invalid ++ valid :: rest)%list ->
  exists choice,
    choices !! Z.to_nat (selection - 1) = Some choice
    /\ ConfigManager.prompt_choice message choices w = (Ok choice, set_stdin rest w)
    /\ In choice choices.
Proof.
  intros _ Hinv Hvalid Hrange Hin.
  destruct (lookup_lt_is_Some_2 choices (Z.to_nat (selection - 1))) as [choice Hc];
    [lia|].
  assert (Hrun : ConfigManager.prompt_choice_lines choices (invalid ++ valid :: rest)
                 = (Ok choice, rest)).
  { rewrite prompt_choice_lines_skips by assumption. simpl. rewrite Hvalid.
    replace ((1 <=? selection) && (selection <=? Z.of_nat (length choices))) with true
      by (symmetry; apply andb_true_iff; lia).
    now rewrite Hc. }
  exists choice. split; [exact Hc|]. split.
  - unfold ConfigManager.prompt_choice. now rewrite Hin, Hrun.
  - eapply prompt_choice_lines_member, Hrun.
Qed.

Lemma prompt_choice_returns_selected_option_witness :
  exists choice,
    ["k3s-node"; "nfs-server"] !! Z.to_nat (2 - 1) = Some choice
    /\ ConfigManager.prompt_choice "Select template type" ["k3s-node"; "nfs-server"]
         (World ∅ ["x"; "0"; "3"; ""; after_separator "1"; " 2 "; "y"] VNone)
       = (Ok choice,
          set_stdin ["y"]
            (World ∅ ["x"; "0"; "3"; ""; after_separator "1"; " 2 "; "y"] VNone))
    /\ In choice ["k3s-node"; "nfs-server"].
Proof.
  apply (prompt_choice_returns_selected_option
           "Select template type" ["k3s-node"; "nfs-server"]
           ["x"; "0"; "3"; ""; after_separator "1"] " 2 " 2 ["y"]).
  - discriminate.
  - apply List.Forall_cons; [left; reflexivity|].
    apply List.Forall_cons; [right; exists 0; split; [reflexivity | simpl; lia]|].
    apply List.Forall_cons; [right; exists 3; split; [reflexivity | simpl; lia]|].
    apply List.Forall_cons; [left; reflexivity|].
    apply List.Forall_cons; [left; reflexivity|].
    apply List.Forall_nil.
  - reflexivity.
  - simpl; lia.
  - reflexivity.
Defined.

(** ** The build descriptor *)

(** C3, counterexample: for a template kind other than the two known ones the
    provisioner list is the three steps of the literal, with no script
    appended. *)
Lemma generate_packer_config_unknown_kind_appends_nothing :
  PyDict.get "provisioners"
    (PackerManager.generate_packer_config sample_packer_manager
       (sample_packer_config "docker-host"))
  = Some (VList (PackerManager.fixed_provisioners sample_packer_manager))
  /\ ~ kind_script_appended sample_packer_manager
         (PackerManager.generate_packer_config sample_packer_manager
            (sample_packer_config "docker-host")).
Proof.
  split; [reflexivity|].
  intros [name Hname]. vm_compute in Hname. discriminate Hname.
Qed.

(** C3, amended: the rendered descriptor has exactly the sections
    [variables], [builders], [provisioners], in this order; [variables] maps
    strings to strings, with [cpu_cores], [memory_mb] and [disk_size_gb]
    stringified; [builders] is a list of one stanza; [provisioners] is the
    three fixed steps followed by the script of the template kind when the
    kind is 'k3s-node' or 'nfs-server' and by nothing for any other kind;
    every step is of type shell or file. *)
Theorem generate_packer_config_shape (self : PackerManager.t) (config : PackerConfig) :
  let descriptor := PackerManager.generate_packer_config self config in
  PyDict.keys descriptor = ["variables"; "builders"; "provisioners"]
  /\ PyDict.get "variables" descriptor = Some (VDict (PackerManager.variables config))
  /\ Forall (fun kv => exists text : string, snd kv = VStr text)
            (PackerManager.variables config)
  /\ PyDict.get "cpu_cores" (PackerManager.variables config)
     = Some (VStr (PyStr.str_of_int (cpu_cores config)))
  /\ PyDict.get "memory_mb" (PackerManager.variables config)
     = Some (VStr (PyStr.str_of_int (memory_mb config)))
  /\ PyDict.get "disk_size_gb" (PackerManager.variables config)
     = Some (VStr (PyStr.str_of_int (disk_size_gb config)))
  /\ PyDict.get "builders" descriptor = Some (VList [PackerManager.builder self config])
  /\ PyDict.get "provisioners" descriptor
     = Some (VList (PackerManager.fixed_provisioners self
                      ++ kind_steps self (template_type config)))
  /\ Forall shell_or_file_step
            (PackerManager.fixed_provisioners self
               ++ kind_steps self (template_type config)).
Proof.
  cbv zeta. unfold PackerManager.generate_packer_config, kind_steps.
  assert (Hvars : Forall (fun kv => exists text : string, snd kv = VStr text)
                         (PackerManager.variables config)).
  { unfold PackerManager.variables.
    repeat (apply List.Forall_cons; [simpl; eauto|]). apply List.Forall_nil. }
  assert (Hstep : forall name, shell_or_file_step (PackerManager.shell_script self name)).
  { intros name. eexists. split; [reflexivity|]. left. reflexivity. }
  assert (Hfixed : Forall shell_or_file_step (PackerManager.fixed_provisioners self)).
  { unfold PackerManager.fixed_provisioners.
    apply List.Forall_cons; [eexists; split; [reflexivity|]; left; reflexivity|].
    apply List.Forall_cons; [eexists; split; [reflexivity|]; right; reflexivity|].
    apply List.Forall_cons; [eexists; split; [reflexivity|]; left; reflexivity|].
    apply List.Forall_nil. }
  destruct (String.eqb (template_type config) "k3s-node");
    [|destruct (String.eqb (template_type config) "nfs-server")];
    (repeat split; try reflexivity; try assumption;
     apply Forall_app; split; try assumption;
     first [ apply List.Forall_nil
           | apply List.Forall_cons; [apply Hstep | apply List.Forall_nil] ]).
Qed.

(** ** The file system *)

Module FSFacts.

Lemma walk_insert_deeper (fs : FS.t) p n pre rest :
  (length pre + length rest < length p)%nat ->
  FS.walk (<[p := n]> fs) pre rest = FS.walk fs pre rest.
Proof.
  revert pre. induction rest as [|part rest IH]; intros pre Hlen; [reflexivity|].
  simpl in *.
  assert (Hq : p <> (pre ++ [part])%list).
  { intros ->. rewrite length_app in Hlen. simpl in Hlen. lia. }
  assert (Hrec : (length (pre ++ [part]) + length rest < length p)%nat).
  { rewrite length_app. simpl. lia. }
  rewrite lookup_insert_ne by exact Hq.
  rewrite !(IH _ Hrec). reflexivity.
Qed.

(** Resolving a directory fails in two ways only. *)
Lemma walk_raises (fs : FS.t) (rest : list string) :
  forall pre e,
    FS.walk fs pre rest = Raise e ->
    e = FileNotFoundError \/ e = NotADirectoryError.
Proof.
  induction rest as [|part rest IH]; intros pre e; simpl; [discriminate|].
  destruct (PyPath.is_anchor (pre ++ [part])); [apply IH|].
  destruct (fs !! (pre ++ [part])%list) as [[c|]|]; [|apply IH|]; intros [= <-]; auto.
Qed.

Lemma parent_shorter p :
  PyPath.is_anchor p = false -> (length (PyPath.parent p) < length p)%nat.
Proof.
  destruct p as [|a [|b p]]; simpl; try discriminate.
  - intros ->. simpl. lia.
  - intros _. change (length (removelast (a :: b :: p)) < S (S (length p)))%nat.
    rewrite removelast_firstn_len, length_firstn. simpl. lia.
Qed.

Lemma write_text_inv (fs fs' : FS.t) p text :
  FS.write_text fs p text = Ok fs' ->
  PyPath.is_anchor p = false
  /\ FS.walk fs [] (PyPath.parent p) = Ok tt
  /\ fs' = <[p := File text]> fs.
Proof.
  unfold FS.write_text.
  destruct (PyPath.is_anchor p); [discriminate|].
  destruct (FS.walk fs [] (PyPath.parent p)) as [[]|]; [|discriminate].
  destruct (fs !! p) as [[|]|]; intros [= <-]; auto.
Qed.

(** A file that was written reads back as written. *)
Lemma read_text_write_text (fs fs' : FS.t) p text :
  FS.write_text fs p text = Ok fs' -> FS.read_text fs' p = Ok text.
Proof.
  intros Hw. apply write_text_inv in Hw as (Hanchor & Hwalk & ->).
  unfold FS.read_text. rewrite Hanchor.
  rewrite walk_insert_deeper by (simpl; now apply parent_shorter).
  rewrite Hwalk. now rewrite lookup_insert_eq.
Qed.

End FSFacts.

(** ** The configuration store *)

Section ConfigStore.
Context `{Yaml}.

Lemma save_config_inv config path w w' :
  ConfigManager.save_config config path w = (Ok true, w') ->
  exists fs2 fs3 text,
    yaml_dump (VDict config) = Ok text
    /\ FS.write_text fs2 path text = Ok fs3
    /\ w' = set_files fs3 w.
Proof.
  unfold ConfigManager.save_config, try_except, bind, get_files, put_files, lift, ret.
  destruct w as [fs lines cc]; simpl.
  destruct (FS.mkdir_parents fs (PyPath.parent path)) as [fs1|]; simpl;
    [|discriminate].
  destruct (FS.write_text fs1 path "") as [fs2|]; simpl; [|discriminate].
  destruct (yaml_dump (VDict config)) as [text|]; simpl; [|discriminate].
  destruct (FS.write_text fs2 path text) as [fs3|] eqn:Hw; simpl; [|discriminate].
  intros [= <-]. exists fs2, fs3, text. auto.
Qed.

Lemma save_config_never_raises config path w :
  exists saved w', ConfigManager.save_config config path w = (Ok saved, w')
                   /\ stdin w' = stdin w /\ current_config w' = current_config w.
Proof.
  unfold ConfigManager.save_config, try_except, bind, get_files, put_files, lift, ret.
  destruct w as [fs lines cc]; simpl.
  destruct (FS.mkdir_parents fs (PyPath.parent path)) as [fs1|]; simpl; eauto.
  destruct (FS.write_text fs1 path "") as [fs2|]; simpl; eauto.
  destruct (yaml_dump (VDict config)) as [text|]; simpl; eauto.
  destruct (FS.write_text fs2 path text) as [fs3|]; simpl; eauto.
Qed.

Lemma load_config_keeps_world path w r w' :
  ConfigManager.load_config path w = (r, w') -> w' = w.
Proof.
  unfold ConfigManager.load_config, try_except, bind, get_files, lift, ret.
  destruct (FS.read_text (files w) path) as [text|e]; simpl.
  - destruct (yaml_safe_load text) as [doc|e]; simpl; [congruence|].
    destruct e; congruence.
  - destruct e; congruence.
Qed.

(** C1: when the YAML library round-trips the document, a save that
    succeeded followed by a load of the same path returns the document
    itself: the same keys in the same order with the same, possibly
    nested, values. *)
Theorem load_config_after_save_config
    (config : PyDict.t) (path : PyPath.t) (w w' : world) :
  yaml_round_trips (VDict config) ->
  ConfigManager.save_config config path w = (Ok true, w') ->
  ConfigManager.load_config path w' = (Ok (VDict config), w').
Proof.
  intros Hyaml Hsave.
  apply save_config_inv in Hsave as (fs2 & fs3 & text & Hdump & Hwrite & ->).
  apply FSFacts.read_text_write_text in Hwrite.
  unfold ConfigManager.load_config, try_except, bind, get_files, lift, ret; simpl.
  rewrite Hwrite; simpl. now rewrite (Hyaml _ Hdump).
Qed.

(** What [open] reports as not found comes back as the empty document. *)
Lemma load_config_not_found path w :
  FS.read_text (files w) path = Raise FileNotFoundError ->
  ConfigManager.load_config path w = (Ok (VDict PyDict.empty), w).
Proof.
  unfold ConfigManager.load_config, try_except, bind, get_files, lift, ret.
  intros Hmissing; simpl. now rewrite Hmissing.
Qed.

(** The other failures of [open] are not among the [except] clauses. *)
Lemma load_config_propagates_other_errors path w e :
  FS.read_text (files w) path = Raise e ->
  e <> FileNotFoundError -> e <> YAMLError ->
  ConfigManager.load_config path w = (Raise e, w).
Proof.
  unfold ConfigManager.load_config, try_except, bind, get_files, lift, ret.
  intros Hread Hne1 Hne2; simpl. rewrite Hread.
  destruct e; congruence.
Qed.

(** C9: for a path at which nothing exists, [load_config] returns the empty
    document and raises nothing, except when the way to the path runs into
    a regular file: then [open] fails with [NotADirectoryError], which is
    none of the errors handled, and it reaches the caller.  For a file
    whose text is not well-formed YAML it returns the empty document.  The
    world is left as it was in every case. *)
Theorem load_config_missing_or_malformed (path : PyPath.t) (w : world) :
  FS.exists_ (files w) path = false
  \/ (exists text, FS.read_text (files w) path = Ok text
                   /\ yaml_safe_load text = Raise YAMLError) ->
  ConfigManager.load_config path w
  = (if below_regular_file (files w) path then Raise NotADirectoryError
     else Ok (VDict PyDict.empty),
     w).
Proof.
  intros [Habsent | (text & Hread & Hbad)].
  - unfold FS.exists_ in Habsent. apply orb_false_iff in Habsent as [Hanchor Hnode].
    unfold below_regular_file.
    destruct (FS.walk (files w) [] (PyPath.parent path)) as [[]|e] eqn:Hwalk.
    + apply load_config_not_found. unfold FS.read_text.
      rewrite Hanchor, Hwalk.
      destruct (files w !! path) as [n|]; [discriminate Hnode | reflexivity].
    + destruct (FSFacts.walk_raises _ _ _ _ Hwalk) as [-> | ->].
      * apply load_config_not_found. unfold FS.read_text.
        now rewrite Hanchor, Hwalk.
      * apply load_config_propagates_other_errors; try discriminate.
        unfold FS.read_text. now rewrite Hanchor, Hwalk.
  - assert (Hbelow : below_regular_file (files w) path = false).
    { unfold below_regular_file. unfold FS.read_text in Hread.
      destruct (PyPath.is_anchor path); [discriminate|].
      now destruct (FS.walk (files w) [] (PyPath.parent path)) as [[]|e]. }
    rewrite Hbelow.
    unfold ConfigManager.load_config, try_except, bind, get_files, lift, ret; simpl.
    rewrite Hread; simpl. now rewrite Hbad.
Qed.

End ConfigStore.

Lemma load_config_after_save_config_witness :
  yaml_round_trips (H := MiniYaml.codec) (VDict sample_document)
  /\ ConfigManager.save_config (H := MiniYaml.codec) sample_document
       ["config"; "custom-config.yaml"] (World ∅ [] VNone)
     = (Ok true,
        snd (ConfigManager.save_config (H := MiniYaml.codec) sample_document
               ["config"; "custom-config.yaml"] (World ∅ [] VNone)))
  /\ ConfigManager.load_config (H := MiniYaml.codec) ["config"; "custom-config.yaml"]
       (snd (ConfigManager.save_config (H := MiniYaml.codec) sample_document
               ["config"; "custom-config.yaml"] (World ∅ [] VNone)))
     = (Ok (VDict sample_document),
        snd (ConfigManager.save_config (H := MiniYaml.codec) sample_document
               ["config"; "custom-config.yaml"] (World ∅ [] VNone))).
Proof.
  assert (Hrt : yaml_round_trips (H := MiniYaml.codec) (VDict sample_document)).
  { intros text Hdump. vm_compute in Hdump. injection Hdump as <-.
    vm_compute. reflexivity. }
  assert (Hsave : ConfigManager.save_config (H := MiniYaml.codec) sample_document
                    ["config"; "custom-config.yaml"] (World ∅ [] VNone)
                  = (Ok true,
                     snd (ConfigManager.save_config (H := MiniYaml.codec) sample_document
                            ["config"; "custom-config.yaml"] (World ∅ [] VNone)))).
  { vm_compute. reflexivity. }
  split; [exact Hrt|]. split; [exact Hsave|].
  exact (load_config_after_save_config (H := MiniYaml.codec) sample_document
           ["config"; "custom-config.yaml"] (World ∅ [] VNone) _ Hrt Hsave).
Defined.

Lemma load_config_missing_or_malformed_witness :
  (FS.exists_ ∅ ["config"; "default.yaml"] = false
   /\ ConfigManager.load_config (H := MiniYaml.codec) ["config"; "default.yaml"]
        (World ∅ ["y"] VNone)
      = (Ok (VDict PyDict.empty), World ∅ ["y"] VNone))
  /\ (FS.exists_ (<[ ["config"] := Dir ]> ∅) ["config"; "default.yaml"] = false
      /\ ConfigManager.load_config (H := MiniYaml.codec) ["config"; "default.yaml"]
           (World (<[ ["config"] := Dir ]> ∅) ["y"] VNone)
         = (Ok (VDict PyDict.empty), World (<[ ["config"] := Dir ]> ∅) ["y"] VNone))
  /\ (FS.exists_ blocked_disk ["srv-config"; "default.yaml"] = false
      /\ ConfigManager.load_config (H := MiniYaml.codec) ["srv-config"; "default.yaml"]
           (World blocked_disk ["y"] VNone)
         = (Raise NotADirectoryError, World blocked_disk ["y"] VNone))
  /\ ConfigManager.load_config (H := MiniYaml.codec) ["config"; "default.yaml"]
       (World (<[ ["config"; "default.yaml"] := File "memory_mb: 'unclosed" ]>
                 (<[ ["config"] := Dir ]> ∅)) ["y"] VNone)
     = (Ok (VDict PyDict.empty),
        World (<[ ["config"; "default.yaml"] := File "memory_mb: 'unclosed" ]>
                 (<[ ["config"] := Dir ]> ∅)) ["y"] VNone).
Proof.
  split; [|split; [|split]].
  - split; [reflexivity|].
    exact (load_config_missing_or_malformed (H := MiniYaml.codec)
             ["config"; "default.yaml"] (World ∅ ["y"] VNone) (or_introl eq_refl)).
  - split; [reflexivity|].
    exact (load_config_missing_or_malformed (H := MiniYaml.codec)
             ["config"; "default.yaml"] (World (<[ ["config"] := Dir ]> ∅) ["y"] VNone)
             (or_introl eq_refl)).
  - split; [reflexivity|].
    exact (load_config_missing_or_malformed (H := MiniYaml.codec)
             ["srv-config"; "default.yaml"] (World blocked_disk ["y"] VNone)
             (or_introl eq_refl)).
  - refine (load_config_missing_or_malformed (H := MiniYaml.codec)
              ["config"; "default.yaml"]
              (World (<[ ["config"; "default.yaml"] := File "memory_mb: 'unclosed" ]>
                        (<[ ["config"] := Dir ]> ∅)) ["y"] VNone) _).
    right. exists "memory_mb: 'unclosed". split; vm_compute; reflexivity.
Defined.

(** C9, counterexample: on a disk where [srv-config] is a regular file,
    nothing exists at [srv-config/new.yaml], and [load_config] of that path
    raises [NotADirectoryError] instead of returning the empty document. *)
Lemma load_config_absent_below_a_file_raises :
  FS.exists_ blocked_disk (PyPath.of_str "srv-config/new.yaml") = false
  /\ ConfigManager.load_config (H := MiniYaml.codec)
       (PyPath.of_str "srv-config/new.yaml") (World blocked_disk [] VNone)
     = (Raise NotADirectoryError, World blocked_disk [] VNone).
Proof. split; vm_compute; reflexivity. Qed.

(** ** Suffixes *)

Module SuffixFacts.

Lemma chars_append a b :
  PyStr.chars (a ++ b) = (PyStr.chars a ++ PyStr.chars b)%list.
Proof. unfold PyStr.chars. induction a as [|c a IH]; simpl; [reflexivity|]. now rewrite IH. Qed.

Lemma of_chars_chars s : PyStr.of_chars (PyStr.chars s) = s.
Proof. apply string_of_list_ascii_of_string. Qed.

Lemma of_chars_app a b :
  PyStr.of_chars (a ++ b) = PyStr.of_chars a ++ PyStr.of_chars b.
Proof.
  unfold PyStr.of_chars. induction a as [|c a IH]; simpl; [reflexivity|].
  now rewrite IH.
Qed.

Lemma is_prefix_app p cs : PyStr.is_prefix p (p ++ cs) = true.
Proof.
  induction p as [|a p IH]; [reflexivity|]. simpl.
  now rewrite Ascii.eqb_refl, IH.
Qed.

Lemma is_prefix_inv p :
  forall cs, PyStr.is_prefix p cs = true -> exists tail, cs = (p ++ tail)%list.
Proof.
  induction p as [|a p IH]; intros cs; simpl; [eauto|].
  destruct cs as [|b cs]; [discriminate|].
  intros Hp. apply andb_true_iff in Hp as [Hab Hp].
  apply Ascii.eqb_eq in Hab as ->. destruct (IH _ Hp) as [tail ->]. now exists tail.
Qed.

(** A text ends with what was appended to it, and with nothing else. *)
Lemma endswith_append stem suffix : PyStr.endswith (stem ++ suffix) suffix = true.
Proof.
  unfold PyStr.endswith. rewrite chars_append, rev_app_distr. apply is_prefix_app.
Qed.

Lemma endswith_inv s suffix :
  PyStr.endswith s suffix = true -> exists stem, s = stem ++ suffix.
Proof.
  unfold PyStr.endswith. intros Hp. apply is_prefix_inv in Hp as [tail Htail].
  exists (PyStr.of_chars (rev tail)).
  apply (f_equal (@rev ascii)) in Htail.
  rewrite rev_involutive, rev_app_distr, rev_involutive in Htail.
  rewrite <- (of_chars_chars s), Htail, of_chars_app, of_chars_chars. reflexivity.
Qed.

(** The guard of the wizard holds of every name the specification calls
    numeric. *)
Lemma numeric_name_is_numeric_param param :
  numeric_name param -> DeploymentOrchestrator.is_numeric_param param = true.
Proof.
  unfold DeploymentOrchestrator.is_numeric_param.
  intros [[stem ->] | [[stem ->] | ->]].
  - now rewrite endswith_append.
  - rewrite endswith_append. now rewrite orb_true_r.
  - reflexivity.
Qed.

(** And of no other name. *)
Lemma is_numeric_param_numeric_name param :
  DeploymentOrchestrator.is_numeric_param param = true -> numeric_name param.
Proof.
  unfold DeploymentOrchestrator.is_numeric_param, numeric_name. intros Hguard.
  apply orb_true_iff in Hguard as [Hguard | Hcores].
  - apply orb_true_iff in Hguard as [Hmb | Hgb].
    + left. now apply endswith_inv.
    + right. left. now apply endswith_inv.
  - right. right. now apply String.eqb_eq.
Qed.

End SuffixFacts.

(** ** The parameter wizard *)

Module WizardFacts.
Import DeploymentOrchestrator.

Lemma store_parameter_stored param value config :
  store_parameter param value config
  = if String.eqb value "" then config
    else PyDict.set param (stored_value param value) config.
Proof.
  unfold store_parameter, stored_value.
  destruct (String.eqb value ""); simpl; [reflexivity|].
  destruct (is_numeric_param param); [|reflexivity].
  now destruct (PyStr.py_int value).
Qed.

Lemma get_store_parameter_other param param' value config :
  param <> param' ->
  PyDict.get param' (store_parameter param value config) = PyDict.get param' config.
Proof.
  intros Hne. rewrite store_parameter_stored.
  destruct (String.eqb value ""); [reflexivity|].
  now apply PyDictFacts.get_set_ne.
Qed.

Lemma get_store_parameter_same param value config :
  PyDict.get param (store_parameter param value config)
  = if String.eqb value "" then PyDict.get param config
    else Some (stored_value param value).
Proof.
  rewrite store_parameter_stored.
  destruct (String.eqb value ""); [reflexivity|].
  apply PyDictFacts.get_set_eq.
Qed.

(** The loop reads one line per catalogue entry. *)
Lemma gather_each_reads_all params :
  forall config lines rest fs cc,
    length lines = length params ->
    exists config',
      gather_each params config (World fs (lines ++ rest) cc)
      = (Ok config', World fs rest cc)
      /\ (forall key, ~ In key (PyDict.keys params) ->
                      PyDict.get key config' = PyDict.get key config)
      /\ (NoDup (PyDict.keys params) ->
          forall (i : nat) param description line,
            params !! i = Some (param, description) ->
            lines !! i = Some line ->
            PyDict.get param config'
            = if String.eqb (PyStr.strip line) "" then PyDict.get param config
              else Some (stored_value param (PyStr.strip line))).
Proof.
  induction params as [|[param0 description0] params IH];
    intros config lines rest fs cc Hlen.
  - destruct lines; [|discriminate]. exists config. simpl.
    split; [reflexivity|]. split; [reflexivity|]. intros _ i ? ? ? Hi.
    now rewrite lookup_nil in Hi.
  - destruct lines as [|line0 lines]; [discriminate|].
    injection Hlen as Hlen.
    destruct (IH (store_parameter param0 (PyStr.strip line0) config)
                 lines rest fs cc Hlen) as (config' & Hrun & Hframe & Hget).
    exists config'. split; [|split].
    + simpl. unfold bind at 1. unfold ConfigManager.prompt_value, bind, input, ret.
      simpl. rewrite prompt_value_of_no_default. exact Hrun.
    + intros key Hkey. simpl in Hkey. rewrite Hframe by tauto.
      apply get_store_parameter_other. tauto.
    + intros Hnodup i param description line Hi Hline.
      simpl in Hnodup. apply NoDup_cons in Hnodup as [Hfresh Hnodup].
      destruct i as [|i]; simpl in Hi, Hline.
      * injection Hi as <- <-. injection Hline as <-.
        rewrite Hframe by (rewrite <- list_elem_of_In; exact Hfresh).
        apply get_store_parameter_same.
      * rewrite (Hget Hnodup i param description line Hi Hline).
        destruct (String.eqb (PyStr.strip line) ""); [|reflexivity].
        apply get_store_parameter_other. intros ->. apply Hfresh.
        apply list_elem_of_lookup_2 in Hi.
        change param with (fst (param, description)).
        now apply list_elem_of_fmap_2.
Qed.

Lemma required_parameters_distinct kind :
  NoDup (PyDict.keys (PackerManager.get_required_parameters kind)).
Proof.
  unfold PackerManager.get_required_parameters.
  destruct (String.eqb kind "nfs-server");
    apply (bool_decide_unpack _); vm_compute; exact I.
Qed.

(** [template_type] is no entry of the catalogue. *)
Lemma template_type_not_required kind :
  "template_type" ∉ PyDict.keys (PackerManager.get_required_parameters kind).
Proof.
  unfold PackerManager.get_required_parameters.
  destruct (String.eqb kind "nfs-server");
    apply (bool_decide_unpack _); vm_compute; exact I.
Qed.

End WizardFacts.

(** C2: once the template kind is chosen and one line per catalogue entry is
    read, the wizard's document binds every parameter whose name ends in
    [_mb] or [_gb] or is [cpu_cores] as follows: nothing when the line is
    empty after trimming; the integer when the trimmed line parses as one;
    the trimmed line itself, as a string, otherwise.  A parameter with
    another name is bound to the trimmed line as a string, or to nothing
    when that is empty: no conversion is tried.  The names are those of the
    specification ([numeric_name]); that the guard of the code holds of
    them, and of no other name, is part of what is proved. *)
Theorem wizard_coerces_numeric_parameters
    (self : DeploymentOrchestrator.t) (w w1 : world) (template_type : string)
    (lines rest : list string) :
  ConfigManager.prompt_choice "Select template type" ["k3s-node"; "nfs-server"] w
  = (Ok template_type, w1) ->
  length lines = length (PackerManager.get_required_parameters template_type) ->
  stdin w1 = (lines ++ rest)%list ->
  exists config,
    DeploymentOrchestrator._gather_template_parameters self w
    = (Ok config, set_stdin rest w1)
    /\ forall (i : nat) param description line,
         PackerManager.get_required_parameters template_type !! i
         = Some (param, description) ->
         lines !! i = Some line ->
         (numeric_name param ->
          PyDict.get param config
          = if String.eqb (PyStr.strip line) "" then None
            else match PyStr.py_int (PyStr.strip line) with
                 | Some n => Some (VInt n)
                 | None => Some (VStr (PyStr.strip line))
                 end)
         /\ (~ numeric_name param ->
             PyDict.get param config
             = if String.eqb (PyStr.strip line) "" then None
               else Some (VStr (PyStr.strip line))).
Proof.
  intros Hchoice Hlen Hin.
  destruct w1 as [fs1 lines1 cc1]. simpl in Hin. subst lines1.
  destruct (WizardFacts.gather_each_reads_all
              (PackerManager.get_required_parameters template_type)
              (PyDict.set "template_type" (VStr template_type) PyDict.empty)
              lines rest fs1 cc1 Hlen) as (config & Hrun & _ & Hget).
  exists config. split.
  - unfold DeploymentOrchestrator._gather_template_parameters, bind.
    rewrite Hchoice. exact Hrun.
  - intros i param description line Hi Hline.
    rewrite (Hget (WizardFacts.required_parameters_distinct template_type)
                  i param description line Hi Hline).
    assert (Hfresh : PyDict.get param
                       (PyDict.set "template_type" (VStr template_type) PyDict.empty)
                     = None).
    { simpl. destruct (String.eqb param "template_type") eqn:E; [|reflexivity].
      apply String.eqb_eq in E. subst param. exfalso.
      apply list_elem_of_lookup_2 in Hi.
      apply (WizardFacts.template_type_not_required template_type).
      change "template_type" with (fst ("template_type", description)).
      now apply list_elem_of_fmap_2. }
    rewrite Hfresh. unfold stored_value. split.
    + intros Hname.
      rewrite (SuffixFacts.numeric_name_is_numeric_param param Hname).
      destruct (String.eqb (PyStr.strip line) ""); [reflexivity|].
      now destruct (PyStr.py_int _).
    + intros Hname.
      destruct (DeploymentOrchestrator.is_numeric_param param) eqn:Hguard;
        [|reflexivity].
      exfalso. now apply Hname, SuffixFacts.is_numeric_param_numeric_name.
Qed.

Example wizard_stores_integer :
  DeploymentOrchestrator.store_parameter "memory_mb" "4096" PyDict.empty
  = [("memory_mb", VInt 4096)].
Proof. reflexivity. Qed.

Example wizard_keeps_text :
  DeploymentOrchestrator.store_parameter "memory_mb" "4GB" PyDict.empty
  = [("memory_mb", VStr "4GB")].
Proof. reflexivity. Qed.

Example wizard_skips_empty :
  DeploymentOrchestrator.store_parameter "memory_mb" "" PyDict.empty = PyDict.empty.
Proof. reflexivity. Qed.

Lemma wizard_coerces_numeric_parameters_witness :
  exists config,
    DeploymentOrchestrator._gather_template_parameters sample_orchestrator
      (World ∅ ("2" :: sample_answers ++ ["y"]) VNone)
    = (Ok config, set_stdin ["y"] (World ∅ (sample_answers ++ ["y"]) VNone))
    /\ PyDict.get "cpu_cores" config = None
    /\ PyDict.get "memory_mb" config = Some (VInt 4096)
    /\ PyDict.get "disk_size_gb" config = Some (VInt 40)
    /\ PyDict.get "additional_disk_size_gb" config = Some (VStr "4GB")
    /\ PyDict.get "template_name" config = Some (VStr "debian-nfs").
Proof.
  destruct (wizard_coerces_numeric_parameters sample_orchestrator
              (World ∅ ("2" :: sample_answers ++ ["y"]) VNone)
              (World ∅ (sample_answers ++ ["y"]) VNone)
              "nfs-server" sample_answers ["y"] eq_refl eq_refl eq_refl)
    as (config & Hrun & Hget).
  exists config. split; [exact Hrun|].
  split; [|split; [|split; [|split]]].
  - exact (proj1 (Hget 11%nat "cpu_cores" _ "  " eq_refl eq_refl)
             (or_intror (or_intror eq_refl))).
  - exact (proj1 (Hget 12%nat "memory_mb" _ " 4096 " eq_refl eq_refl)
             (or_introl (ex_intro _ "memory" eq_refl))).
  - exact (proj1 (Hget 13%nat "disk_size_gb" _ "40" eq_refl eq_refl)
             (or_intror (or_introl (ex_intro _ "disk_size" eq_refl)))).
  - exact (proj1 (Hget 14%nat "additional_disk_size_gb" _ "4GB" eq_refl eq_refl)
             (or_intror (or_introl (ex_intro _ "additional_disk_size" eq_refl)))).
  - refine (proj2 (Hget 0%nat "template_name" _ "debian-nfs" eq_refl eq_refl) _).
    intros Hname. apply SuffixFacts.numeric_name_is_numeric_param in Hname.
    discriminate Hname.
Defined.

Example wizard_sample_document :
  fst (DeploymentOrchestrator._gather_template_parameters sample_orchestrator
         (World ∅ ("2" :: sample_answers ++ ["y"]) VNone))
  = Ok [ ("template_type", VStr "nfs-server");
         ("template_name", VStr "debian-nfs");
         ("vcenter_host", VStr "vc.example.org");
         ("vcenter_user", VStr "builder");
         ("vcenter_password", VStr "secret");
         ("vcenter_datacenter", VStr "dc1");
         ("vcenter_cluster", VStr "cl1");
         ("vcenter_datastore", VStr "ds1");
         ("vcenter_network", VStr "VM Network");
         ("vcenter_folder", VStr "templates");
         ("iso_datastore", VStr "iso");
         ("iso_path", VStr "debian.iso");
         ("memory_mb", VInt 4096);
         ("disk_size_gb", VInt 40);
         ("additional_disk_size_gb", VStr "4GB") ].
Proof. vm_compute. reflexivity. Qed.

(** ** The editing loop *)

Module EditFacts.
Import DeploymentOrchestrator.

Lemma edit_lines_absent config line rest :
  PyStr.lower (PyStr.strip line) <> "done" ->
  PyDict.get (PyStr.strip line) config = None ->
  edit_lines config (line :: rest) = edit_lines config rest.
Proof.
  intros Hdone Habsent. simpl. rewrite prompt_value_of_no_default.
  apply String.eqb_neq in Hdone. now rewrite Hdone, Habsent.
Qed.

Lemma edit_lines_present config line old line' rest :
  PyStr.lower (PyStr.strip line) <> "done" ->
  PyDict.get (PyStr.strip line) config = Some old ->
  edit_lines config (line :: line' :: rest)
  = edit_lines
      (PyDict.set (PyStr.strip line)
         (VStr (ConfigManager.prompt_value_of line' (Some (py_str old)))) config)
      rest.
Proof.
  intros Hdone Hold. simpl. rewrite prompt_value_of_no_default.
  apply String.eqb_neq in Hdone. now rewrite Hdone, Hold.
Qed.

Lemma edit_lines_done config line rest :
  PyStr.lower (PyStr.strip line) = "done" ->
  edit_lines config (line :: rest) = (Ok config, rest).
Proof.
  intros Hdone. simpl. rewrite prompt_value_of_no_default, Hdone. reflexivity.
Qed.

(** The loop leaves the keys as they are, rebinds present keys only, and
    has read at least one line when it ends normally. *)
Lemma edit_lines_spec (n : nat) :
  forall lines config config' rest,
    (length lines <= n)%nat ->
    edit_lines config lines = (Ok config', rest) ->
    PyDict.keys config' = PyDict.keys config
    /\ rebinds config config'
    /\ (length rest < length lines)%nat.
Proof.
  induction n as [|n IH]; intros lines config config' rest Hlen Hrun.
  - destruct lines; [discriminate Hrun | simpl in Hlen; lia].
  - destruct lines as [|line lines]; [discriminate Hrun|].
    simpl in Hlen. simpl in Hrun. rewrite prompt_value_of_no_default in Hrun.
    destruct (String.eqb (PyStr.lower (PyStr.strip line)) "done").
    { injection Hrun as <- <-. repeat split; [constructor | simpl; lia]. }
    destruct (PyDict.get (PyStr.strip line) config) as [old|] eqn:Hold.
    + destruct lines as [|line' lines]; [discriminate Hrun|].
      simpl in Hlen.
      destruct (IH lines _ config' rest ltac:(lia) Hrun) as (Hkeys & Hreb & Hrest).
      split; [|split].
      * rewrite Hkeys. apply PyDictFacts.keys_set_present.
        apply PyDictFacts.mem_get. eauto.
      * eapply rebinds_step; eauto.
      * simpl. lia.
    + destruct (IH lines config config' rest ltac:(lia) Hrun) as (Hkeys & Hreb & Hrest).
      split; [exact Hkeys|]. split; [exact Hreb|]. simpl. lia.
Qed.

End EditFacts.

(** C10: in the editing loop, a name that is not a key of the document
    leaves the document as it is; a name that is a key is rebound to the text
    [prompt_value] returns, stored as a string; and when the loop ends the
    document has the keys it started with, in the same order, each change
    being such a rebinding. *)
Theorem editing_loop_rebinds_present_keys_only (config : PyDict.t) :
  (forall line rest,
     PyStr.lower (PyStr.strip line) <> "done" ->
     PyDict.get (PyStr.strip line) config = None ->
     DeploymentOrchestrator.edit_lines config (line :: rest)
     = DeploymentOrchestrator.edit_lines config rest)
  /\ (forall line old line' rest,
        PyStr.lower (PyStr.strip line) <> "done" ->
        PyDict.get (PyStr.strip line) config = Some old ->
        DeploymentOrchestrator.edit_lines config (line :: line' :: rest)
        = DeploymentOrchestrator.edit_lines
            (PyDict.set (PyStr.strip line)
               (VStr (ConfigManager.prompt_value_of line' (Some (py_str old)))) config)
            rest)
  /\ (forall lines config' rest,
        DeploymentOrchestrator.edit_lines config lines = (Ok config', rest) ->
        PyDict.keys config' = PyDict.keys config /\ rebinds config config').
Proof.
  split; [|split].
  - intros line rest. apply EditFacts.edit_lines_absent.
  - intros line old line' rest. apply EditFacts.edit_lines_present.
  - intros lines config' rest Hrun.
    destruct (EditFacts.edit_lines_spec (length lines) lines config config' rest
                (Nat.le_refl _) Hrun) as (Hkeys & Hreb & _).
    split; assumption.
Qed.

Lemma editing_loop_rebinds_present_keys_only_witness :
  DeploymentOrchestrator.edit_lines sample_document ["swap_mb"; "done"; "2"]
  = DeploymentOrchestrator.edit_lines sample_document ["done"; "2"]
  /\ DeploymentOrchestrator.edit_lines sample_document ["memory_mb"; "8192"; "done"; "2"]
     = DeploymentOrchestrator.edit_lines
         (PyDict.set "memory_mb" (VStr "8192") sample_document) ["done"; "2"]
  /\ PyDict.keys (PyDict.set "memory_mb" (VStr "8192") sample_document)
     = PyDict.keys sample_document
  /\ rebinds sample_document (PyDict.set "memory_mb" (VStr "8192") sample_document).
Proof.
  destruct (editing_loop_rebinds_present_keys_only sample_document)
    as (Habsent & Hpresent & Hloop).
  split; [|split].
  - apply (Habsent "swap_mb" ["done"; "2"]); [discriminate | reflexivity].
  - apply (Hpresent "memory_mb" (VInt 4096) "8192" ["done"; "2"]);
      [discriminate | reflexivity].
  - apply (Hloop ["memory_mb"; "8192"; "done"; "2"] _ ["2"]). reflexivity.
Defined.

(** ** The flows of the orchestrator *)

Module FlowFacts.
Import DeploymentOrchestrator.

Lemma prompt_yes_no_frame message w r w' :
  ConfigManager.prompt_yes_no message w = (r, w') ->
  files w' = files w /\ current_config w' = current_config w.
Proof.
  unfold ConfigManager.prompt_yes_no.
  destruct (ConfigManager.prompt_yes_no_lines (stdin w)) as [r0 rest].
  intros [= _ <-]. split; reflexivity.
Qed.

Lemma config_get_frame config key default w r w' :
  config_get config key default w = (r, w') -> w' = w.
Proof.
  unfold config_get, ret, raise. destruct config; intros [= _ <-]; reflexivity.
Qed.

(** The build step records the document it is given and writes no file. *)
Lemma proceed_with_packer_build_frame config w r w' :
  _proceed_with_packer_build config w = (r, w') ->
  files w' = files w /\ current_config w' = config.
Proof.
  unfold _proceed_with_packer_build, bind, assign_current_config.
  destruct (ConfigManager.prompt_yes_no _ (set_current_config config w))
    as [[[|]|e] w1] eqn:H1;
    apply prompt_yes_no_frame in H1 as [Hf1 Hc1]; simpl in Hf1, Hc1.
  - destruct (config_get config "template_type" (VStr "unknown") w1)
      as [[v|e] w2] eqn:H2; apply config_get_frame in H2; subst w2;
      [|intros [= _ <-]; auto].
    destruct (config_get config "template_name" (VStr "unknown") w1)
      as [[v'|e] w2] eqn:H3; apply config_get_frame in H3; subst w2;
      [|intros [= _ <-]; auto].
    destruct (config_get config "template_name" VNone w1)
      as [[v''|e] w2] eqn:H4; apply config_get_frame in H4; subst w2;
      [|intros [= _ <-]; auto].
    destruct (ConfigManager.prompt_yes_no _ w1) as [[[|]|e] w3] eqn:H5;
      apply prompt_yes_no_frame in H5 as [Hf5 Hc5];
      unfold ret; intros [= _ <-]; split; congruence.
  - unfold ret. intros [= _ <-]. auto.
  - intros [= _ <-]. auto.
Qed.

End FlowFacts.

Section Flows.
Context `{Yaml}.

(** C5, amended: starting from a document that has the key [memory_mb]
    and is what the file at [config_path] holds, the inputs [memory_mb],
    [8192], [done] and the choice of the second disposition make the
    document of the run bind [memory_mb] to the text 8192 as a string,
    leave every file as it was, and leave the file at [config_path]
    loading as the original document. *)
Theorem edit_for_this_run_leaves_file_untouched
    (config : PyDict.t) (config_path : PyPath.t) (w : world)
    (text : string) (rest : list string) :
  PyDict.mem "memory_mb" config = true ->
  FS.read_text (files w) config_path = Ok text ->
  yaml_safe_load text = Ok (VDict config) ->
  stdin w = "memory_mb" :: "8192" :: "done" :: "2" :: rest ->
  exists r w',
    DeploymentOrchestrator._handle_parameter_changes config config_path w = (r, w')
    /\ current_config w'
       = VDict (PyDict.set "memory_mb" (VStr "8192") config)
    /\ PyDict.get "memory_mb" (PyDict.set "memory_mb" (VStr "8192") config)
       = Some (VStr "8192")
    /\ PyDict.keys (PyDict.set "memory_mb" (VStr "8192") config) = PyDict.keys config
    /\ files w' = files w
    /\ ConfigManager.load_config config_path w' = (Ok (VDict config), w').
Proof.
  intros Hmem Hread Hload Hin.
  destruct (proj1 (PyDictFacts.mem_get _ _) Hmem) as [old Hold].
  destruct (DeploymentOrchestrator._proceed_with_packer_build
              (VDict (PyDict.set "memory_mb" (VStr "8192") config))
              (set_stdin rest w)) as [r w'] eqn:Hgo.
  exists r, w'.
  destruct (FlowFacts.proceed_with_packer_build_frame _ _ _ _ Hgo) as [Hfiles Hcc].
  simpl in Hfiles.
  split; [|split; [exact Hcc|split; [apply PyDictFacts.get_set_eq|split;
    [now apply PyDictFacts.keys_set_present|split; [exact Hfiles|]]]]].
  - unfold DeploymentOrchestrator._handle_parameter_changes.
    rewrite Hin.
    cbn [DeploymentOrchestrator.handle_parameter_changes_depth length].
    unfold DeploymentOrchestrator.edit_parameters. rewrite Hin.
    change (DeploymentOrchestrator.edit_lines config
              ("memory_mb" :: "8192" :: "done" :: "2" :: rest))
      with (match PyDict.get "memory_mb" config with
            | Some old =>
                DeploymentOrchestrator.edit_lines
                  (PyDict.set "memory_mb"
                     (VStr (ConfigManager.prompt_value_of "8192" (Some (py_str old))))
                     config)
                  ("done" :: "2" :: rest)
            | None => DeploymentOrchestrator.edit_lines config
                        ("8192" :: "done" :: "2" :: rest)
            end).
    rewrite Hold.
    change (ConfigManager.prompt_value_of "8192" (Some (py_str old))) with "8192".
    rewrite (EditFacts.edit_lines_done _ "done" ("2" :: rest) eq_refl).
    exact Hgo.
  - unfold ConfigManager.load_config, try_except, bind, get_files, lift, ret; simpl.
    rewrite Hfiles, Hread; simpl. now rewrite Hload.
Qed.

End Flows.

Lemma edit_for_this_run_leaves_file_untouched_witness :
  exists r w',
    DeploymentOrchestrator._handle_parameter_changes (H := MiniYaml.codec)
      small_document ["config"; "default.yaml"] editing_world = (r, w')
    /\ current_config w'
       = VDict (PyDict.set "memory_mb" (VStr "8192") small_document)
    /\ PyDict.get "memory_mb" (PyDict.set "memory_mb" (VStr "8192") small_document)
       = Some (VStr "8192")
    /\ PyDict.keys (PyDict.set "memory_mb" (VStr "8192") small_document)
       = PyDict.keys small_document
    /\ files w' = files editing_world
    /\ ConfigManager.load_config (H := MiniYaml.codec) ["config"; "default.yaml"] w'
       = (Ok (VDict small_document), w').
Proof.
  apply (edit_for_this_run_leaves_file_untouched (H := MiniYaml.codec)
           small_document ["config"; "default.yaml"] editing_world
           small_document_text ["n"]).
  - reflexivity.
  - vm_compute. reflexivity.
  - vm_compute. reflexivity.
  - reflexivity.
Defined.

(** C5, counterexample: the document was loaded from the file, the loop is
    given [memory_mb], [8192], [done] and the second disposition; the
    document of the run then binds [memory_mb] to the string of the digits
    entered, not to the integer 8192. *)
Lemma edit_for_this_run_stores_text_not_integer :
  ConfigManager.load_config (H := MiniYaml.codec) ["config"; "default.yaml"] editing_world
  = (Ok (VDict small_document), editing_world)
  /\ exists document,
       current_config
         (snd (DeploymentOrchestrator._handle_parameter_changes (H := MiniYaml.codec)
                 small_document ["config"; "default.yaml"] editing_world))
       = VDict document
       /\ PyDict.get "memory_mb" document = Some (VStr "8192")
       /\ PyDict.get "memory_mb" document <> Some (VInt 8192).
Proof.
  split; [vm_compute; reflexivity|].
  exists [ ("template_type", VStr "k3s-node"); ("memory_mb", VStr "8192") ].
  split; [vm_compute; reflexivity|]. split; [reflexivity | discriminate].
Qed.

Module ReadFacts.
Import DeploymentOrchestrator.

Lemma reads_only_refl w : reads_only w w.
Proof. split; reflexivity. Qed.

Lemma reads_only_trans w1 w2 w3 :
  reads_only w1 w2 -> reads_only w2 w3 -> reads_only w1 w3.
Proof. unfold reads_only. intros [? ?] [? ?]. split; congruence. Qed.

Lemma prompt_value_reads prompt default w r w' :
  ConfigManager.prompt_value prompt default w = (r, w') -> reads_only w w'.
Proof.
  unfold ConfigManager.prompt_value, bind, input, ret.
  destruct (stdin w); intros [= _ <-]; split; reflexivity.
Qed.

Lemma prompt_choice_reads message choices w r w' :
  ConfigManager.prompt_choice message choices w = (r, w') -> reads_only w w'.
Proof.
  unfold ConfigManager.prompt_choice.
  destruct (ConfigManager.prompt_choice_lines choices (stdin w)).
  intros [= _ <-]. split; reflexivity.
Qed.

Lemma prompt_yes_no_reads message w r w' :
  ConfigManager.prompt_yes_no message w = (r, w') -> reads_only w w'.
Proof. intros Hrun. apply FlowFacts.prompt_yes_no_frame in Hrun. exact Hrun. Qed.

Lemma edit_parameters_reads config w r w' :
  edit_parameters config w = (r, w') -> reads_only w w'.
Proof.
  unfold edit_parameters. destruct (edit_lines config (stdin w)).
  intros [= _ <-]. split; reflexivity.
Qed.

Lemma gather_each_reads params :
  forall config w r w',
    gather_each params config w = (r, w') ->
    reads_only w w' /\ (config <> [] -> forall config', r = Ok config' -> config' <> []).
Proof.
  induction params as [|[param description] params IH]; intros config w r w'; simpl.
  - unfold ret. intros [= <- <-]. split; [apply reads_only_refl|].
    intros Hne config' [= <-]. exact Hne.
  - unfold bind at 1.
    destruct (ConfigManager.prompt_value _ None w) as [[answer|e] w1] eqn:Hask;
      apply prompt_value_reads in Hask.
    + intros Hrun. apply IH in Hrun as [Hreads Hne].
      split; [eapply reads_only_trans; eauto|].
      intros Hconfig. apply Hne.
      rewrite WizardFacts.store_parameter_stored.
      destruct (String.eqb answer ""); [exact Hconfig|].
      destruct config; simpl; [discriminate|].
      destruct p. destruct (String.eqb param s); discriminate.
    + intros [= <- <-]. split; [exact Hask|]. intros _ ? [=].
Qed.

(** The wizard only reads, and its document has the template kind in it. *)
Lemma gather_template_parameters_reads self w r w' :
  _gather_template_parameters self w = (r, w') ->
  reads_only w w' /\ (forall config, r = Ok config -> truthy (VDict config) = true).
Proof.
  unfold _gather_template_parameters, bind.
  destruct (ConfigManager.prompt_choice _ _ w) as [[kind|e] w1] eqn:Hkind;
    apply prompt_choice_reads in Hkind.
  - intros Hrun. apply gather_each_reads in Hrun as [Hreads Hne].
    split; [eapply reads_only_trans; eauto|].
    intros config ->. specialize (Hne ltac:(discriminate) config eq_refl).
    destruct config; [contradiction | reflexivity].
  - intros [= <- <-]. split; [exact Hkind|]. intros ? [=].
Qed.

Lemma save_config_false_frame `{Yaml} config path w saved w' :
  ConfigManager.save_config config path w = (Ok saved, w') ->
  stdin w' = stdin w /\ current_config w' = current_config w.
Proof.
  intros Hsave.
  destruct (save_config_never_raises config path w) as (s & w0 & Hrun & Hin & Hcc).
  rewrite Hrun in Hsave. injection Hsave as _ <-. auto.
Qed.

End ReadFacts.

Section FailedSave.
Context `{Yaml}.

(** C4, amended: a failed save raises nothing, and it ends the flow
    without reaching the build step.  In the create-new-config flow the
    result is [False]; in the editing loop's disposition "Write changes to
    config permanently" the result is not true.  In both, no line beyond the
    answer that led to the save is read, and [current_config] stays what it
    was before the flow. *)
Theorem failed_save_ends_flow_without_build :
  (forall (self : DeploymentOrchestrator.t) (w w1 w2 w3 w4 : world)
          (answer : string) (config : PyDict.t),
      ConfigManager.prompt_value "Enter path where to save the configuration"
        (Some (PyPath.to_str
                 (PyPath.child (DeploymentOrchestrator.config_dir self)
                    "custom-config.yaml"))) w
      = (Ok answer, w1) ->
      DeploymentOrchestrator._gather_template_parameters self w1 = (Ok config, w2) ->
      ConfigManager.prompt_yes_no "Save this configuration?" w2 = (Ok true, w3) ->
      ConfigManager.save_config config (PyPath.of_str answer) w3 = (Ok false, w4) ->
      DeploymentOrchestrator._create_new_config self w = (Ok (VBool false), w4)
      /\ stdin w4 = stdin w3
      /\ current_config w4 = current_config w)
  /\ (forall (config config' : PyDict.t) (config_path : PyPath.t)
             (w w1 w2 w3 : world),
        DeploymentOrchestrator.edit_parameters config w = (Ok config', w1) ->
        ConfigManager.prompt_choice "What would you like to do with these changes?"
          DeploymentOrchestrator.dispositions w1
        = (Ok "Write changes to config permanently", w2) ->
        ConfigManager.save_config config' config_path w2 = (Ok false, w3) ->
        exists r,
          DeploymentOrchestrator._handle_parameter_changes config config_path w
          = (Ok r, w3)
          /\ truthy r = false
          /\ stdin w3 = stdin w2
          /\ current_config w3 = current_config w).
Proof.
  split.
  - intros self w w1 w2 w3 w4 answer config Hask Hgather Hyes Hsave.
    split; [|split].
    + unfold DeploymentOrchestrator._create_new_config, bind.
      rewrite Hask, Hgather.
      apply ReadFacts.gather_template_parameters_reads in Hgather as [_ Htruthy].
      rewrite (Htruthy config eq_refl). simpl.
      rewrite Hyes, Hsave. reflexivity.
    + apply (ReadFacts.save_config_false_frame _ _ _ _ _ Hsave).
    + apply ReadFacts.prompt_value_reads in Hask as [_ Hc1].
      apply ReadFacts.gather_template_parameters_reads in Hgather as [[_ Hc2] _].
      apply ReadFacts.prompt_yes_no_reads in Hyes as [_ Hc3].
      destruct (ReadFacts.save_config_false_frame _ _ _ _ _ Hsave) as [_ Hc4].
      congruence.
  - intros config config' config_path w w1 w2 w3 Hedit Hchoice Hsave.
    exists VNone. split; [|split; [reflexivity|split]].
    + unfold DeploymentOrchestrator._handle_parameter_changes.
      cbn [DeploymentOrchestrator.handle_parameter_changes_depth].
      rewrite Hedit, Hchoice. cbn [String.eqb Ascii.eqb Bool.eqb].
      unfold bind. rewrite Hsave. reflexivity.
    + apply (ReadFacts.save_config_false_frame _ _ _ _ _ Hsave).
    + apply ReadFacts.edit_parameters_reads in Hedit as [_ Hc1].
      apply ReadFacts.prompt_choice_reads in Hchoice as [_ Hc2].
      destruct (ReadFacts.save_config_false_frame _ _ _ _ _ Hsave) as [_ Hc3].
      congruence.
Qed.

End FailedSave.

(** C4, counterexample: the save below a regular file fails; the flow then
    returns [False] with the two consents unread and [current_config]
    untouched, whereas the build step on the same document would have read
    them, recorded the document and returned [True]. *)
Lemma failed_save_does_not_reach_build :
  ConfigManager.save_config (H := MiniYaml.codec) wizard_document
    (PyPath.of_str "srv-config/new.yaml") (World blocked_disk ["y"; "y"] VNone)
  = (Ok false, World blocked_disk ["y"; "y"] VNone)
  /\ DeploymentOrchestrator._create_new_config (H := MiniYaml.codec)
       sample_orchestrator creating_world
     = (Ok (VBool false), World blocked_disk ["y"; "y"] VNone)
  /\ DeploymentOrchestrator._proceed_with_packer_build (VDict wizard_document)
       (World blocked_disk ["y"; "y"] VNone)
     = (Ok (VBool true), World blocked_disk [] (VDict wizard_document))
  /\ DeploymentOrchestrator._create_new_config (H := MiniYaml.codec)
       sample_orchestrator creating_world
     <> DeploymentOrchestrator._proceed_with_packer_build (VDict wizard_document)
          (World blocked_disk ["y"; "y"] VNone).
Proof.
  assert (Hflow : DeploymentOrchestrator._create_new_config (H := MiniYaml.codec)
                    sample_orchestrator creating_world
                  = (Ok (VBool false), World blocked_disk ["y"; "y"] VNone))
    by (vm_compute; reflexivity).
  assert (Hbuild : DeploymentOrchestrator._proceed_with_packer_build
                     (VDict wizard_document) (World blocked_disk ["y"; "y"] VNone)
                   = (Ok (VBool true), World blocked_disk [] (VDict wizard_document)))
    by (vm_compute; reflexivity).
  split; [vm_compute; reflexivity|]. split; [exact Hflow|]. split; [exact Hbuild|].
  rewrite Hflow, Hbuild. discriminate.
Qed.

Lemma failed_save_ends_flow_without_build_witness :
  (DeploymentOrchestrator._create_new_config (H := MiniYaml.codec)
     sample_orchestrator creating_world
   = (Ok (VBool false), World blocked_disk ["y"; "y"] VNone)
   /\ stdin (World blocked_disk ["y"; "y"] VNone)
      = stdin (World blocked_disk ["y"; "y"] VNone)
   /\ current_config (World blocked_disk ["y"; "y"] VNone)
      = current_config creating_world)
  /\ exists r,
       DeploymentOrchestrator._handle_parameter_changes (H := MiniYaml.codec)
         small_document ["srv-config"; "default.yaml"]
         (World blocked_disk ["memory_mb"; "8192"; "done"; "1"; "y"; "y"] VNone)
       = (Ok r, World blocked_disk ["y"; "y"] VNone)
       /\ truthy r = false
       /\ stdin (World blocked_disk ["y"; "y"] VNone)
          = stdin (World blocked_disk ["y"; "y"] VNone)
       /\ current_config (World blocked_disk ["y"; "y"] VNone)
          = current_config
              (World blocked_disk ["memory_mb"; "8192"; "done"; "1"; "y"; "y"] VNone).
Proof.
  split.
  - apply (proj1 (failed_save_ends_flow_without_build (H := MiniYaml.codec))
             sample_orchestrator creating_world
             (World blocked_disk ("2" :: sample_answers ++ ["y"; "y"; "y"]) VNone)
             (World blocked_disk ["y"; "y"; "y"] VNone)
             (World blocked_disk ["y"; "y"] VNone)
             (World blocked_disk ["y"; "y"] VNone)
             "srv-config/new.yaml" wizard_document);
      vm_compute; reflexivity.
  - apply (proj2 (failed_save_ends_flow_without_build (H := MiniYaml.codec))
             small_document
             (PyDict.set "memory_mb" (VStr "8192") small_document)
             ["srv-config"; "default.yaml"]
             (World blocked_disk ["memory_mb"; "8192"; "done"; "1"; "y"; "y"] VNone)
             (World blocked_disk ["1"; "y"; "y"] VNone)
             (World blocked_disk ["y"; "y"] VNone)
             (World blocked_disk ["y"; "y"] VNone));
      vm_compute; reflexivity.
Defined.

(** ** Termination of the editing flow *)

Section EditingFlowTerminates.
Context `{Yaml}.
Import DeploymentOrchestrator.

Lemma prompt_choice_lines_consumes choices lines choice rest :
  ConfigManager.prompt_choice_lines choices lines = (Ok choice, rest) ->
  (length rest < length lines)%nat.
Proof.
  revert choice rest. induction lines as [|line lines IH]; simpl; intros choice rest.
  - discriminate.
  - assert (Hrec : ConfigManager.prompt_choice_lines choices lines = (Ok choice, rest) ->
                   (length rest < S (length lines))%nat).
    { intros Hrun. apply IH in Hrun. lia. }
    destruct (PyStr.py_int line) as [n|]; [|exact Hrec].
    destruct ((1 <=? n) && (n <=? Z.of_nat (length choices))); [|exact Hrec].
    destruct (choices !! Z.to_nat (n - 1)); intros [= _ <-]. lia.
Qed.

Lemma edit_then_choose_consumes config w config' w1 decision w2 :
  edit_parameters config w = (Ok config', w1) ->
  ConfigManager.prompt_choice "What would you like to do with these changes?"
    dispositions w1 = (Ok decision, w2) ->
  (S (length (stdin w2)) < length (stdin w))%nat.
Proof.
  unfold edit_parameters, ConfigManager.prompt_choice.
  destruct (edit_lines config (stdin w)) as [r rest] eqn:Hedit.
  intros [= -> <-]. simpl.
  destruct (ConfigManager.prompt_choice_lines dispositions rest) as [r' rest'] eqn:Hc.
  intros [= -> <-]. simpl.
  apply prompt_choice_lines_consumes in Hc.
  destruct (EditFacts.edit_lines_spec _ _ _ _ _ (Nat.le_refl _) Hedit) as (_ & _ & Hlt).
  lia.
Qed.

(** With more nesting allowed than lines are pending, the flow ends. *)
Lemma handle_parameter_changes_depth_ends depth :
  forall config config_path w,
    (length (stdin w) < depth)%nat ->
    exists r, handle_parameter_changes_depth depth config config_path w = Some r.
Proof.
  induction depth as [|depth IH]; intros config config_path w Hlen; [lia|].
  simpl.
  destruct (edit_parameters config w) as [[config'|e] w1] eqn:Hedit; [|eauto].
  destruct (ConfigManager.prompt_choice _ dispositions w1) as [[decision|e] w2] eqn:Hc;
    [|eauto].
  pose proof (edit_then_choose_consumes _ _ _ _ _ _ Hedit Hc) as Hlt.
  destruct (String.eqb decision "Write changes to config permanently"); [eauto|].
  destruct (String.eqb decision "Use changes only for this run"); [eauto|].
  destruct (String.eqb decision "Return to editing"); [|eauto].
  apply IH. lia.
Qed.

(** Allowing more nesting does not change a result. *)
Lemma handle_parameter_changes_depth_stable depth :
  forall depth' config config_path w r,
    handle_parameter_changes_depth depth config config_path w = Some r ->
    (depth <= depth')%nat ->
    handle_parameter_changes_depth depth' config config_path w = Some r.
Proof.
  induction depth as [|depth IH]; intros depth' config config_path w r Hrun Hle;
    [discriminate Hrun|].
  destruct depth' as [|depth']; [lia|].
  simpl in *.
  destruct (edit_parameters config w) as [[config'|e] w1]; [|exact Hrun].
  destruct (ConfigManager.prompt_choice _ dispositions w1) as [[decision|e] w2];
    [|exact Hrun].
  destruct (String.eqb decision "Write changes to config permanently"); [exact Hrun|].
  destruct (String.eqb decision "Use changes only for this run"); [exact Hrun|].
  destruct (String.eqb decision "Return to editing"); [|exact Hrun].
  apply IH; [exact Hrun | lia].
Qed.

(** [_handle_parameter_changes] is the flow at any sufficient depth. *)
Lemma handle_parameter_changes_at_depth depth config config_path w :
  (length (stdin w) < depth)%nat ->
  handle_parameter_changes_depth depth config config_path w
  = Some (_handle_parameter_changes config config_path w).
Proof.
  intros Hlen. unfold _handle_parameter_changes.
  destruct (handle_parameter_changes_depth_ends (S (length (stdin w)))
              config config_path w (Nat.lt_succ_diag_r _)) as [r Hr].
  rewrite Hr. eapply handle_parameter_changes_depth_stable; [exact Hr | lia].
Qed.

(** "Return to editing" re-enters the flow on the edited document. *)
Lemma handle_parameter_changes_reenters config config_path w config' w1 w2 :
  edit_parameters config w = (Ok config', w1) ->
  ConfigManager.prompt_choice "What would you like to do with these changes?"
    dispositions w1 = (Ok "Return to editing", w2) ->
  _handle_parameter_changes config config_path w
  = _handle_parameter_changes config' config_path w2.
Proof.
  intros Hedit Hc.
  pose proof (edit_then_choose_consumes _ _ _ _ _ _ Hedit Hc) as Hlt.
  unfold _handle_parameter_changes at 1.
  cbn [handle_parameter_changes_depth].
  rewrite Hedit, Hc. cbn [String.eqb Ascii.eqb Bool.eqb].
  rewrite handle_parameter_changes_at_depth by lia. reflexivity.
Qed.

End EditingFlowTerminates.

(** ** Saving creates what it needs *)

Module SaveFacts.

Lemma mkdir_from_keeps (rest : list string) :
  forall (fs fs' : FS.t) pre p n,
    FS.mkdir_from fs pre rest = Ok fs' -> fs !! p = Some n -> fs' !! p = Some n.
Proof.
  induction rest as [|part rest IH]; intros fs fs' pre p n; simpl.
  - intros [= <-]. auto.
  - destruct (PyPath.is_anchor (pre ++ [part])); [apply IH|].
    destruct (fs !! (pre ++ [part])%list) as [[|]|] eqn:Hq; [discriminate|apply IH|].
    intros Hrun Hp. eapply IH; [exact Hrun|].
    rewrite lookup_insert_ne; [exact Hp|]. congruence.
Qed.

(** After [mkdir(parents=True, exist_ok=True)] the directory can be walked. *)
Lemma walk_after_mkdir_from (rest : list string) :
  forall (fs fs' : FS.t) pre,
    FS.mkdir_from fs pre rest = Ok fs' -> FS.walk fs' pre rest = Ok tt.
Proof.
  induction rest as [|part rest IH]; intros fs fs' pre; simpl; [reflexivity|].
  destruct (PyPath.is_anchor (pre ++ [part])); [apply IH|].
  destruct (fs !! (pre ++ [part])%list) as [[|]|] eqn:Hq; [discriminate| |].
  - intros Hrun. rewrite (mkdir_from_keeps _ _ _ _ _ _ Hrun Hq). eapply IH, Hrun.
  - intros Hrun.
    rewrite (mkdir_from_keeps _ _ _ _ (pre ++ [part])%list Dir Hrun)
      by apply lookup_insert_eq.
    eapply IH, Hrun.
Qed.

(** The save succeeds once the parent directories can be made, the path is
    not a directory and the document can be dumped; the file then holds
    the dumped text. *)
Lemma save_config_succeeds `{Yaml} config path w fs1 text :
  PyPath.is_anchor path = false ->
  FS.mkdir_parents (files w) (PyPath.parent path) = Ok fs1 ->
  fs1 !! path <> Some Dir ->
  yaml_dump (VDict config) = Ok text ->
  ConfigManager.save_config config path w
  = (Ok true, set_files (<[path := File text]> fs1) w).
Proof.
  intros Hanchor Hmk Hnodir Hdump.
  assert (Hwalk : FS.walk fs1 [] (PyPath.parent path) = Ok tt)
    by (eapply walk_after_mkdir_from, Hmk).
  assert (Hw1 : FS.write_text fs1 path "" = Ok (<[path := File ""]> fs1)).
  { unfold FS.write_text. rewrite Hanchor, Hwalk.
    destruct (fs1 !! path) as [[|]|]; congruence. }
  assert (Hw2 : FS.write_text (<[path := File ""]> fs1) path text
                = Ok (<[path := File text]> fs1)).
  { unfold FS.write_text. rewrite Hanchor.
    rewrite FSFacts.walk_insert_deeper
      by (simpl; now apply FSFacts.parent_shorter).
    rewrite Hwalk, lookup_insert_eq, insert_insert_eq. reflexivity. }
  unfold ConfigManager.save_config, try_except, bind, get_files, put_files, lift, ret.
  destruct w as [fs lines cc]; simpl in *.
  rewrite Hmk; simpl. rewrite Hw1; simpl. rewrite Hdump; simpl.
  rewrite Hw2; simpl. reflexivity.
Qed.

(** A path that is not there, below directories that are, is not found. *)
Lemma read_text_not_found (fs : FS.t) p :
  PyPath.is_anchor p = false ->
  FS.walk fs [] (PyPath.parent p) = Ok tt ->
  fs !! p = None ->
  FS.read_text fs p = Raise FileNotFoundError.
Proof.
  intros Hanchor Hwalk Hnone. unfold FS.read_text.
  now rewrite Hanchor, Hwalk, Hnone.
Qed.

End SaveFacts.

(** ** From an existing configuration to the editing loop *)

Section ExistingConfig.
Context `{Yaml}.
Import DeploymentOrchestrator.

(** A document that loads and is not empty is handed to the editing loop
    when the operator asks to modify it. *)
Lemma create_from_existing_config_enters_editing
    (self : t) (w w1 w2 : world) (answer : string) (document : PyDict.t) :
  ConfigManager.prompt_value "Enter configuration file path"
    (Some (PyPath.to_str (PyPath.child (config_dir self) "default.yaml"))) w
  = (Ok answer, w1) ->
  FS.exists_ (files w1) (PyPath.of_str answer) = true ->
  ConfigManager.load_config (PyPath.of_str answer) w1 = (Ok (VDict document), w1) ->
  document <> [] ->
  ConfigManager.prompt_yes_no "Do you want to modify any parameters?" w1 = (Ok true, w2) ->
  _create_from_existing_config self w
  = _handle_parameter_changes document (PyPath.of_str answer) w2.
Proof.
  intros Hask Hexists Hload Hne Hyes.
  unfold _create_from_existing_config, bind at 1. rewrite Hask.
  unfold bind at 1, get_files. rewrite Hexists. simpl.
  unfold bind at 1. rewrite Hload.
  destruct document as [|kv document]; [contradiction|]. simpl.
  unfold bind at 1, print_config, ret. unfold bind at 1. rewrite Hyes. reflexivity.
Qed.

(** A load that fell back to the empty document ends the flow with [False]. *)
Lemma create_from_existing_config_empty_document
    (self : t) (w w1 : world) (answer : string) :
  ConfigManager.prompt_value "Enter configuration file path"
    (Some (PyPath.to_str (PyPath.child (config_dir self) "default.yaml"))) w
  = (Ok answer, w1) ->
  ConfigManager.load_config (PyPath.of_str answer) w1 = (Ok (VDict PyDict.empty), w1) ->
  _create_from_existing_config self w = (Ok (VBool false), w1).
Proof.
  intros Hask Hload.
  unfold _create_from_existing_config, bind at 1. rewrite Hask.
  unfold bind at 1, get_files.
  destruct (FS.exists_ (files w1) (PyPath.of_str answer)); simpl; [|reflexivity].
  unfold bind at 1. rewrite Hload. reflexivity.
Qed.

End ExistingConfig.

(** The whole scenario from the entry of the flow: the default path is
    taken, the operator edits [memory_mb], keeps the change for this run and
    declines the build; the disk is as before. *)
Example existing_config_edited_for_this_run :
  DeploymentOrchestrator._create_from_existing_config (H := MiniYaml.codec)
    {| DeploymentOrchestrator.base_dir := [] |}
    (World disk_with_config [""; "y"; "memory_mb"; "8192"; "done"; "2"; "n"] VNone)
  = (Ok (VBool false),
     World disk_with_config []
           (VDict [ ("template_type", VStr "k3s-node"); ("memory_mb", VStr "8192") ])).
Proof. vm_compute. reflexivity. Qed.

(** * Further properties *)

(** ** Prompts at their edges *)

Lemma prompt_yes_no_lines_skips skipped lines :
  Forall unrecognised skipped ->
  ConfigManager.prompt_yes_no_lines (skipped ++ lines)
  = ConfigManager.prompt_yes_no_lines lines.
Proof.
  induction 1 as [|line skipped [Hyes Hno] _ IH]; [reflexivity|].
  simpl. fold (normalized line).
  destruct (String.eqb (normalized line) "y") eqn:E1;
    [apply String.eqb_eq in E1; exfalso; apply Hyes; now left|].
  destruct (String.eqb (normalized line) "yes") eqn:E2;
    [apply String.eqb_eq in E2; exfalso; apply Hyes; now right|].
  destruct (String.eqb (normalized line) "n") eqn:E3;
    [apply String.eqb_eq in E3; exfalso; apply Hno; now left|].
  destruct (String.eqb (normalized line) "no") eqn:E4;
    [apply String.eqb_eq in E4; exfalso; apply Hno; now right|].
  exact IH.
Qed.

(** X1: [prompt_yes_no] asks again after every line that is none of y, yes,
    n, no (letter case and surrounding blanks ignored), and answers [True]
    at the first affirmative line and [False] at the first negative one,
    having read the lines up to and including it. *)
Theorem prompt_yes_no_first_recognised_line
    (message : string) (skipped : list string) (line : string)
    (rest : list string) (answer : bool) (w : world) :
  Forall unrecognised skipped ->
  (affirmative line /\ answer = true) \/ (negative line /\ answer = false) ->
  stdin w = (skipped ++ line :: rest)%list ->
  ConfigManager.prompt_yes_no message w = (Ok answer, set_stdin rest w).
Proof.
  intros Hskip Hline Hin. unfold ConfigManager.prompt_yes_no.
  rewrite Hin, prompt_yes_no_lines_skips by exact Hskip.
  simpl. fold (normalized line).
  destruct Hline as [[[-> | ->] ->] | [[-> | ->] ->]]; reflexivity.
Qed.

Lemma prompt_yes_no_first_recognised_line_witness :
  ConfigManager.prompt_yes_no "Save this configuration?"
    (World ∅ ["maybe"; ""; "yes please"; "  YES "; "n"] VNone)
  = (Ok true, set_stdin ["n"] (World ∅ ["maybe"; ""; "yes please"; "  YES "; "n"] VNone)).
Proof.
  apply (prompt_yes_no_first_recognised_line "Save this configuration?"
           ["maybe"; ""; "yes please"] "  YES " ["n"] true).
  - repeat (apply List.Forall_cons;
              [split; intros [E | E]; vm_compute in E; discriminate E|]).
    apply List.Forall_nil.
  - left. split; [right; reflexivity | reflexivity].
  - reflexivity.
Defined.

(** X2: with no option to choose from, [prompt_choice] returns on no input
    whatever: every line is refused, and the prompt ends in [EOFError] with
    the whole input read. *)
Theorem prompt_choice_without_options_never_returns
    (message : string) (w : world) :
  ConfigManager.prompt_choice message [] w = (Raise EOFError, set_stdin [] w).
Proof.
  unfold ConfigManager.prompt_choice.
  assert (Hall : forall lines,
             ConfigManager.prompt_choice_lines [] lines = (Raise EOFError, [])).
  { induction lines as [|line lines IH]; [reflexivity|].
    simpl. destruct (PyStr.py_int line) as [n|]; [|exact IH].
    replace ((1 <=? n) && (n <=? Z.of_nat 0)) with false; [exact IH|].
    symmetry. apply andb_false_iff. simpl.
    destruct (Z.leb_spec 1 n); [right | left; reflexivity].
    apply Z.leb_gt. change (Z.of_nat 0) with 0. lia. }
  now rewrite Hall.
Qed.

(** X3: when the input ends before a valid selection is entered,
    [prompt_choice] raises [EOFError]; it returns no default and no option,
    and every line has been read. *)
Theorem prompt_choice_input_exhausted
    (message : string) (choices : list string) (w : world) :
  Forall (invalid_entry choices) (stdin w) ->
  ConfigManager.prompt_choice message choices w = (Raise EOFError, set_stdin [] w).
Proof.
  intros Hinv. unfold ConfigManager.prompt_choice.
  rewrite <- (app_nil_r (stdin w)).
  rewrite prompt_choice_lines_skips by exact Hinv. reflexivity.
Qed.

Lemma prompt_choice_input_exhausted_witness :
  ConfigManager.prompt_choice "Select template type" ["k3s-node"; "nfs-server"]
    (World ∅ ["k3s-node"; "3"] VNone)
  = (Raise EOFError, set_stdin [] (World ∅ ["k3s-node"; "3"] VNone)).
Proof.
  apply (prompt_choice_input_exhausted "Select template type"
           ["k3s-node"; "nfs-server"] (World ∅ ["k3s-node"; "3"] VNone)).
  apply List.Forall_cons; [left; reflexivity|].
  apply List.Forall_cons; [right; exists 3; split; [reflexivity | simpl; lia]|].
  apply List.Forall_nil.
Defined.

(** ** Trimming *)

Module StripFacts.
Import PyStr.

Lemma chars_of_chars cs : chars (of_chars cs) = cs.
Proof. apply list_ascii_of_string_of_list_ascii. Qed.

Lemma lstrip_idempotent cs : lstrip (lstrip cs) = lstrip cs.
Proof.
  induction cs as [|c cs IH]; simpl; [reflexivity|].
  destruct (is_space c) eqn:E; [exact IH|]. simpl. now rewrite E.
Qed.

Lemma lstrip_snoc cs c :
  is_space c = false -> lstrip (cs ++ [c]) = (lstrip cs ++ [c])%list.
Proof.
  intros Hc. induction cs as [|a cs IH]; simpl; [now rewrite Hc|].
  destruct (is_space a); [exact IH | reflexivity].
Qed.

Lemma rstrip_idempotent cs : rstrip (rstrip cs) = rstrip cs.
Proof. unfold rstrip. now rewrite rev_involutive, lstrip_idempotent. Qed.

(** Trimming on the right leaves a trimmed left end as it is. *)
Lemma lstrip_rstrip_lstrip cs : lstrip (rstrip (lstrip cs)) = rstrip (lstrip cs).
Proof.
  assert (Hhead : forall ys, lstrip ys = ys -> lstrip (rstrip ys) = rstrip ys).
  { intros [|c ys] Hys; [reflexivity|].
    assert (Hc : is_space c = false).
    { simpl in Hys. destruct (is_space c); [|reflexivity].
      exfalso. assert (Hlen : (length (lstrip ys) <= length ys)%nat).
      { clear. induction ys as [|a ys IH]; simpl; [lia|].
        destruct (is_space a); simpl; lia. }
      rewrite Hys in Hlen. simpl in Hlen. lia. }
    unfold rstrip. simpl. rewrite (lstrip_snoc _ _ Hc), rev_app_distr. simpl.
    now rewrite Hc. }
  apply Hhead, lstrip_idempotent.
Qed.

Lemma strip_idempotent s : strip (strip s) = strip s.
Proof.
  unfold strip. rewrite chars_of_chars.
  now rewrite lstrip_rstrip_lstrip, rstrip_idempotent.
Qed.

End StripFacts.

(** X4: the text [prompt_value] returns for a line that is not blank is
    trimmed: trimming it again changes nothing, so an answer never carries
    blanks at either end. *)
Theorem prompt_value_answer_is_trimmed
    (prompt : string) (default : option string) (line : string)
    (fs : FS.t) (rest : list string) (cc : value) :
  PyStr.strip line <> "" ->
  exists answer,
    ConfigManager.prompt_value prompt default (World fs (line :: rest) cc)
    = (Ok answer, World fs rest cc)
    /\ PyStr.strip answer = answer
    /\ answer <> "".
Proof.
  intros Hline. exists (PyStr.strip line). split; [|split].
  - unfold ConfigManager.prompt_value, bind, input, ret, set_stdin; simpl.
    unfold ConfigManager.prompt_value_of.
    apply String.eqb_neq in Hline. now rewrite Hline.
  - apply StripFacts.strip_idempotent.
  - exact Hline.
Qed.

Lemma prompt_value_answer_is_trimmed_witness :
  exists answer,
    ConfigManager.prompt_value "vCenter network name (vcenter_network)" None
      (World ∅ ["   VM Network  "; "y"] VNone)
    = (Ok answer, World ∅ ["y"] VNone)
    /\ PyStr.strip answer = answer
    /\ answer <> "".
Proof.
  apply (prompt_value_answer_is_trimmed "vCenter network name (vcenter_network)"
           None "   VM Network  " ∅ ["y"] VNone).
  discriminate.
Defined.

(** ** Integers and their decimal text *)

Module IntFacts.
Import PyStr.

(** The value of a digit sequence read after [acc]. *)
Definition horner (acc : Z) (d : Decimal.uint) : Z :=
  acc * 10 ^ Z.of_N (DecimalPos.Unsigned.usize d)
  + Z.of_N (DecimalPos.Unsigned.of_lu (Decimal.rev d)).

Lemma horner_digit (k : Z) (acc : Z) (d digit : Decimal.uint) :
  DecimalPos.Unsigned.usize digit = N.succ (DecimalPos.Unsigned.usize d) ->
  Z.of_N (DecimalPos.Unsigned.of_lu (Decimal.rev digit))
  = Z.of_N (DecimalPos.Unsigned.of_lu (Decimal.rev d))
    + k * 10 ^ Z.of_N (DecimalPos.Unsigned.usize d) ->
  horner acc digit = horner (10 * acc + k) d.
Proof.
  intros Hsize Hval. unfold horner. rewrite Hsize, Hval.
  rewrite N2Z.inj_succ, Z.pow_succ_r by lia. ring.
Qed.

Lemma of_lu_rev_digit (d : Decimal.uint) (unit : Decimal.uint) :
  Z.of_N (DecimalPos.Unsigned.of_lu (Decimal.revapp d unit))
  = Z.of_N (DecimalPos.Unsigned.of_lu (Decimal.rev d))
    + Z.of_N (DecimalPos.Unsigned.of_lu unit)
      * 10 ^ Z.of_N (DecimalPos.Unsigned.usize d).
Proof.
  rewrite DecimalPos.Unsigned.of_lu_revapp.
  rewrite N2Z.inj_add, N2Z.inj_mul, N2Z.inj_pow. reflexivity.
Qed.

Lemma digits_acc_string_of_uint (d : Decimal.uint) :
  forall acc, digits_acc acc (chars (NilEmpty.string_of_uint d)) = Some (horner acc d).
Proof.
  induction d; intros acc;
    try (cbn [NilEmpty.string_of_uint chars list_ascii_of_string digits_acc];
         change (chars (NilEmpty.string_of_uint d))
           with (list_ascii_of_string (NilEmpty.string_of_uint d)) in IHd;
         cbn [is_digit]; simpl N_of_ascii; cbn -[Z.mul Z.add digits_acc];
         rewrite IHd; f_equal; symmetry;
         apply horner_digit; [reflexivity|];
         unfold Decimal.rev at 1; cbn [Decimal.revapp];
         rewrite of_lu_rev_digit; reflexivity).
  simpl. unfold horner. simpl. f_equal. lia.
Qed.

Lemma all_digits_string_of_uint (d : Decimal.uint) :
  forallb is_digit (chars (NilEmpty.string_of_uint d)) = true.
Proof. induction d; simpl; auto. Qed.

Lemma digit_not_int_space c : is_digit c = true -> is_int_space c = false.
Proof.
  unfold is_digit, is_int_space. intros Hd.
  apply andb_true_iff in Hd as [H1 H2].
  apply N.leb_le in H1. apply N.leb_le in H2.
  destruct (9 <=? N_of_ascii c)%N eqn:E1, (N_of_ascii c <=? 13)%N eqn:E2,
           (N_of_ascii c =? 32)%N eqn:E4;
    try reflexivity;
    try (apply N.leb_le in E2; lia); try (apply N.eqb_eq in E4; lia).
Qed.

Lemma int_lstrip_keeps cs :
  match cs with c :: _ => is_int_space c = false | [] => True end ->
  int_lstrip cs = cs.
Proof. destruct cs as [|c cs]; simpl; [reflexivity|]. now intros ->. Qed.

Lemma int_rstrip_keeps_digits cs head :
  forallb is_digit cs = true -> cs <> [] ->
  int_rstrip (head ++ cs) = (head ++ cs)%list.
Proof.
  intros Hall Hne. unfold int_rstrip.
  destruct (exists_last Hne) as (front & c & ->).
  rewrite forallb_app in Hall. apply andb_true_iff in Hall as [_ Hc].
  simpl in Hc. rewrite andb_true_r in Hc. apply digit_not_int_space in Hc.
  rewrite app_assoc, rev_app_distr. simpl. rewrite Hc. simpl.
  now rewrite rev_involutive.
Qed.

Lemma string_of_pos_nonempty p :
  chars (NilEmpty.string_of_uint (Pos.to_uint p)) <> [].
Proof.
  pose proof (DecimalPos.Unsigned.to_uint_nonnil p) as Hnil.
  destruct (Pos.to_uint p); simpl; congruence.
Qed.

Lemma parse_digits_pos p :
  parse_digits (chars (NilEmpty.string_of_uint (Pos.to_uint p))) = Some (Z.pos p).
Proof.
  pose proof (all_digits_string_of_uint (Pos.to_uint p)) as Hall.
  pose proof (string_of_pos_nonempty p) as Hne.
  pose proof (digits_acc_string_of_uint (Pos.to_uint p) 0) as Hrun.
  unfold parse_digits.
  destruct (chars (NilEmpty.string_of_uint (Pos.to_uint p))) as [|c cs] eqn:E;
    [congruence|].
  simpl in Hall. apply andb_true_iff in Hall as [Hc _]. rewrite Hc, Hrun.
  f_equal. unfold horner. rewrite Z.mul_0_l, Z.add_0_l.
  rewrite <- DecimalPos.Unsigned.of_uint_alt, DecimalPos.Unsigned.of_to. reflexivity.
Qed.

(** [int(str(n)) == n] *)
Lemma py_int_str_of_int (n : Z) : py_int (str_of_int n) = Some n.
Proof.
  destruct n as [|p|p]; [reflexivity| |].
  - unfold str_of_int, py_int. cbn [Z.to_int NilZero.string_of_int].
    pose proof (DecimalPos.Unsigned.to_uint_nonnil p) as Hnil.
    assert (Hstr : NilZero.string_of_uint (Pos.to_uint p)
                   = NilEmpty.string_of_uint (Pos.to_uint p))
      by (destruct (Pos.to_uint p); [congruence | reflexivity..]).
    rewrite Hstr.
    pose proof (all_digits_string_of_uint (Pos.to_uint p)) as Hall.
    pose proof (string_of_pos_nonempty p) as Hne.
    pose proof (parse_digits_pos p) as Hparse.
    destruct (chars (NilEmpty.string_of_uint (Pos.to_uint p))) as [|c cs] eqn:E;
      [congruence|].
    assert (Hc : is_digit c = true)
      by (simpl in Hall; now apply andb_true_iff in Hall as [Hc _]).
    rewrite (int_lstrip_keeps (c :: cs)) by (now apply digit_not_int_space).
    pose proof (int_rstrip_keeps_digits (c :: cs) [] Hall Hne) as Hr.
    simpl app in Hr. rewrite Hr.
    destruct (Ascii.eqb c "+") eqn:Eplus;
      [apply Ascii.eqb_eq in Eplus; subst c; discriminate Hc|].
    destruct (Ascii.eqb c "-") eqn:Eminus;
      [apply Ascii.eqb_eq in Eminus; subst c; discriminate Hc|].
    exact Hparse.
  - unfold str_of_int, py_int. cbn [Z.to_int NilZero.string_of_int].
    pose proof (DecimalPos.Unsigned.to_uint_nonnil p) as Hnil.
    assert (Hstr : NilZero.string_of_uint (Pos.to_uint p)
                   = NilEmpty.string_of_uint (Pos.to_uint p))
      by (destruct (Pos.to_uint p); [congruence | reflexivity..]).
    rewrite Hstr.
    change (chars (String "-" (NilEmpty.string_of_uint (Pos.to_uint p))))
      with ("-"%char :: chars (NilEmpty.string_of_uint (Pos.to_uint p))).
    rewrite (int_lstrip_keeps ("-"%char :: _)) by reflexivity.
    pose proof (int_rstrip_keeps_digits _ ["-"%char]
                  (all_digits_string_of_uint _) (string_of_pos_nonempty p)) as Hr.
    simpl app in Hr. rewrite Hr. cbn [Ascii.eqb Bool.eqb andb].
    rewrite parse_digits_pos. reflexivity.
Qed.

End IntFacts.

(** X5: the numeric variables of the rendered descriptor are decimal texts
    that [int()] reads back as the configured integers, negative ones
    included; the wizard, given such a text for the key, stores the integer
    again. *)
Theorem generate_packer_config_numbers_read_back
    (self : PackerManager.t) (config : PackerConfig) :
  exists vars cores memory disk,
    PyDict.get "variables" (PackerManager.generate_packer_config self config)
    = Some (VDict vars)
    /\ PyDict.get "cpu_cores" vars = Some (VStr cores)
    /\ PyDict.get "memory_mb" vars = Some (VStr memory)
    /\ PyDict.get "disk_size_gb" vars = Some (VStr disk)
    /\ PyStr.py_int cores = Some (cpu_cores config)
    /\ PyStr.py_int memory = Some (memory_mb config)
    /\ PyStr.py_int disk = Some (disk_size_gb config)
    /\ DeploymentOrchestrator.store_parameter "memory_mb" memory PyDict.empty
       = [("memory_mb", VInt (memory_mb config))].
Proof.
  exists (PackerManager.variables config),
         (PyStr.str_of_int (cpu_cores config)),
         (PyStr.str_of_int (memory_mb config)),
         (PyStr.str_of_int (disk_size_gb config)).
  split.
  { unfold PackerManager.generate_packer_config.
    destruct (String.eqb (template_type config) "k3s-node"); [reflexivity|].
    destruct (String.eqb (template_type config) "nfs-server"); reflexivity. }
  split; [reflexivity|]. split; [reflexivity|]. split; [reflexivity|].
  split; [apply IntFacts.py_int_str_of_int|].
  split; [apply IntFacts.py_int_str_of_int|].
  split; [apply IntFacts.py_int_str_of_int|].
  unfold DeploymentOrchestrator.store_parameter.
  pose proof (IntFacts.py_int_str_of_int (memory_mb config)) as Hint.
  destruct (String.eqb (PyStr.str_of_int (memory_mb config)) "") eqn:E.
  - apply String.eqb_eq in E. rewrite E in Hint. discriminate Hint.
  - simpl. now rewrite Hint.
Qed.

(** ** What the wizard's document looks like *)

Module WizardShape.
Import DeploymentOrchestrator.

Lemma keys_store_parameter param answer config :
  PyDict.get param config = None ->
  PyDict.keys (store_parameter param answer config)
  = (PyDict.keys config ++ (if String.eqb answer "" then [] else [param]))%list.
Proof.
  intros Hnone. rewrite WizardFacts.store_parameter_stored.
  destruct (String.eqb answer ""); [now rewrite app_nil_r|].
  rewrite PyDictFacts.set_absent by exact Hnone.
  unfold PyDict.keys. now rewrite map_app.
Qed.

Lemma gather_each_keys params :
  forall config w config' w',
    NoDup (PyDict.keys params) ->
    (forall key, In key (PyDict.keys params) -> PyDict.get key config = None) ->
    gather_each params config w = (Ok config', w') ->
    exists added,
      PyDict.keys config' = (PyDict.keys config ++ added)%list
      /\ sublist added (PyDict.keys params).
Proof.
  induction params as [|[param description] params IH];
    intros config w config' w' Hnodup Hfresh; simpl.
  - unfold ret. intros [= <- <-]. exists []. split; [now rewrite app_nil_r | constructor].
  - unfold bind at 1.
    destruct (ConfigManager.prompt_value _ None w) as [[answer|e] w1]; [|discriminate].
    intros Hrun. simpl in Hnodup. apply NoDup_cons in Hnodup as [Hnew Hnodup].
    assert (Hfresh' : forall key, In key (PyDict.keys params) ->
                                  PyDict.get key (store_parameter param answer config)
                                  = None).
    { intros key Hkey. rewrite WizardFacts.get_store_parameter_other.
      - apply Hfresh. right. exact Hkey.
      - intros Heq. subst key. apply Hnew. now apply list_elem_of_In. }
    destruct (IH _ _ _ _ Hnodup Hfresh' Hrun) as (added & Hkeys & Hsub).
    rewrite keys_store_parameter in Hkeys by (apply Hfresh; now left).
    rewrite <- app_assoc in Hkeys.
    eexists. split; [exact Hkeys|].
    destruct (String.eqb answer ""); simpl.
    + now apply sublist_cons.
    + now apply sublist_skip.
Qed.

Lemma gather_each_values params :
  forall config w config' w',
    (forall key v, PyDict.get key config = Some v -> wizard_value key v) ->
    gather_each params config w = (Ok config', w') ->
    forall key v, PyDict.get key config' = Some v -> wizard_value key v.
Proof.
  induction params as [|[param description] params IH];
    intros config w config' w' Hinv; simpl.
  - unfold ret. intros [= <- <-]. exact Hinv.
  - unfold bind at 1, ConfigManager.prompt_value, bind, input, ret.
    destruct (stdin w) as [|line rest]; [discriminate|].
    rewrite prompt_value_of_no_default.
    apply IH. intros key v.
    rewrite WizardFacts.store_parameter_stored.
    destruct (String.eqb (PyStr.strip line) "") eqn:Eempty; [apply Hinv|].
    destruct (String.eqb param key) eqn:Ekey.
    + apply String.eqb_eq in Ekey. subst key.
      rewrite PyDictFacts.get_set_eq. intros [= <-].
      unfold stored_value.
      destruct (is_numeric_param param) eqn:Enum.
      * destruct (PyStr.py_int (PyStr.strip line)) as [n|].
        -- right. eauto.
        -- left. exists (PyStr.strip line).
           split; [reflexivity|]. split; [now apply String.eqb_neq|].
           apply StripFacts.strip_idempotent.
      * left. exists (PyStr.strip line).
        split; [reflexivity|]. split; [now apply String.eqb_neq|].
        apply StripFacts.strip_idempotent.
    + apply String.eqb_neq in Ekey.
      rewrite PyDictFacts.get_set_ne by exact Ekey. apply Hinv.
Qed.

Lemma gather_each_input_exhausted params :
  forall config fs lines cc,
    (length lines < length params)%nat ->
    gather_each params config (World fs lines cc) = (Raise EOFError, World fs [] cc).
Proof.
  induction params as [|[param description] params IH];
    intros config fs lines cc Hlen; simpl in *; [lia|].
  unfold bind at 1, ConfigManager.prompt_value, bind, input, ret.
  destruct lines as [|line lines]; simpl; [reflexivity|].
  apply IH. simpl in Hlen. lia.
Qed.

Lemma gather_each_frame params :
  forall config w config' w' key,
    ~ In key (PyDict.keys params) ->
    gather_each params config w = (Ok config', w') ->
    PyDict.get key config' = PyDict.get key config.
Proof.
  induction params as [|[param description] params IH];
    intros config w config' w' key Hkey; simpl.
  - unfold ret. now intros [= <- <-].
  - unfold bind at 1.
    destruct (ConfigManager.prompt_value _ None w) as [[answer|e] w1]; [|discriminate].
    intros Hrun. simpl in Hkey.
    rewrite (IH _ _ _ _ key ltac:(tauto) Hrun).
    apply WizardFacts.get_store_parameter_other. tauto.
Qed.

Lemma chosen_kind w kind w1 :
  ConfigManager.prompt_choice "Select template type" ["k3s-node"; "nfs-server"] w
  = (Ok kind, w1) ->
  kind = "k3s-node" \/ kind = "nfs-server".
Proof.
  unfold ConfigManager.prompt_choice.
  destruct (ConfigManager.prompt_choice_lines _ (stdin w)) as [r rest] eqn:Hrun.
  intros [= -> _]. apply prompt_choice_lines_member in Hrun.
  simpl in Hrun. intuition.
Qed.

End WizardShape.

(** X6: the document the wizard returns starts with the key [template_type],
    bound to one of the two template kinds, followed by keys of that kind's
    catalogue only, each at most once and in the order of the catalogue. *)
Theorem wizard_document_keys
    (self : DeploymentOrchestrator.t) (w w' : world) (config : PyDict.t) :
  DeploymentOrchestrator._gather_template_parameters self w = (Ok config, w') ->
  exists kind added,
    (kind = "k3s-node" \/ kind = "nfs-server")
    /\ PyDict.get "template_type" config = Some (VStr kind)
    /\ PyDict.keys config = "template_type" :: added
    /\ sublist added (PyDict.keys (PackerManager.get_required_parameters kind))
    /\ NoDup (PyDict.keys config).
Proof.
  unfold DeploymentOrchestrator._gather_template_parameters, bind.
  destruct (ConfigManager.prompt_choice _ _ w) as [[kind|e] w1] eqn:Hkind;
    [|discriminate].
  intros Hrun.
  pose proof (WizardFacts.required_parameters_distinct kind) as Hnodup.
  assert (Hnot : ~ In "template_type"
                     (PyDict.keys (PackerManager.get_required_parameters kind))).
  { unfold PackerManager.get_required_parameters.
    destruct (String.eqb kind "nfs-server"); simpl; intuition discriminate. }
  assert (Hfresh : forall key,
             In key (PyDict.keys (PackerManager.get_required_parameters kind)) ->
             PyDict.get key (PyDict.set "template_type" (VStr kind) PyDict.empty) = None).
  { intros key Hkey. simpl.
    destruct (String.eqb key "template_type") eqn:E; [|reflexivity].
    apply String.eqb_eq in E. subst key. contradiction. }
  destruct (WizardShape.gather_each_keys _ _ _ _ _ Hnodup Hfresh Hrun)
    as (added & Hkeys & Hsub).
  exists kind, added.
  split; [eapply WizardShape.chosen_kind, Hkind|].
  split; [|split; [exact Hkeys|split; [exact Hsub|]]].
  - now rewrite (WizardShape.gather_each_frame _ _ _ _ _ _ Hnot Hrun).
  - rewrite Hkeys. apply NoDup_cons. split.
    + intros Hin. apply Hnot. apply list_elem_of_In.
      eapply elem_of_sublist; eauto.
    + eapply sublist_NoDup; eauto.
Qed.

Lemma wizard_document_keys_witness :
  exists kind added,
    (kind = "k3s-node" \/ kind = "nfs-server")
    /\ PyDict.get "template_type" wizard_document = Some (VStr kind)
    /\ PyDict.keys wizard_document = "template_type" :: added
    /\ sublist added (PyDict.keys (PackerManager.get_required_parameters kind))
    /\ NoDup (PyDict.keys wizard_document).
Proof.
  apply (wizard_document_keys sample_orchestrator
           (World ∅ ("2" :: sample_answers ++ ["y"]) VNone)
           (World ∅ ["y"] VNone) wizard_document).
  vm_compute. reflexivity.
Defined.

(** X7: every value of the document the wizard returns is either a text
    that is trimmed and not empty, or an integer stored under a key that
    ends in [_mb] or [_gb] or is [cpu_cores]; the wizard stores no empty
    text, no [None] and no nested value. *)
Theorem wizard_document_values
    (self : DeploymentOrchestrator.t) (w w' : world) (config : PyDict.t) :
  DeploymentOrchestrator._gather_template_parameters self w = (Ok config, w') ->
  forall key v, PyDict.get key config = Some v -> wizard_value key v.
Proof.
  unfold DeploymentOrchestrator._gather_template_parameters, bind.
  destruct (ConfigManager.prompt_choice _ _ w) as [[kind|e] w1] eqn:Hkind;
    [|discriminate].
  apply WizardShape.gather_each_values.
  intros key v. simpl.
  destruct (String.eqb key "template_type"); [|discriminate].
  intros [= <-]. left. exists kind. split; [reflexivity|].
  destruct (WizardShape.chosen_kind _ _ _ Hkind) as [-> | ->];
    (split; [discriminate | reflexivity]).
Qed.

Lemma wizard_document_values_witness :
  wizard_value "memory_mb" (VInt 4096)
  /\ wizard_value "additional_disk_size_gb" (VStr "4GB")
  /\ wizard_value "vcenter_network" (VStr "VM Network").
Proof.
  assert (Hrun : DeploymentOrchestrator._gather_template_parameters sample_orchestrator
                   (World ∅ ("2" :: sample_answers ++ ["y"]) VNone)
                 = (Ok wizard_document, World ∅ ["y"] VNone))
    by (vm_compute; reflexivity).
  split; [|split];
    apply (wizard_document_values sample_orchestrator _ _ wizard_document Hrun);
    reflexivity.
Defined.

(** X8: when the input ends before every parameter of the catalogue has
    been asked, the wizard raises [EOFError]: it returns no partial
    document. *)
Theorem wizard_input_exhausted
    (self : DeploymentOrchestrator.t) (w w1 : world) (kind : string) :
  ConfigManager.prompt_choice "Select template type" ["k3s-node"; "nfs-server"] w
  = (Ok kind, w1) ->
  (length (stdin w1) < length (PackerManager.get_required_parameters kind))%nat ->
  DeploymentOrchestrator._gather_template_parameters self w
  = (Raise EOFError, set_stdin [] w1).
Proof.
  intros Hkind Hlen.
  unfold DeploymentOrchestrator._gather_template_parameters, bind.
  rewrite Hkind. destruct w1 as [fs lines cc].
  now apply WizardShape.gather_each_input_exhausted.
Qed.

Lemma wizard_input_exhausted_witness :
  DeploymentOrchestrator._gather_template_parameters sample_orchestrator
    (World ∅ ["1"; "debian-base"; "vc.example.org"] VNone)
  = (Raise EOFError, set_stdin [] (World ∅ ["debian-base"; "vc.example.org"] VNone)).
Proof.
  apply (wizard_input_exhausted sample_orchestrator
           (World ∅ ["1"; "debian-base"; "vc.example.org"] VNone)
           (World ∅ ["debian-base"; "vc.example.org"] VNone) "k3s-node").
  - reflexivity.
  - simpl. lia.
Defined.

(** ** The configuration store on the disk *)

Module DiskFacts.

(** [mkdir] goes through when no part on the way is a regular file. *)
Lemma mkdir_from_succeeds (rest : list string) :
  forall (fs : FS.t) pre,
    (forall k c, (0 < k <= length rest)%nat ->
                 fs !! (pre ++ take k rest)%list <> Some (File c)) ->
    exists fs', FS.mkdir_from fs pre rest = Ok fs'.
Proof.
  induction rest as [|part rest IH]; intros fs pre Hfree; simpl; [eauto|].
  assert (Hnext : forall (fs1 : FS.t),
             (forall q, q <> (pre ++ [part])%list -> fs1 !! q = fs !! q) ->
             forall k c, (0 < k <= length rest)%nat ->
                         fs1 !! ((pre ++ [part]) ++ take k rest)%list <> Some (File c)).
  { intros fs1 Hsame k c Hk. rewrite Hsame.
    - rewrite <- app_assoc. apply (Hfree (S k) c). simpl. lia.
    - intros Heq. apply (f_equal length) in Heq.
      rewrite !length_app, length_take in Heq. simpl in Heq. lia. }
  destruct (PyPath.is_anchor (pre ++ [part])); [apply IH, Hnext; auto|].
  destruct (fs !! (pre ++ [part])%list) as [[c|]|] eqn:Hq.
  - exfalso. apply (Hfree 1%nat c); [simpl; lia|]. simpl. rewrite take_0. exact Hq.
  - apply IH, Hnext; auto.
  - apply IH, Hnext. intros q Hne. now rewrite lookup_insert_ne.
Qed.

(** What [mkdir] adds lies on the way it was asked to make. *)
Lemma mkdir_from_elsewhere (rest : list string) :
  forall (fs fs' : FS.t) pre q,
    FS.mkdir_from fs pre rest = Ok fs' ->
    (forall k, (k <= length rest)%nat -> q <> (pre ++ take k rest)%list) ->
    fs' !! q = fs !! q.
Proof.
  induction rest as [|part rest IH]; intros fs fs' pre q; simpl.
  - now intros [= <-].
  - intros Hrun Hq.
    assert (Hq' : forall k, (k <= length rest)%nat ->
                            q <> ((pre ++ [part]) ++ take k rest)%list).
    { intros k Hk. rewrite <- app_assoc. apply (Hq (S k)). lia. }
    assert (Hne : q <> (pre ++ [part])%list).
    { specialize (Hq 1%nat ltac:(lia)). simpl in Hq. now rewrite take_0 in Hq. }
    destruct (PyPath.is_anchor (pre ++ [part])); [eapply IH; eauto|].
    destruct (fs !! (pre ++ [part])%list) as [[c|]|]; [discriminate| |].
    + eapply IH; eauto.
    + rewrite (IH _ _ _ _ Hrun Hq'). now rewrite lookup_insert_ne.
Qed.

(** A walk that succeeds still does when directories are kept. *)
Lemma walk_kept (rest : list string) :
  forall (fs fs' : FS.t) pre,
    (forall q, fs !! q = Some Dir -> fs' !! q = Some Dir) ->
    FS.walk fs pre rest = Ok tt -> FS.walk fs' pre rest = Ok tt.
Proof.
  induction rest as [|part rest IH]; intros fs fs' pre Hdirs; simpl; [reflexivity|].
  destruct (PyPath.is_anchor (pre ++ [part])); [now apply IH|].
  destruct (fs !! (pre ++ [part])%list) as [[c|]|] eqn:Hq; try discriminate.
  rewrite (Hdirs _ Hq). now apply IH.
Qed.

(** The files of the world after [save_config], step by step. *)
Lemma save_config_disk `{Yaml} config path w saved w' :
  ConfigManager.save_config config path w = (Ok saved, w') ->
  (forall q, files w !! q = Some Dir -> files w' !! q = Some Dir)
  /\ (forall q n, q <> path -> files w !! q = Some n -> files w' !! q = Some n).
Proof.
  unfold ConfigManager.save_config, try_except, bind, get_files, put_files, lift, ret.
  destruct w as [fs lines cc]; simpl.
  destruct (FS.mkdir_parents fs (PyPath.parent path)) as [fs1|] eqn:Hmk; simpl;
    [|intros [= _ <-]; simpl; auto].
  assert (Hkeep : forall q n, fs !! q = Some n -> fs1 !! q = Some n)
    by (intros q n; eapply SaveFacts.mkdir_from_keeps, Hmk).
  assert (Hstep : forall (fs2 fs3 : FS.t) text,
             (forall q, fs !! q = Some Dir -> fs2 !! q = Some Dir) ->
             (forall q n, q <> path -> fs !! q = Some n -> fs2 !! q = Some n) ->
             FS.write_text fs2 path text = Ok fs3 ->
             (forall q, fs !! q = Some Dir -> fs3 !! q = Some Dir)
             /\ (forall q n, q <> path -> fs !! q = Some n -> fs3 !! q = Some n)).
  { intros fs2 fs3 text Hd Ho Hw. unfold FS.write_text in Hw.
    destruct (PyPath.is_anchor path); [discriminate|].
    destruct (FS.walk fs2 [] (PyPath.parent path)); [|discriminate].
    destruct (fs2 !! path) as [[c|]|] eqn:Hp; try discriminate;
      injection Hw as <-; split.
    - intros q Hq. specialize (Hd q Hq).
      rewrite lookup_insert_ne; [exact Hd | congruence].
    - intros q n Hne Hq. rewrite lookup_insert_ne by congruence. now apply Ho.
    - intros q Hq. specialize (Hd q Hq).
      rewrite lookup_insert_ne; [exact Hd | congruence].
    - intros q n Hne Hq. rewrite lookup_insert_ne by congruence. now apply Ho. }
  destruct (FS.write_text fs1 path "") as [fs2|] eqn:Hw1; simpl;
    [|intros [= _ <-]; simpl; split; auto].
  destruct (Hstep fs1 fs2 "" ltac:(auto) ltac:(auto) Hw1) as [Hd2 Ho2].
  destruct (yaml_dump (VDict config)) as [text|]; simpl;
    [|intros [= _ <-]; simpl; split; auto].
  destruct (FS.write_text fs2 path text) as [fs3|] eqn:Hw2; simpl;
    [|intros [= _ <-]; simpl; split; auto].
  destruct (Hstep fs2 fs3 text Hd2 Ho2 Hw2) as [Hd3 Ho3].
  intros [= _ <-]; simpl; split; auto.
Qed.

Lemma read_text_inv (fs : FS.t) p text :
  FS.read_text fs p = Ok text ->
  PyPath.is_anchor p = false
  /\ FS.walk fs [] (PyPath.parent p) = Ok tt
  /\ fs !! p = Some (File text).
Proof.
  unfold FS.read_text. destruct (PyPath.is_anchor p); [discriminate|].
  destruct (FS.walk fs [] (PyPath.parent p)) as [[]|]; [|discriminate].
  destruct (fs !! p) as [[c|]|]; try discriminate. intros [= ->]. auto.
Qed.

End DiskFacts.

Section StoreOnDisk.
Context `{Yaml}.

(** Once [open(path, 'w')] has gone through, writing the text does. *)
Lemma write_text_after_open (fs fs2 : FS.t) path text :
  FS.write_text fs path "" = Ok fs2 ->
  FS.write_text fs2 path text = Ok (<[path := File text]> fs).
Proof.
  intros Hopen. apply FSFacts.write_text_inv in Hopen as (Hanchor & Hwalk & ->).
  unfold FS.write_text. rewrite Hanchor.
  rewrite FSFacts.walk_insert_deeper
    by (simpl; now apply FSFacts.parent_shorter).
  rewrite Hwalk, lookup_insert_eq, insert_insert_eq. reflexivity.
Qed.

(** X9: [save_config] raises nothing, whatever the disk and the document.
    It returns [False] exactly when a step raises: [mkdir] of the parent
    directory, [open] of the path for writing, or [yaml.dump] of the
    document; it returns [True] when all three go through, and the file
    then holds the dumped text.  It reads no input and leaves
    [current_config] alone. *)
Theorem save_config_reports_every_failure
    (config : PyDict.t) (path : PyPath.t) (w : world) :
  exists saved w',
    ConfigManager.save_config config path w = (Ok saved, w')
    /\ stdin w' = stdin w
    /\ current_config w' = current_config w
    /\ (saved = false <->
        (exists e, FS.mkdir_parents (files w) (PyPath.parent path) = Raise e)
        \/ (exists fs1 e,
              FS.mkdir_parents (files w) (PyPath.parent path) = Ok fs1
              /\ FS.write_text fs1 path "" = Raise e)
        \/ (exists e, yaml_dump (VDict config) = Raise e))
    /\ (saved = true ->
        exists text, yaml_dump (VDict config) = Ok text
                     /\ FS.read_text (files w') path = Ok text).
Proof.
  unfold ConfigManager.save_config, try_except, bind, get_files, put_files, lift, ret.
  destruct w as [fs lines cc]; simpl.
  destruct (FS.mkdir_parents fs (PyPath.parent path)) as [fs1|e1] eqn:Hmk; simpl.
  2:{ exists false. eexists. split; [reflexivity|]. simpl.
      split; [reflexivity|]. split; [reflexivity|]. split; [|discriminate].
      split; [intros _; left; now exists e1 | reflexivity]. }
  destruct (FS.write_text fs1 path "") as [fs2|e2] eqn:Hopen; simpl.
  2:{ exists false. eexists. split; [reflexivity|]. simpl.
      split; [reflexivity|]. split; [reflexivity|]. split; [|discriminate].
      split; [intros _; right; left; now exists fs1, e2 | reflexivity]. }
  destruct (yaml_dump (VDict config)) as [text|e3] eqn:Hdump; simpl.
  2:{ exists false. eexists. split; [reflexivity|]. simpl.
      split; [reflexivity|]. split; [reflexivity|]. split; [|discriminate].
      split; [intros _; right; right; now exists e3 | reflexivity]. }
  pose proof (write_text_after_open fs1 fs2 path text Hopen) as Hwrite.
  rewrite Hwrite; simpl.
  exists true. eexists. split; [reflexivity|]. simpl.
  split; [reflexivity|]. split; [reflexivity|]. split.
  - split; [discriminate|].
    intros [[e He] | [(fs1' & e & Hmk' & He) | [e He]]]; congruence.
  - intros _. exists text. split; [reflexivity|].
    exact (FSFacts.read_text_write_text _ _ _ _ Hwrite).
Qed.

(** X10: on a disk where no part of the way to [path] is a regular file and
    [path] is not a directory, [save_config] succeeds for a document that
    can be dumped: it makes the missing parent directories, and afterwards
    the path exists and holds the dumped text. *)
Theorem save_config_makes_parent_directories
    (config : PyDict.t) (path : PyPath.t) (w : world) (text : string) :
  PyPath.is_anchor path = false ->
  (forall k c, (0 < k < length path)%nat -> files w !! take k path <> Some (File c)) ->
  files w !! path <> Some Dir ->
  yaml_dump (VDict config) = Ok text ->
  exists w',
    ConfigManager.save_config config path w = (Ok true, w')
    /\ FS.walk (files w') [] (PyPath.parent path) = Ok tt
    /\ FS.exists_ (files w') path = true
    /\ FS.read_text (files w') path = Ok text.
Proof.
  intros Hanchor Hfree Hnodir Hdump.
  assert (Hparent : PyPath.parent path = take (length path - 1) path).
  { destruct path as [|a [|b path]]; try discriminate.
    - simpl in Hanchor. simpl. now rewrite Hanchor.
    - change (PyPath.parent (a :: b :: path)) with (removelast (a :: b :: path)).
      rewrite removelast_firstn_len. f_equal; simpl; lia. }
  assert (Hlen : (length (PyPath.parent path) = length path - 1)%nat).
  { rewrite Hparent, length_take. lia. }
  assert (Hlt : (length (PyPath.parent path) < length path)%nat)
    by now apply FSFacts.parent_shorter.
  assert (Htake : forall k, (k <= length (PyPath.parent path))%nat ->
                            take k (PyPath.parent path) = take k path).
  { intros k Hk. rewrite Hparent, take_take. f_equal. lia. }
  destruct (DiskFacts.mkdir_from_succeeds (PyPath.parent path) (files w) [])
    as [fs1 Hmk].
  { intros k c Hk. simpl. rewrite Htake by lia. apply Hfree. lia. }
  assert (Hsame : fs1 !! path = files w !! path).
  { eapply DiskFacts.mkdir_from_elsewhere; [exact Hmk|].
    intros k Hk Heq. apply (f_equal length) in Heq.
    simpl in Heq. rewrite length_take in Heq. lia. }
  exists (set_files (<[path := File text]> fs1) w).
  assert (Hsave : ConfigManager.save_config config path w
                  = (Ok true, set_files (<[path := File text]> fs1) w)).
  { apply SaveFacts.save_config_succeeds; auto. now rewrite Hsame. }
  assert (Hwalk : FS.walk (<[path := File text]> fs1) [] (PyPath.parent path) = Ok tt).
  { rewrite FSFacts.walk_insert_deeper by (simpl; lia).
    eapply SaveFacts.walk_after_mkdir_from, Hmk. }
  split; [exact Hsave|]. simpl. split; [exact Hwalk|]. split.
  - unfold FS.exists_. rewrite Hanchor, Hwalk, lookup_insert_eq. reflexivity.
  - unfold FS.read_text. rewrite Hanchor, Hwalk, lookup_insert_eq. reflexivity.
Qed.

(** X11: whether it succeeds or fails, [save_config] leaves every other
    file as it was: a file that could be read before, at a path other than
    the one saved to, reads the same text afterwards. *)
Theorem save_config_leaves_other_files
    (config : PyDict.t) (path other : PyPath.t) (w w' : world)
    (saved : bool) (text : string) :
  ConfigManager.save_config config path w = (Ok saved, w') ->
  other <> path ->
  FS.read_text (files w) other = Ok text ->
  FS.read_text (files w') other = Ok text.
Proof.
  intros Hsave Hother Hread.
  destruct (DiskFacts.save_config_disk _ _ _ _ _ Hsave) as [Hdirs Hrest].
  apply DiskFacts.read_text_inv in Hread as (Hanchor & Hwalk & Hfile).
  unfold FS.read_text. rewrite Hanchor.
  rewrite (DiskFacts.walk_kept _ _ _ _ Hdirs Hwalk).
  now rewrite (Hrest _ _ Hother Hfile).
Qed.

(** X12: [load_config] of a path that is a directory does not fall back to
    the empty document: [IsADirectoryError] is none of the errors it
    handles, and it comes out to the caller. *)
Theorem load_config_of_a_directory_raises (path : PyPath.t) (w : world) :
  FS.is_dir (files w) path = true ->
  ConfigManager.load_config path w = (Raise IsADirectoryError, w).
Proof.
  intros Hdir. apply load_config_propagates_other_errors; try discriminate.
  unfold FS.is_dir in Hdir. unfold FS.read_text.
  destruct (PyPath.is_anchor path); [reflexivity|]. simpl in Hdir.
  destruct (FS.walk (files w) [] (PyPath.parent path)) as [[]|]; [|discriminate].
  destruct (files w !! path) as [[c|]|]; try discriminate. reflexivity.
Qed.

End StoreOnDisk.

Lemma save_config_makes_parent_directories_witness :
  exists w',
    ConfigManager.save_config (H := MiniYaml.codec) small_document
      ["srv"; "k3s"; "config"; "custom-config.yaml"] (World ∅ [] VNone)
    = (Ok true, w')
    /\ FS.walk (files w') [] (PyPath.parent ["srv"; "k3s"; "config"; "custom-config.yaml"])
       = Ok tt
    /\ FS.exists_ (files w') ["srv"; "k3s"; "config"; "custom-config.yaml"] = true
    /\ FS.read_text (files w') ["srv"; "k3s"; "config"; "custom-config.yaml"]
       = Ok small_document_text.
Proof.
  apply (save_config_makes_parent_directories (H := MiniYaml.codec) small_document
           ["srv"; "k3s"; "config"; "custom-config.yaml"] (World ∅ [] VNone)
           small_document_text).
  - reflexivity.
  - intros k c _. simpl. rewrite lookup_empty. discriminate.
  - simpl. rewrite lookup_empty. discriminate.
  - vm_compute. reflexivity.
Defined.

Lemma save_config_leaves_other_files_witness :
  FS.read_text
    (files (snd (ConfigManager.save_config (H := MiniYaml.codec) sample_document
                   ["config"; "custom-config.yaml"]
                   (World disk_with_config [] VNone))))
    ["config"; "default.yaml"]
  = Ok small_document_text.
Proof.
  apply (save_config_leaves_other_files (H := MiniYaml.codec) sample_document
           ["config"; "custom-config.yaml"] ["config"; "default.yaml"]
           (World disk_with_config [] VNone) _ true small_document_text).
  - vm_compute. reflexivity.
  - discriminate.
  - vm_compute. reflexivity.
Defined.

Lemma load_config_of_a_directory_raises_witness :
  ConfigManager.load_config (H := MiniYaml.codec) ["config"]
    (World disk_with_config ["y"] VNone)
  = (Raise IsADirectoryError, World disk_with_config ["y"] VNone).
Proof.
  apply (load_config_of_a_directory_raises (H := MiniYaml.codec) ["config"]
           (World disk_with_config ["y"] VNone)).
  vm_compute. reflexivity.
Defined.

(** ** The build step *)

Lemma prompt_yes_no_lines_inv lines :
  forall answer rest,
    ConfigManager.prompt_yes_no_lines lines = (Ok answer, rest) ->
    exists skipped line,
      lines = (skipped ++ line :: rest)%list
      /\ Forall unrecognised skipped
      /\ ((affirmative line /\ answer = true) \/ (negative line /\ answer = false)).
Proof.
  induction lines as [|line lines IH]; intros answer rest; simpl; [discriminate|].
  fold (normalized line).
  destruct (String.eqb (normalized line) "y") eqn:E1.
  { intros [= <- <-]. exists [], line. apply String.eqb_eq in E1.
    split; [reflexivity|]. split; [constructor|]. left. split; [now left | reflexivity]. }
  destruct (String.eqb (normalized line) "yes") eqn:E2.
  { intros [= <- <-]. exists [], line. apply String.eqb_eq in E2.
    split; [reflexivity|]. split; [constructor|]. left. split; [now right | reflexivity]. }
  destruct (String.eqb (normalized line) "n") eqn:E3.
  { intros [= <- <-]. exists [], line. apply String.eqb_eq in E3.
    split; [reflexivity|]. split; [constructor|]. right. split; [now left | reflexivity]. }
  destruct (String.eqb (normalized line) "no") eqn:E4.
  { intros [= <- <-]. exists [], line. apply String.eqb_eq in E4.
    split; [reflexivity|]. split; [constructor|]. right. split; [now right | reflexivity]. }
  cbn [orb]. intros Hrun. apply IH in Hrun as (skipped & line' & -> & Hskip & Hans).
  exists (line :: skipped), line'. split; [reflexivity|]. split; [|exact Hans].
  apply String.eqb_neq in E1, E2, E3, E4.
  apply List.Forall_cons; [|exact Hskip].
  split; intros [Ha | Ha]; congruence.
Qed.

Lemma prompt_yes_no_inv message w answer w' :
  ConfigManager.prompt_yes_no message w = (Ok answer, w') ->
  exists skipped line,
    stdin w = (skipped ++ line :: stdin w')%list
    /\ Forall unrecognised skipped
    /\ ((affirmative line /\ answer = true) \/ (negative line /\ answer = false))
    /\ files w' = files w /\ current_config w' = current_config w.
Proof.
  unfold ConfigManager.prompt_yes_no.
  destruct (ConfigManager.prompt_yes_no_lines (stdin w)) as [r rest] eqn:Hrun.
  intros [= -> <-]. apply prompt_yes_no_lines_inv in Hrun as (skipped & line & ? & ? & ?).
  exists skipped, line. simpl. auto.
Qed.

(** X13: [_proceed_with_packer_build] replaces [current_config] by the
    document it is given before it asks anything, so the document is
    recorded whatever the answers are and even when the input ends; and it
    writes no file. *)
Theorem proceed_with_packer_build_records_document (config : value) (w : world) :
  current_config (snd (DeploymentOrchestrator._proceed_with_packer_build config w))
  = config
  /\ files (snd (DeploymentOrchestrator._proceed_with_packer_build config w)) = files w.
Proof.
  destruct (DeploymentOrchestrator._proceed_with_packer_build config w) as [r w'] eqn:Hrun.
  apply FlowFacts.proceed_with_packer_build_frame in Hrun as [Hfiles Hcc].
  simpl. auto.
Qed.

(** X14: the build step returns [True] only for a mapping, and only after
    two affirmative answers: the one to the build and the one to the next
    section, each possibly after lines it did not recognise; nothing after
    the second answer is read. *)
Theorem proceed_with_packer_build_needs_two_consents
    (config : value) (w w' : world) :
  DeploymentOrchestrator._proceed_with_packer_build config w = (Ok (VBool true), w') ->
  exists skipped1 consent1 skipped2 consent2,
    stdin w = (skipped1 ++ consent1 :: skipped2 ++ consent2 :: stdin w')%list
    /\ Forall unrecognised skipped1 /\ affirmative consent1
    /\ Forall unrecognised skipped2 /\ affirmative consent2
    /\ exists document, config = VDict document.
Proof.
  unfold DeploymentOrchestrator._proceed_with_packer_build, bind,
    DeploymentOrchestrator.assign_current_config.
  destruct (ConfigManager.prompt_yes_no _ (set_current_config config w))
    as [[go|e] w1] eqn:H1; [|discriminate].
  apply prompt_yes_no_inv in H1 as (skipped1 & consent1 & Hin1 & Hs1 & Ha1 & _).
  simpl in Hin1.
  destruct go; [|discriminate].
  destruct Ha1 as [[Ha1 _] | [_ [=]]].
  destruct config as [| | | | |document]; try discriminate.
  unfold DeploymentOrchestrator.config_get, ret.
  destruct (ConfigManager.prompt_yes_no _ w1) as [[next|e] w2] eqn:H2; [|discriminate].
  apply prompt_yes_no_inv in H2 as (skipped2 & consent2 & Hin2 & Hs2 & Ha2 & _).
  destruct next; [|discriminate].
  destruct Ha2 as [[Ha2 _] | [_ [=]]].
  intros [= <-].
  exists skipped1, consent1, skipped2, consent2.
  rewrite Hin1, Hin2. repeat split; eauto.
Qed.

Lemma proceed_with_packer_build_needs_two_consents_witness :
  exists skipped1 consent1 skipped2 consent2,
    ["?"; "Y"; "yes"; "n"]
    = (skipped1 ++ consent1 :: skipped2 ++ consent2 :: ["n"])%list
    /\ Forall unrecognised skipped1 /\ affirmative consent1
    /\ Forall unrecognised skipped2 /\ affirmative consent2
    /\ exists document, VDict small_document = VDict document.
Proof.
  apply (proceed_with_packer_build_needs_two_consents (VDict small_document)
           (World ∅ ["?"; "Y"; "yes"; "n"] VNone)
           (World ∅ ["n"] (VDict small_document))).
  vm_compute. reflexivity.
Defined.

(** ** The dispositions of the editing flow *)

Section Dispositions.
Context `{Yaml}.
Import DeploymentOrchestrator.

Lemma load_config_reads path w text doc :
  FS.read_text (files w) path = Ok text ->
  yaml_safe_load text = Ok doc ->
  ConfigManager.load_config path w = (Ok doc, w).
Proof.
  intros Hread Hload.
  unfold ConfigManager.load_config, try_except, bind, get_files, lift, ret; simpl.
  rewrite Hread; simpl. now rewrite Hload.
Qed.

(** X15: "Discard changes" drops the edits of the session: the build step
    is entered with what [load_config] returns for the path at that moment,
    which becomes [current_config], and no file is written. *)
Theorem discard_changes_reloads_from_disk
    (config config' : PyDict.t) (config_path : PyPath.t)
    (w w1 w2 : world) (original : value) :
  edit_parameters config w = (Ok config', w1) ->
  ConfigManager.prompt_choice "What would you like to do with these changes?"
    dispositions w1 = (Ok "Discard changes", w2) ->
  ConfigManager.load_config config_path w2 = (Ok original, w2) ->
  exists r w',
    _handle_parameter_changes config config_path w = (r, w')
    /\ current_config w' = original
    /\ files w' = files w.
Proof.
  intros Hedit Hchoice Hload.
  destruct (_proceed_with_packer_build original w2) as [r w'] eqn:Hgo.
  exists r, w'.
  apply FlowFacts.proceed_with_packer_build_frame in Hgo as Hframe.
  destruct Hframe as [Hfiles Hcc].
  apply ReadFacts.edit_parameters_reads in Hedit as Hr1.
  apply ReadFacts.prompt_choice_reads in Hchoice as Hr2.
  destruct Hr1 as [Hf1 _], Hr2 as [Hf2 _].
  split; [|split; [exact Hcc | congruence]].
  unfold _handle_parameter_changes.
  cbn [handle_parameter_changes_depth].
  rewrite Hedit, Hchoice. cbn [String.eqb Ascii.eqb Bool.eqb].
  unfold bind. rewrite Hload. exact Hgo.
Qed.

(** X16: "Write changes to config permanently", when the save succeeds and
    the YAML library reads back what it dumps for the edited document,
    leaves the edited document both as [current_config] and as what the
    file loads as afterwards. *)
Theorem write_changes_persists_edited_document
    (config config' : PyDict.t) (config_path : PyPath.t) (w w1 w2 w3 : world) :
  edit_parameters config w = (Ok config', w1) ->
  ConfigManager.prompt_choice "What would you like to do with these changes?"
    dispositions w1 = (Ok "Write changes to config permanently", w2) ->
  yaml_round_trips (VDict config') ->
  ConfigManager.save_config config' config_path w2 = (Ok true, w3) ->
  exists r w',
    _handle_parameter_changes config config_path w = (r, w')
    /\ current_config w' = VDict config'
    /\ ConfigManager.load_config config_path w' = (Ok (VDict config'), w').
Proof.
  intros Hedit Hchoice Hyaml Hsave.
  destruct (_proceed_with_packer_build (VDict config') w3) as [r w'] eqn:Hgo.
  exists r, w'.
  apply FlowFacts.proceed_with_packer_build_frame in Hgo as Hframe.
  destruct Hframe as [Hfiles Hcc].
  split; [|split; [exact Hcc|]].
  - unfold _handle_parameter_changes.
    cbn [handle_parameter_changes_depth].
    rewrite Hedit, Hchoice. cbn [String.eqb Ascii.eqb Bool.eqb].
    unfold bind. rewrite Hsave. exact Hgo.
  - apply save_config_inv in Hsave as (fs2 & fs3 & text & Hdump & Hwrite & ->).
    apply FSFacts.read_text_write_text in Hwrite. simpl in Hfiles.
    apply (load_config_reads _ _ text); [now rewrite Hfiles | now apply Hyaml].
Qed.

(** X17: "Return to editing" starts the flow again on the edited document
    and the remaining input: the edits of successive sessions add up, and
    only the last disposition decides what happens to them. *)
Theorem return_to_editing_continues_on_edited_document
    (config config' : PyDict.t) (config_path : PyPath.t) (w w1 w2 : world) :
  edit_parameters config w = (Ok config', w1) ->
  ConfigManager.prompt_choice "What would you like to do with these changes?"
    dispositions w1 = (Ok "Return to editing", w2) ->
  _handle_parameter_changes config config_path w
  = _handle_parameter_changes config' config_path w2.
Proof. apply handle_parameter_changes_reenters. Qed.

End Dispositions.

(** X18: the editing loop ends normally only on the sentinel: when it
    returns, the last line it read is "done" up to letter case and
    surrounding blanks, and every line after that one is left unread. *)
Theorem editing_loop_ends_only_on_done
    (config config' : PyDict.t) (lines rest : list string) :
  DeploymentOrchestrator.edit_lines config lines = (Ok config', rest) ->
  exists before sentinel,
    lines = (before ++ sentinel :: rest)%list
    /\ PyStr.lower (PyStr.strip sentinel) = "done".
Proof.
  remember (length lines) as n eqn:Hn. revert config lines Hn.
  induction n as [n IH] using lt_wf_ind. intros config lines Hn Hrun.
  destruct lines as [|line lines]; [discriminate Hrun|].
  simpl in Hrun. rewrite prompt_value_of_no_default in Hrun.
  destruct (String.eqb (PyStr.lower (PyStr.strip line)) "done") eqn:Edone.
  { injection Hrun as <- <-. exists [], line. split; [reflexivity|].
    now apply String.eqb_eq. }
  destruct (PyDict.get (PyStr.strip line) config) as [old|].
  - destruct lines as [|line' lines]; [discriminate Hrun|].
    destruct (IH (length lines) ltac:(subst n; simpl; lia) _ lines eq_refl Hrun)
      as (before & sentinel & -> & Hdone).
    exists (line :: line' :: before), sentinel. auto.
  - destruct (IH (length lines) ltac:(subst n; simpl; lia) _ lines eq_refl Hrun)
      as (before & sentinel & -> & Hdone).
    exists (line :: before), sentinel. auto.
Qed.

Lemma discard_changes_reloads_from_disk_witness :
  exists r w',
    DeploymentOrchestrator._handle_parameter_changes (H := MiniYaml.codec)
      small_document ["config"; "default.yaml"]
      (World disk_with_config ["memory_mb"; "8192"; "done"; "4"; "n"] VNone)
    = (r, w')
    /\ current_config w' = VDict small_document
    /\ files w'
       = files (World disk_with_config ["memory_mb"; "8192"; "done"; "4"; "n"] VNone).
Proof.
  apply (discard_changes_reloads_from_disk (H := MiniYaml.codec)
           small_document (PyDict.set "memory_mb" (VStr "8192") small_document)
           ["config"; "default.yaml"]
           (World disk_with_config ["memory_mb"; "8192"; "done"; "4"; "n"] VNone)
           (World disk_with_config ["4"; "n"] VNone)
           (World disk_with_config ["n"] VNone)
           (VDict small_document));
    vm_compute; reflexivity.
Defined.

Lemma write_changes_persists_edited_document_witness :
  exists r w',
    DeploymentOrchestrator._handle_parameter_changes (H := MiniYaml.codec)
      small_document ["config"; "default.yaml"]
      (World disk_with_config ["memory_mb"; "8192"; "done"; "1"; "n"] VNone)
    = (r, w')
    /\ current_config w' = VDict (PyDict.set "memory_mb" (VStr "8192") small_document)
    /\ ConfigManager.load_config (H := MiniYaml.codec) ["config"; "default.yaml"] w'
       = (Ok (VDict (PyDict.set "memory_mb" (VStr "8192") small_document)), w').
Proof.
  apply (write_changes_persists_edited_document (H := MiniYaml.codec)
           small_document (PyDict.set "memory_mb" (VStr "8192") small_document)
           ["config"; "default.yaml"]
           (World disk_with_config ["memory_mb"; "8192"; "done"; "1"; "n"] VNone)
           (World disk_with_config ["1"; "n"] VNone)
           (World disk_with_config ["n"] VNone)
           (snd (ConfigManager.save_config (H := MiniYaml.codec)
                   (PyDict.set "memory_mb" (VStr "8192") small_document)
                   ["config"; "default.yaml"]
                   (World disk_with_config ["n"] VNone)))).
  - vm_compute. reflexivity.
  - vm_compute. reflexivity.
  - intros text Hdump. vm_compute in Hdump. injection Hdump as <-.
    vm_compute. reflexivity.
  - vm_compute. reflexivity.
Defined.

Lemma return_to_editing_continues_on_edited_document_witness :
  DeploymentOrchestrator._handle_parameter_changes (H := MiniYaml.codec)
    small_document ["config"; "default.yaml"]
    (World disk_with_config
           ["memory_mb"; "8192"; "done"; "3"; "template_type"; "nfs-server"; "done"; "2"; "n"]
           VNone)
  = DeploymentOrchestrator._handle_parameter_changes (H := MiniYaml.codec)
      (PyDict.set "memory_mb" (VStr "8192") small_document) ["config"; "default.yaml"]
      (World disk_with_config ["template_type"; "nfs-server"; "done"; "2"; "n"] VNone).
Proof.
  apply (return_to_editing_continues_on_edited_document (H := MiniYaml.codec)
           small_document (PyDict.set "memory_mb" (VStr "8192") small_document)
           ["config"; "default.yaml"] _
           (World disk_with_config
                  ["3"; "template_type"; "nfs-server"; "done"; "2"; "n"] VNone));
    vm_compute; reflexivity.
Defined.

Lemma editing_loop_ends_only_on_done_witness :
  exists before sentinel,
    ["memory_mb"; "done"; "swap_mb"; " Done "; "2"]
    = (before ++ sentinel :: ["2"])%list
    /\ PyStr.lower (PyStr.strip sentinel) = "done".
Proof.
  apply (editing_loop_ends_only_on_done small_document
           (PyDict.set "memory_mb" (VStr "done") small_document)
           ["memory_mb"; "done"; "swap_mb"; " Done "; "2"] ["2"]).
  vm_compute. reflexivity.
Defined.

Example two_sessions_then_this_run_only :
  DeploymentOrchestrator._handle_parameter_changes (H := MiniYaml.codec)
    small_document ["config"; "default.yaml"]
    (World disk_with_config
           ["memory_mb"; "8192"; "done"; "3"; "template_type"; "nfs-server"; "done"; "2"; "n"]
           VNone)
  = (Ok (VBool false),
     World disk_with_config []
           (VDict [ ("template_type", VStr "nfs-server"); ("memory_mb", VStr "8192") ])).
Proof. vm_compute. reflexivity. Qed.

(** ** Creating a configuration, and building from one that is not there *)

Section CreateFlows.
Context `{Yaml}.
Import DeploymentOrchestrator.

(** X19: in the create-new-config flow, a save that succeeds for a document
    the YAML library reads back leaves the wizard's document as
    [current_config], and the file at the path the operator entered loads as
    that document afterwards, whatever is answered to the build step. *)
Theorem create_new_config_saves_the_wizard_document
    (self : t) (w w1 w2 w3 w4 : world) (answer : string) (config : PyDict.t) :
  ConfigManager.prompt_value "Enter path where to save the configuration"
    (Some (PyPath.to_str (PyPath.child (config_dir self) "custom-config.yaml"))) w
  = (Ok answer, w1) ->
  _gather_template_parameters self w1 = (Ok config, w2) ->
  ConfigManager.prompt_yes_no "Save this configuration?" w2 = (Ok true, w3) ->
  yaml_round_trips (VDict config) ->
  ConfigManager.save_config config (PyPath.of_str answer) w3 = (Ok true, w4) ->
  exists r w',
    _create_new_config self w = (r, w')
    /\ current_config w' = VDict config
    /\ ConfigManager.load_config (PyPath.of_str answer) w' = (Ok (VDict config), w').
Proof.
  intros Hask Hgather Hyes Hyaml Hsave.
  destruct (_proceed_with_packer_build (VDict config) (set_current_config (VDict config) w4))
    as [r w'] eqn:Hgo.
  exists r, w'.
  apply FlowFacts.proceed_with_packer_build_frame in Hgo as Hframe.
  destruct Hframe as [Hfiles Hcc]. simpl in Hfiles.
  split; [|split; [exact Hcc|]].
  - unfold _create_new_config, bind. rewrite Hask, Hgather.
    apply ReadFacts.gather_template_parameters_reads in Hgather as [_ Htruthy].
    rewrite (Htruthy config eq_refl). simpl. rewrite Hyes, Hsave.
    unfold assign_current_config. exact Hgo.
  - apply save_config_inv in Hsave as (fs2 & fs3 & text & Hdump & Hwrite & ->).
    apply FSFacts.read_text_write_text in Hwrite. simpl in Hfiles.
    apply (load_config_reads _ _ text); [now rewrite Hfiles | now apply Hyaml].
Qed.

(** X20: declining to save in the create-new-config flow ends it with
    [False]: the document just gathered is dropped, no file is written and
    [current_config] is what it was. *)
Theorem create_new_config_declined
    (self : t) (w w1 w2 w3 : world) (answer : string) (config : PyDict.t) :
  ConfigManager.prompt_value "Enter path where to save the configuration"
    (Some (PyPath.to_str (PyPath.child (config_dir self) "custom-config.yaml"))) w
  = (Ok answer, w1) ->
  _gather_template_parameters self w1 = (Ok config, w2) ->
  ConfigManager.prompt_yes_no "Save this configuration?" w2 = (Ok false, w3) ->
  _create_new_config self w = (Ok (VBool false), w3)
  /\ files w3 = files w
  /\ current_config w3 = current_config w.
Proof.
  intros Hask Hgather Hno.
  split.
  - unfold _create_new_config, bind. rewrite Hask, Hgather.
    apply ReadFacts.gather_template_parameters_reads in Hgather as [_ Htruthy].
    rewrite (Htruthy config eq_refl). simpl. rewrite Hno. reflexivity.
  - apply ReadFacts.prompt_value_reads in Hask as [Hf1 Hc1].
    apply ReadFacts.gather_template_parameters_reads in Hgather as [[Hf2 Hc2] _].
    apply ReadFacts.prompt_yes_no_reads in Hno as [Hf3 Hc3].
    split; congruence.
Qed.

(** X21: building from an existing configuration ends with [False] right
    after the path is read when nothing exists at the path, and also when
    the file loads as the empty document; no further line is read and
    nothing is recorded or written. *)
Theorem create_from_existing_config_without_document
    (self : t) (w w1 : world) (answer : string) :
  ConfigManager.prompt_value "Enter configuration file path"
    (Some (PyPath.to_str (PyPath.child (config_dir self) "default.yaml"))) w
  = (Ok answer, w1) ->
  FS.exists_ (files w1) (PyPath.of_str answer) = false
  \/ ConfigManager.load_config (PyPath.of_str answer) w1 = (Ok (VDict PyDict.empty), w1) ->
  _create_from_existing_config self w = (Ok (VBool false), w1)
  /\ files w1 = files w
  /\ current_config w1 = current_config w.
Proof.
  intros Hask Hwhy. split.
  - destruct Hwhy as [Hmissing | Hempty].
    + unfold _create_from_existing_config, bind at 1. rewrite Hask.
      unfold bind at 1, get_files. now rewrite Hmissing.
    + eapply create_from_existing_config_empty_document; eauto.
  - apply ReadFacts.prompt_value_reads in Hask. exact Hask.
Qed.

End CreateFlows.

Lemma create_new_config_saves_the_wizard_document_witness :
  exists r w',
    DeploymentOrchestrator._create_new_config (H := MiniYaml.codec) sample_orchestrator
      (World ∅ ("out/nfs.yaml" :: "2" :: sample_answers ++ ["y"; "n"]) VNone)
    = (r, w')
    /\ current_config w' = VDict wizard_document
    /\ ConfigManager.load_config (H := MiniYaml.codec) (PyPath.of_str "out/nfs.yaml") w'
       = (Ok (VDict wizard_document), w').
Proof.
  apply (create_new_config_saves_the_wizard_document (H := MiniYaml.codec)
           sample_orchestrator
           (World ∅ ("out/nfs.yaml" :: "2" :: sample_answers ++ ["y"; "n"]) VNone)
           (World ∅ ("2" :: sample_answers ++ ["y"; "n"]) VNone)
           (World ∅ ["y"; "n"] VNone)
           (World ∅ ["n"] VNone)
           (snd (ConfigManager.save_config (H := MiniYaml.codec) wizard_document
                   (PyPath.of_str "out/nfs.yaml") (World ∅ ["n"] VNone)))
           "out/nfs.yaml" wizard_document).
  - vm_compute. reflexivity.
  - vm_compute. reflexivity.
  - vm_compute. reflexivity.
  - intros text Hdump. vm_compute in Hdump. injection Hdump as <-.
    vm_compute. reflexivity.
  - vm_compute. reflexivity.
Defined.

Lemma create_new_config_declined_witness :
  DeploymentOrchestrator._create_new_config (H := MiniYaml.codec) sample_orchestrator
    (World ∅ ("" :: "2" :: sample_answers ++ ["no"; "y"]) VNone)
  = (Ok (VBool false), World ∅ ["y"] VNone)
  /\ files (World ∅ ["y"] VNone)
     = files (World ∅ ("" :: "2" :: sample_answers ++ ["no"; "y"]) VNone)
  /\ current_config (World ∅ ["y"] VNone)
     = current_config (World ∅ ("" :: "2" :: sample_answers ++ ["no"; "y"]) VNone).
Proof.
  apply (create_new_config_declined (H := MiniYaml.codec) sample_orchestrator
           (World ∅ ("" :: "2" :: sample_answers ++ ["no"; "y"]) VNone)
           (World ∅ ("2" :: sample_answers ++ ["no"; "y"]) VNone)
           (World ∅ ["no"; "y"] VNone)
           (World ∅ ["y"] VNone)
           "/srv/k3s/config/custom-config.yaml" wizard_document);
    vm_compute; reflexivity.
Defined.

Lemma create_from_existing_config_without_document_witness :
  DeploymentOrchestrator._create_from_existing_config (H := MiniYaml.codec)
    sample_orchestrator (World disk_with_config [""; "y"] VNone)
  = (Ok (VBool false), World disk_with_config ["y"] VNone)
  /\ files (World disk_with_config ["y"] VNone)
     = files (World disk_with_config [""; "y"] VNone)
  /\ current_config (World disk_with_config ["y"] VNone)
     = current_config (World disk_with_config [""; "y"] VNone).
Proof.
  apply (create_from_existing_config_without_document (H := MiniYaml.codec)
           sample_orchestrator (World disk_with_config [""; "y"] VNone)
           (World disk_with_config ["y"] VNone)
           "/srv/k3s/config/default.yaml").
  - vm_compute. reflexivity.
  - left. vm_compute. reflexivity.
Defined.

(** ** Templates on the disk *)

Module TemplateFacts.
Import PackerManager SuffixFacts.

Lemma stem_chars_app cs tail :
  stem_chars tail = Some [] -> stem_chars (cs ++ tail) = Some cs.
Proof.
  intros Htail. induction cs as [|c cs IH]; [exact Htail|].
  change (stem_chars ((c :: cs) ++ tail))
    with (match stem_chars (cs ++ tail) with
          | Some kept => Some (c :: kept)
          | None => if Ascii.eqb c "." then Some [] else None
          end).
  now rewrite IH.
Qed.

Lemma stem_chars_json cs :
  stem_chars (cs ++ PyStr.chars ".json") = Some cs.
Proof. apply stem_chars_app. reflexivity. Qed.

(** The stem of [base.json] is [base]. *)
Lemma stem_json base : base <> "" -> stem (base ++ ".json") = base.
Proof.
  intros Hbase. unfold stem. rewrite chars_append.
  destruct (PyStr.chars base) as [|c cs] eqn:E.
  - exfalso. apply Hbase. rewrite <- (of_chars_chars base), E. reflexivity.
  - cbn [app]. rewrite stem_chars_json.
    replace (length cs + 1 <? length (cs ++ PyStr.chars ".json"))%nat with true.
    + rewrite <- E. apply of_chars_chars.
    + symmetry. apply Nat.ltb_lt. rewrite length_app. simpl. lia.
Qed.

Lemma endswith_json base : PyStr.endswith (base ++ ".json") ".json" = true.
Proof. apply endswith_append. Qed.

Lemma entry_name_child d name : FS.entry_name d (d ++ [name]) = Some name.
Proof.
  induction d as [|part d IH]; [reflexivity|]. simpl. now rewrite String.eqb_refl.
Qed.

Lemma entry_name_inv d : forall q name, FS.entry_name d q = Some name -> q = (d ++ [name])%list.
Proof.
  induction d as [|part d IH]; intros q name; simpl.
  - destruct q as [|a [|b q]]; try discriminate. now intros [= ->].
  - destruct q as [|a q]; [discriminate|].
    destruct (String.eqb part a) eqn:E; [|discriminate].
    apply String.eqb_eq in E. subst a. intros Hq. f_equal. now apply IH.
Qed.

(** The names listed are those of the entries of the directory. *)
Lemma elem_of_listdir (fs : FS.t) d name :
  name ∈ FS.listdir fs d <-> is_Some (fs !! (d ++ [name])%list).
Proof.
  unfold FS.listdir. rewrite list_elem_of_omap. split.
  - intros ([q n] & Hin & Hname). simpl in Hname.
    apply entry_name_inv in Hname. subst q.
    apply elem_of_map_to_list in Hin. eauto.
  - intros [n Hn]. exists ((d ++ [name])%list, n). split.
    + now apply elem_of_map_to_list.
    + simpl. apply entry_name_child.
Qed.

Lemma is_dir_exists (fs : FS.t) d : FS.is_dir fs d = true -> FS.exists_ fs d = true.
Proof.
  unfold FS.is_dir, FS.exists_. destruct (PyPath.is_anchor d); [reflexivity|]. simpl.
  destruct (FS.walk fs [] (PyPath.parent d)); [|discriminate].
  destruct (fs !! d) as [[c|]|]; try discriminate. reflexivity.
Qed.

End TemplateFacts.

(** X22: when the templates directory is a directory,
    [get_available_templates] lists under the name [base] every entry
    [base.json] of it, and lists nothing but stems of entries of it whose
    name ends in [.json]; it changes nothing. *)
Theorem get_available_templates_lists_json_stems
    (self : PackerManager.t) (w : world) :
  FS.is_dir (files w) (PackerManager.templates_dir self) = true ->
  exists listed,
    PackerManager.get_available_templates self w = (Ok listed, w)
    /\ (forall base, base <> "" ->
          is_Some (files w !! (PackerManager.templates_dir self
                                 ++ [(base ++ ".json")%string])%list) ->
          In base listed)
    /\ (forall template, In template listed ->
          exists name,
            is_Some (files w !! (PackerManager.templates_dir self ++ [name])%list)
            /\ PyStr.endswith name ".json" = true
            /\ template = PackerManager.stem name).
Proof.
  intros Hdir.
  exists (map PackerManager.stem
              (PackerManager.glob_json (files w) (PackerManager.templates_dir self))).
  split; [|split].
  - unfold PackerManager.get_available_templates, bind, get_files, ret.
    now rewrite (TemplateFacts.is_dir_exists _ _ Hdir).
  - intros base Hbase Hentry. apply list_elem_of_In.
    rewrite <- (TemplateFacts.stem_json base Hbase) at 1.
    apply list_elem_of_fmap_2. unfold PackerManager.glob_json. rewrite Hdir.
    apply list_elem_of_filter. split; [apply TemplateFacts.endswith_json|].
    now apply TemplateFacts.elem_of_listdir.
  - intros template Hin. apply list_elem_of_In in Hin.
    apply list_elem_of_fmap_1 in Hin as (name & -> & Hname).
    unfold PackerManager.glob_json in Hname. rewrite Hdir in Hname.
    apply list_elem_of_filter in Hname as [Hjson Hname].
    apply TemplateFacts.elem_of_listdir in Hname. eauto.
Qed.

(** X23: when the templates directory does not exist,
    [_use_existing_template] returns [False] at once: it lists nothing,
    asks nothing and changes nothing. *)
Theorem use_existing_template_without_directory
    (self : DeploymentOrchestrator.t) (w : world) :
  FS.exists_ (files w) (PackerManager.templates_dir
                          (DeploymentOrchestrator.packer_manager self)) = false ->
  PackerManager.get_available_templates (DeploymentOrchestrator.packer_manager self) w
  = (Ok [], w)
  /\ DeploymentOrchestrator._use_existing_template self w = (Ok (VBool false), w).
Proof.
  intros Hmissing.
  assert (Hlist : PackerManager.get_available_templates
                    (DeploymentOrchestrator.packer_manager self) w = (Ok [], w)).
  { unfold PackerManager.get_available_templates, bind, get_files, ret.
    now rewrite Hmissing. }
  split; [exact Hlist|].
  unfold DeploymentOrchestrator._use_existing_template, bind. now rewrite Hlist.
Qed.

(** X24: when templates are listed and [current_config] is a mapping, a
    normal return of [_use_existing_template] has added the key
    [selected_template] to [current_config], bound to one of the listed
    names, keeping the bindings it had, and has written no file. *)
Theorem use_existing_template_records_selection
    (self : DeploymentOrchestrator.t) (w w' : world)
    (available : list string) (document : PyDict.t) (r : value) :
  PackerManager.get_available_templates (DeploymentOrchestrator.packer_manager self) w
  = (Ok available, w) ->
  available <> [] ->
  current_config w = VDict document ->
  DeploymentOrchestrator._use_existing_template self w = (Ok r, w') ->
  exists selected,
    In selected available
    /\ current_config w'
       = VDict (PyDict.set "selected_template" (VStr selected) document)
    /\ (forall key, key <> "selected_template" ->
          PyDict.get key (PyDict.set "selected_template" (VStr selected) document)
          = PyDict.get key document)
    /\ files w' = files w.
Proof.
  intros Hlist Hne Hcc.
  unfold DeploymentOrchestrator._use_existing_template, bind at 1. rewrite Hlist.
  destruct available as [|first available]; [contradiction|].
  unfold bind at 1.
  destruct (ConfigManager.prompt_choice _ (first :: available) w)
    as [[selected|e] w1] eqn:Hchoice; [|discriminate].
  apply ReadFacts.prompt_choice_reads in Hchoice as Hreads.
  destruct Hreads as [Hf1 Hc1].
  assert (Hmember : In selected (first :: available)).
  { unfold ConfigManager.prompt_choice in Hchoice.
    destruct (ConfigManager.prompt_choice_lines _ (stdin w)) as [r0 rest] eqn:Hrun.
    injection Hchoice as -> _. eapply prompt_choice_lines_member, Hrun. }
  unfold bind at 1, DeploymentOrchestrator.current_config_setitem.
  rewrite Hc1, Hcc. unfold bind.
  destruct (ConfigManager.prompt_yes_no _ _) as [[go|e] w2] eqn:Hgo; [|discriminate].
  apply ReadFacts.prompt_yes_no_reads in Hgo as [Hf2 Hc2]. simpl in Hf2, Hc2.
  intros Hret. assert (w2 = w') by (destruct go; now injection Hret). subst w2.
  exists selected. split; [exact Hmember|]. split; [exact Hc2|]. split.
  - intros key Hkey. apply PyDictFacts.get_set_ne. congruence.
  - congruence.
Qed.

Lemma get_available_templates_lists_json_stems_witness :
  exists listed,
    PackerManager.get_available_templates
      (DeploymentOrchestrator.packer_manager local_orchestrator)
      (World template_disk [] VNone)
    = (Ok listed, World template_disk [] VNone)
    /\ In "a" listed /\ In "b" listed /\ ~ In "notes" listed.
Proof.
  destruct (get_available_templates_lists_json_stems
              (DeploymentOrchestrator.packer_manager local_orchestrator)
              (World template_disk [] VNone) eq_refl)
    as (listed & Hrun & Hin & Hout).
  exists listed. split; [exact Hrun|]. split; [|split].
  - apply (Hin "a"); [discriminate|]. vm_compute. eauto.
  - apply (Hin "b"); [discriminate|]. vm_compute. eauto.
  - intros Hnotes. vm_compute in Hrun. injection Hrun as <-.
    simpl in Hnotes. intuition discriminate.
Defined.

Lemma use_existing_template_without_directory_witness :
  PackerManager.get_available_templates
    (DeploymentOrchestrator.packer_manager local_orchestrator)
    (World disk_with_config ["1"; "y"] VNone)
  = (Ok [], World disk_with_config ["1"; "y"] VNone)
  /\ DeploymentOrchestrator._use_existing_template local_orchestrator
       (World disk_with_config ["1"; "y"] VNone)
     = (Ok (VBool false), World disk_with_config ["1"; "y"] VNone).
Proof.
  apply (use_existing_template_without_directory local_orchestrator
           (World disk_with_config ["1"; "y"] VNone)).
  vm_compute. reflexivity.
Defined.

Lemma use_existing_template_records_selection_witness :
  exists selected,
    In selected ["b"; "a"]
    /\ current_config
         (snd (DeploymentOrchestrator._use_existing_template local_orchestrator
                 (World template_disk ["0"; "2"; "y"] (VDict [("stage", VStr "packer")]))))
       = VDict (PyDict.set "selected_template" (VStr selected) [("stage", VStr "packer")])
    /\ (forall key, key <> "selected_template" ->
          PyDict.get key
            (PyDict.set "selected_template" (VStr selected) [("stage", VStr "packer")])
          = PyDict.get key [("stage", VStr "packer")])
    /\ files
         (snd (DeploymentOrchestrator._use_existing_template local_orchestrator
                 (World template_disk ["0"; "2"; "y"] (VDict [("stage", VStr "packer")]))))
       = files (World template_disk ["0"; "2"; "y"] (VDict [("stage", VStr "packer")])).
Proof.
  apply (use_existing_template_records_selection local_orchestrator
           (World template_disk ["0"; "2"; "y"] (VDict [("stage", VStr "packer")]))
           _ ["b"; "a"] [("stage", VStr "packer")] (VBool true)).
  - vm_compute. reflexivity.
  - discriminate.
  - reflexivity.
  - vm_compute. reflexivity.
Defined.

(** ** The menu and the run *)

Section MenuAndRun.
Context `{Yaml}.
Import DeploymentOrchestrator.

(** X25: in the menu of [packer_section], after any number of entries that
    are refused, the entry 1 starts the build from an existing
    configuration, 2 the creation of a configuration and 3 the use of an
    existing template, each on the input that follows the entry; the menu
    never falls through without starting one of them. *)
Theorem packer_section_starts_selected_flow
    (self : t) (w : world) (skipped : list string) (entry : string)
    (selection : Z) (rest : list string) :
  Forall (invalid_entry packer_choices) skipped ->
  PyStr.py_int entry = Some selection ->
  1 <= selection <= 3 ->
  stdin w = (skipped ++ entry :: rest)%list ->
  packer_section self w = menu_flow selection self (set_stdin rest w).
Proof.
  intros Hskip Hentry Hrange Hin.
  unfold packer_section, bind at 1, ConfigManager.prompt_choice.
  rewrite Hin, prompt_choice_lines_skips by exact Hskip.
  simpl. rewrite Hentry.
  assert (Hcases : selection = 1 \/ selection = 2 \/ selection = 3) by lia.
  destruct Hcases as [-> | [-> | ->]]; reflexivity.
Qed.

(** X26: when the save fails in the create-new-config flow entered from the
    menu, [run] closes with the header of a cancelled section, having
    raised nothing, without reaching the build step: [current_config] is
    what it was and no line after the consent to save is read. *)
Theorem run_reports_failed_save_as_cancelled
    (self : t) (w w1 w2 w3 w4 w5 : world) (answer : string) (config : PyDict.t) :
  ConfigManager.prompt_choice "What would you like to do?" packer_choices w
  = (Ok "Create new configuration", w1) ->
  ConfigManager.prompt_value "Enter path where to save the configuration"
    (Some (PyPath.to_str (PyPath.child (config_dir self) "custom-config.yaml"))) w1
  = (Ok answer, w2) ->
  _gather_template_parameters self w2 = (Ok config, w3) ->
  ConfigManager.prompt_yes_no "Save this configuration?" w3 = (Ok true, w4) ->
  ConfigManager.save_config config (PyPath.of_str answer) w4 = (Ok false, w5) ->
  run self w = (Ok false, w5)
  /\ stdin w5 = stdin w4
  /\ current_config w5 = current_config w.
Proof.
  intros Hmenu Hask Hgather Hyes Hsave.
  split; [|split].
  - unfold run, bind at 1, packer_section, bind at 1. rewrite Hmenu.
    cbn [String.eqb Ascii.eqb Bool.eqb].
    unfold _create_new_config, bind. rewrite Hask, Hgather.
    apply ReadFacts.gather_template_parameters_reads in Hgather as [_ Htruthy].
    rewrite (Htruthy config eq_refl). simpl. rewrite Hyes, Hsave. reflexivity.
  - apply (ReadFacts.save_config_false_frame _ _ _ _ _ Hsave).
  - apply ReadFacts.prompt_choice_reads in Hmenu as [_ Hc0].
    apply ReadFacts.prompt_value_reads in Hask as [_ Hc1].
    apply ReadFacts.gather_template_parameters_reads in Hgather as [[_ Hc2] _].
    apply ReadFacts.prompt_yes_no_reads in Hyes as [_ Hc3].
    destruct (ReadFacts.save_config_false_frame _ _ _ _ _ Hsave) as [_ Hc4].
    congruence.
Qed.

End MenuAndRun.

Lemma packer_section_starts_selected_flow_witness :
  DeploymentOrchestrator.packer_section (H := MiniYaml.codec) local_orchestrator
    (World template_disk ["build"; "4"; after_separator "1"; "3"; "1"; "n"] (VDict []))
  = menu_flow (H := MiniYaml.codec) 3 local_orchestrator
      (set_stdin ["1"; "n"]
         (World template_disk ["build"; "4"; after_separator "1"; "3"; "1"; "n"]
                (VDict []))).
Proof.
  apply (packer_section_starts_selected_flow (H := MiniYaml.codec) local_orchestrator
           (World template_disk ["build"; "4"; after_separator "1"; "3"; "1"; "n"]
                  (VDict []))
           ["build"; "4"; after_separator "1"] "3" 3 ["1"; "n"]).
  - apply List.Forall_cons; [left; reflexivity|].
    apply List.Forall_cons; [right; exists 4; split; [reflexivity | simpl; lia]|].
    apply List.Forall_cons; [left; reflexivity|].
    apply List.Forall_nil.
  - reflexivity.
  - lia.
  - reflexivity.
Defined.

Lemma run_reports_failed_save_as_cancelled_witness :
  DeploymentOrchestrator.run (H := MiniYaml.codec) sample_orchestrator
    (World blocked_disk
           ("2" :: "srv-config/new.yaml" :: "2" :: sample_answers ++ ["y"; "y"; "y"]) VNone)
  = (Ok false, World blocked_disk ["y"; "y"] VNone)
  /\ stdin (World blocked_disk ["y"; "y"] VNone)
     = stdin (World blocked_disk ["y"; "y"] VNone)
  /\ current_config (World blocked_disk ["y"; "y"] VNone)
     = current_config
         (World blocked_disk
                ("2" :: "srv-config/new.yaml" :: "2" :: sample_answers ++ ["y"; "y"; "y"])
                VNone).
Proof.
  apply (run_reports_failed_save_as_cancelled (H := MiniYaml.codec) sample_orchestrator
           (World blocked_disk
                  ("2" :: "srv-config/new.yaml" :: "2" :: sample_answers ++ ["y"; "y"; "y"])
                  VNone)
           creating_world
           (World blocked_disk ("2" :: sample_answers ++ ["y"; "y"; "y"]) VNone)
           (World blocked_disk ["y"; "y"; "y"] VNone)
           (World blocked_disk ["y"; "y"] VNone)
           (World blocked_disk ["y"; "y"] VNone)
           "srv-config/new.yaml" wizard_document);
    vm_compute; reflexivity.
Defined.

(** ** The descriptor and its variables *)

(** X27: the size of the second disk never reaches the build descriptor:
    two configurations that differ only in [additional_disk_size_gb] render
    the same descriptor, for the storage kind as for any other. *)
Theorem generate_packer_config_ignores_additional_disk
    (self : PackerManager.t) (config : PackerConfig) (size : option Z) :
  PackerManager.generate_packer_config self (with_additional_disk size config)
  = PackerManager.generate_packer_config self config.
Proof. reflexivity. Qed.

(** X28: the rendered descriptor is closed under its variables: every field
    of the builder stanza that takes its value from a variable refers to a
    key of the [variables] section, and every key of that section is
    referred to by a field of the stanza. *)
Theorem generate_packer_config_variables_are_used
    (self : PackerManager.t) (config : PackerConfig) :
  exists stanza,
    PyDict.get "builders" (PackerManager.generate_packer_config self config)
    = Some (VList [VDict stanza])
    /\ Forall (fun field =>
                 exists name,
                   PyDict.get field stanza = Some (VStr (user_reference name))
                   /\ PyDict.mem name (PackerManager.variables config) = true)
              builder_reference_fields
    /\ Forall (fun name =>
                 exists field,
                   In field builder_reference_fields
                   /\ PyDict.get field stanza = Some (VStr (user_reference name)))
              (PyDict.keys (PackerManager.variables config)).
Proof.
  eexists. split; [|split].
  - unfold PackerManager.generate_packer_config.
    destruct (String.eqb (template_type config) "k3s-node"); [reflexivity|].
    destruct (String.eqb (template_type config) "nfs-server"); reflexivity.
  - unfold builder_reference_fields.
    apply List.Forall_cons; [exists "vcenter_host"; split; reflexivity|].
    apply List.Forall_cons; [exists "vcenter_user"; split; reflexivity|].
    apply List.Forall_cons; [exists "vcenter_password"; split; reflexivity|].
    apply List.Forall_cons; [exists "vcenter_datacenter"; split; reflexivity|].
    apply List.Forall_cons; [exists "vcenter_cluster"; split; reflexivity|].
    apply List.Forall_cons; [exists "vcenter_datastore"; split; reflexivity|].
    apply List.Forall_cons; [exists "template_name"; split; reflexivity|].
    apply List.Forall_cons; [exists "vcenter_network"; split; reflexivity|].
    apply List.Forall_cons; [exists "vcenter_folder"; split; reflexivity|].
    apply List.Forall_cons; [exists "iso_datastore"; split; reflexivity|].
    apply List.Forall_cons; [exists "iso_path"; split; reflexivity|].
    apply List.Forall_cons; [exists "cpu_cores"; split; reflexivity|].
    apply List.Forall_cons; [exists "memory_mb"; split; reflexivity|].
    apply List.Forall_cons; [exists "disk_size_gb"; split; reflexivity|].
    apply List.Forall_nil.
  - unfold PackerManager.variables, PyDict.keys. cbn [map fst].
    apply List.Forall_cons;
      [exists "vcenter_server"; split; [unfold builder_reference_fields; simpl; tauto | reflexivity]|].
    apply List.Forall_cons;
      [exists "username"; split; [unfold builder_reference_fields; simpl; tauto | reflexivity]|].
    apply List.Forall_cons;
      [exists "password"; split; [unfold builder_reference_fields; simpl; tauto | reflexivity]|].
    apply List.Forall_cons;
      [exists "datacenter"; split; [unfold builder_reference_fields; simpl; tauto | reflexivity]|].
    apply List.Forall_cons;
      [exists "cluster"; split; [unfold builder_reference_fields; simpl; tauto | reflexivity]|].
    apply List.Forall_cons;
      [exists "datastore"; split; [unfold builder_reference_fields; simpl; tauto | reflexivity]|].
    apply List.Forall_cons;
      [exists "network"; split; [unfold builder_reference_fields; simpl; tauto | reflexivity]|].
    apply List.Forall_cons;
      [exists "folder"; split; [unfold builder_reference_fields; simpl; tauto | reflexivity]|].
    apply List.Forall_cons;
      [exists "vm_name"; split; [unfold builder_reference_fields; simpl; tauto | reflexivity]|].
    apply List.Forall_cons;
      [exists "iso_datastore"; split; [unfold builder_reference_fields; simpl; tauto | reflexivity]|].
    apply List.Forall_cons;
      [exists "iso_path"; split; [unfold builder_reference_fields; simpl; tauto | reflexivity]|].
    apply List.Forall_cons;
      [exists "cpus"; split; [unfold builder_reference_fields; simpl; tauto | reflexivity]|].
    apply List.Forall_cons;
      [exists "memory"; split; [unfold builder_reference_fields; simpl; tauto | reflexivity]|].
    apply List.Forall_cons;
      [exists "disk_size"; split; [unfold builder_reference_fields; simpl; tauto | reflexivity]|].
    apply List.Forall_nil.
Qed.

(** ** What [print_config] prints *)

(** Induction on a value that goes into the values of a mapping. *)
Lemma value_nested_ind (P : value -> Prop) :
  P VNone -> (forall b, P (VBool b)) -> (forall n, P (VInt n)) ->
  (forall s, P (VStr s)) -> (forall items, P (VList items)) ->
  (forall entries, Forall (fun kv => P (snd kv)) entries -> P (VDict entries)) ->
  forall v, P v.
Proof.
  intros Hnone Hbool Hint Hstr Hlist Hdict.
  fix IH 1.
  intros [| b | n | s | items | entries];
    [exact Hnone | apply Hbool | apply Hint | apply Hstr | apply Hlist |].
  apply Hdict. revert entries.
  fix IHentries 1. intros [|[key v] entries].
  - apply List.Forall_nil.
  - apply List.Forall_cons; [apply IH | apply IHentries].
Qed.

Lemma print_item_length (v : value) :
  forall indent key,
    length (ConfigManager.print_item indent key v) = S (nested_keys v).
Proof.
  induction v as [| | | | items | entries Hentries] using value_nested_ind;
    intros indent key; try reflexivity.
  simpl. f_equal.
  induction Hentries as [|[key' v'] entries Hv _ IH]; [reflexivity|].
  simpl in Hv. rewrite length_app, Hv, IH. reflexivity.
Qed.

(** Induction on a value that goes into the items of a list and the values
    of a mapping. *)
Lemma value_deep_ind (P : value -> Prop) :
  P VNone -> (forall b, P (VBool b)) -> (forall n, P (VInt n)) ->
  (forall s, P (VStr s)) ->
  (forall items, Forall P items -> P (VList items)) ->
  (forall entries, Forall (fun kv => P (snd kv)) entries -> P (VDict entries)) ->
  forall v, P v.
Proof.
  intros Hnone Hbool Hint Hstr Hlist Hdict.
  fix IH 1.
  intros [| b | n | s | items | entries];
    [exact Hnone | apply Hbool | apply Hint | apply Hstr | |].
  - apply Hlist. revert items.
    fix IHitems 1. intros [|v items].
    + apply List.Forall_nil.
    + apply List.Forall_cons; [apply IH | apply IHitems].
  - apply Hdict. revert entries.
    fix IHentries 1. intros [|[key v] entries].
    + apply List.Forall_nil.
    + apply List.Forall_cons; [apply IH | apply IHentries].
Qed.

Module LineFacts.

Lemma line_feeds_app a b : line_feeds (a ++ b) = (line_feeds a + line_feeds b)%nat.
Proof. induction a as [|c a IH]; simpl; [reflexivity|]. rewrite IH. lia. Qed.

Lemma lines_printed_app calls calls' :
  lines_printed (calls ++ calls')
  = (lines_printed calls + lines_printed calls')%nat.
Proof. induction calls as [|text calls IH]; simpl; [reflexivity|]. rewrite IH. lia. Qed.

Lemma line_feeds_indentation indent :
  line_feeds (ConfigManager.indentation indent) = 0%nat.
Proof. induction indent as [|indent IH]; [reflexivity|]. simpl. exact IH. Qed.

Lemma line_feeds_of_chars cs :
  forallb not_line_feed cs = true -> line_feeds (PyStr.of_chars cs) = 0%nat.
Proof.
  induction cs as [|c cs IH]; [reflexivity|].
  intros Hall. cbn [forallb] in Hall. apply andb_true_iff in Hall as [Hc Hcs].
  change (line_feeds (PyStr.of_chars (c :: cs)))
    with ((if Ascii.eqb c (ascii_of_N 10) then 1 else 0)
          + line_feeds (PyStr.of_chars cs))%nat.
  unfold not_line_feed in Hc. destruct (Ascii.eqb c (ascii_of_N 10)); [discriminate|].
  now apply IH.
Qed.

(** [repr] escapes the line feed, with either quote. *)
Lemma repr_char_one_line (double : bool) c :
  forallb not_line_feed
    (PyStr.repr_char (if double then PyStr.dquote else "'"%char) c) = true.
Proof. destruct double; destruct c as [[] [] [] [] [] [] [] []]; reflexivity. Qed.

Lemma flat_map_one_line (double : bool) cs :
  forallb not_line_feed
    (flat_map (PyStr.repr_char (if double then PyStr.dquote else "'"%char)) cs) = true.
Proof.
  induction cs as [|c cs IH]; [reflexivity|].
  simpl. rewrite forallb_app, repr_char_one_line, IH. reflexivity.
Qed.

Lemma line_feeds_repr_str s : line_feeds (PyStr.repr_str s) = 0%nat.
Proof.
  unfold PyStr.repr_str. apply line_feeds_of_chars.
  destruct (PyStr.has_char "'" (PyStr.chars s)
            && negb (PyStr.has_char PyStr.dquote (PyStr.chars s))).
  - change (forallb not_line_feed
              (PyStr.dquote
                 :: flat_map (PyStr.repr_char (if true then PyStr.dquote else "'"%char))
                      (PyStr.chars s) ++ [PyStr.dquote]) = true).
    cbn [forallb]. rewrite forallb_app, (flat_map_one_line true). reflexivity.
  - change (forallb not_line_feed
              ("'"%char
                 :: flat_map (PyStr.repr_char (if false then PyStr.dquote else "'"%char))
                      (PyStr.chars s) ++ ["'"%char]) = true).
    cbn [forallb]. rewrite forallb_app, (flat_map_one_line false). reflexivity.
Qed.

Lemma line_feeds_string_of_uint d : line_feeds (NilEmpty.string_of_uint d) = 0%nat.
Proof. induction d; simpl; auto. Qed.

Lemma line_feeds_str_of_int n : line_feeds (PyStr.str_of_int n) = 0%nat.
Proof.
  unfold PyStr.str_of_int.
  assert (Huint : forall d, line_feeds (NilZero.string_of_uint d) = 0%nat).
  { intros d. destruct d; try reflexivity; apply (line_feeds_string_of_uint (_ d)). }
  destruct (Z.to_int n) as [d|d]; simpl; apply Huint.
Qed.

Lemma line_feeds_concat (texts : list string) :
  Forall (fun text => line_feeds text = 0%nat) texts ->
  line_feeds (String.concat ", " texts) = 0%nat.
Proof.
  induction 1 as [|text texts Htext _ IH]; [reflexivity|].
  destruct texts as [|text' texts]; [exact Htext|].
  change (String.concat ", " (text :: text' :: texts))
    with (text ++ ", " ++ String.concat ", " (text' :: texts)).
  rewrite !line_feeds_app, Htext, IH. reflexivity.
Qed.

(** [repr] of a value is one line: line feeds in its texts are escaped. *)
Lemma line_feeds_py_repr (v : value) : line_feeds (py_repr v) = 0%nat.
Proof.
  induction v as [| b | n | s | items Hitems | entries Hentries] using value_deep_ind.
  - reflexivity.
  - now destruct b.
  - apply line_feeds_str_of_int.
  - apply line_feeds_repr_str.
  - cbn [py_repr]. rewrite !line_feeds_app, line_feeds_concat; [reflexivity|].
    induction Hitems as [|v items Hv _ IH]; simpl;
      [apply List.Forall_nil | apply List.Forall_cons; assumption].
  - cbn [py_repr]. rewrite !line_feeds_app, line_feeds_concat; [reflexivity|].
    induction Hentries as [|[key v] entries Hv _ IH]; simpl;
      [apply List.Forall_nil | apply List.Forall_cons; [|assumption]].
    simpl in Hv. rewrite !line_feeds_app, line_feeds_repr_str, Hv. reflexivity.
Qed.

Lemma line_feeds_py_str (v : value) :
  (forall entries, v <> VDict entries) ->
  line_feeds (py_str v) = value_line_feeds v.
Proof.
  destruct v as [| b | n | s | items | entries]; intros Hleaf.
  - exact (line_feeds_py_repr VNone).
  - exact (line_feeds_py_repr (VBool b)).
  - exact (line_feeds_py_repr (VInt n)).
  - reflexivity.
  - exact (line_feeds_py_repr (VList items)).
  - now destruct (Hleaf entries).
Qed.

(** The line printed for a key whose value is not a mapping. *)
Lemma print_leaf_lines indent key text :
  line_feeds (ConfigManager.indentation indent ++ ConfigManager.BOLD ++ key ++ ":"
              ++ ConfigManager.ENDC ++ " " ++ text)
  = (line_feeds key + line_feeds text)%nat.
Proof.
  rewrite !line_feeds_app, line_feeds_indentation.
  change (line_feeds ConfigManager.BOLD) with 0%nat.
  change (line_feeds ":") with 0%nat.
  change (line_feeds ConfigManager.ENDC) with 0%nat.
  change (line_feeds " ") with 0%nat.
  lia.
Qed.

(** The lines printed for one item: one per key, and one more for each
    line feed in a key or in the text of a value. *)
Lemma print_item_lines (v : value) :
  forall indent key,
    lines_printed (ConfigManager.print_item indent key v)
    = (S (nested_keys v) + (line_feeds key + value_line_feeds v))%nat.
Proof.
  induction v as [| b | n | s | items | entries Hentries] using value_nested_ind;
    intros indent key.
  - cbn [ConfigManager.print_item lines_printed nested_keys].
    rewrite print_leaf_lines, line_feeds_py_str by (intros ?; discriminate).
    cbn [value_line_feeds]. lia.
  - cbn [ConfigManager.print_item lines_printed nested_keys].
    rewrite print_leaf_lines, line_feeds_py_str by (intros ?; discriminate).
    cbn [value_line_feeds]. lia.
  - cbn [ConfigManager.print_item lines_printed nested_keys].
    rewrite print_leaf_lines, line_feeds_py_str by (intros ?; discriminate).
    cbn [value_line_feeds]. lia.
  - cbn [ConfigManager.print_item lines_printed nested_keys].
    rewrite print_leaf_lines, line_feeds_py_str by (intros ?; discriminate).
    cbn [value_line_feeds]. lia.
  - cbn [ConfigManager.print_item lines_printed nested_keys].
    rewrite print_leaf_lines, line_feeds_py_str by (intros ?; discriminate).
    cbn [value_line_feeds]. lia.
  - cbn [ConfigManager.print_item lines_printed].
    rewrite !line_feeds_app, line_feeds_indentation.
    change (line_feeds ConfigManager.CYAN) with 0%nat.
    change (line_feeds ":") with 0%nat.
    change (line_feeds ConfigManager.ENDC) with 0%nat.
    cbn [nested_keys value_line_feeds].
    induction Hentries as [|[key' v'] entries Hv _ IH].
    + simpl. lia.
    + simpl in Hv. rewrite lines_printed_app, Hv. lia.
Qed.

End LineFacts.

(** X29: [print_config] makes one [print] call for each key of the
    document, the keys of nested mappings included, and the lines that
    appear are one for each key and one more for every line feed in a key
    or in a text value; a number, a truth value, [None] and a list each
    stay on the line of their key. *)
Theorem print_config_lines_printed (config : PyDict.t) (indent : nat) :
  length (ConfigManager.print_config config indent) = count_keys config
  /\ lines_printed (ConfigManager.print_config config indent)
     = (count_keys config + document_line_feeds config)%nat.
Proof.
  split.
  - induction config as [|[key v] config IH]; [reflexivity|].
    simpl. rewrite length_app, print_item_length, IH. reflexivity.
  - induction config as [|[key v] config IH]; [reflexivity|].
    simpl. rewrite LineFacts.lines_printed_app, LineFacts.print_item_lines, IH. lia.
Qed.

Example print_config_text_of_two_lines :
  lines_printed
    (ConfigManager.print_config
       [("note", VStr (String "a" (String (ascii_of_N 10) "b")));
        ("tags", VList [VStr (String "a" (String (ascii_of_N 10) "b"))])] 0)
  = 3%nat.
Proof. reflexivity. Qed.
